(** * go-opap: the OPAP REST client, embedded in Rocq

    The Go package [opap] (client.go and draws.go) builds a request for a
    path relative to the client's base URL, sends it over an [http.Client],
    classifies the HTTP status, decodes the JSON body into an envelope and
    unwraps the envelope.

    Go strings are byte strings: they are [string] here, one [ascii] per
    byte.  Go's [int] is [Z].  A Go slice is [option (list A)], with [None]
    for the nil slice.  A method of the package is a function of the state
    in module [opap]: the state holds the client the method is called on,
    the network as a function that answers requests, the log of the
    requests sent and the count of the response bodies closed.  A response
    body is the sequence of chunks its successive reads deliver, then an
    error or the end of the stream.

    The package calls into Go's standard library ([fmt], [net/url],
    [net/http], [encoding/json], [io]).  The modules [strings], [strconv],
    [fmt], [url], [io], [http] and [json] below are executable models of
    the library functions the package reaches, written after the library's
    code; module [opap] is the package itself.  The properties follow
    them, and at the end the tests of the package are replayed on the
    embedding. *)

From Stdlib Require Import ZArith String Ascii List Lia Bool.
From Stdlib Require Import DecimalString DecimalZ DecimalFacts.
Import ListNotations.
Open Scope string_scope.
Open Scope Z_scope.

Set Implicit Arguments.
Set Warnings "-register-all".

(** ** Bytes *)

Definition byte := ascii.
Bind Scope char_scope with byte.

Definition code (c : byte) : Z := Z.of_N (N_of_ascii c).

Definition byte_of (z : Z) : byte := ascii_of_N (Z.to_N z).

Definition between (lo hi c : byte) : bool :=
  (code lo <=? code c) && (code c <=? code hi).

Definition is_lower (c : byte) : bool := between "a" "z" c.
Definition is_upper (c : byte) : bool := between "A" "Z" c.
Definition is_alpha (c : byte) : bool := is_lower c || is_upper c.
Definition is_digit (c : byte) : bool := between "0" "9" c.

(** The double quote, byte 34. *)
Definition dquote : byte := Ascii false true false false false true false false.

Definition byte_in (c : byte) (set : string) : bool :=
  existsb (Ascii.eqb c) (list_ascii_of_string set).

(** ** Package strings (the functions net/url uses) *)

Module strings.

Fixpoint HasPrefix (s p : string) {struct p} : bool :=
  match p, s with
  | EmptyString, _ => true
  | String b p', String a s' => Ascii.eqb a b && HasPrefix s' p'
  | String _ _, EmptyString => false
  end.

(** [Cut s sep] for a one-byte separator: the text before the first
    [sep], the text after it, and whether [sep] occurs. *)
Fixpoint Cut (s : string) (sep : byte) : string * string * bool :=
  match s with
  | EmptyString => (EmptyString, EmptyString, false)
  | String a s' =>
      if Ascii.eqb a sep then (EmptyString, s', true)
      else let '(before, after, found) := Cut s' sep in
           (String a before, after, found)
  end.

Fixpoint ContainsByte (s : string) (c : byte) : bool :=
  match s with
  | EmptyString => false
  | String a s' => Ascii.eqb a c || ContainsByte s' c
  end.

Fixpoint CountByte (s : string) (c : byte) : nat :=
  match s with
  | EmptyString => O
  | String a s' => ((if Ascii.eqb a c then 1 else 0) + CountByte s' c)%nat
  end.

(** [LastCut s sep]: [None] when [sep] does not occur ([LastIndex] is
    -1), otherwise [s[:i]] and [s[i+1:]] for the last index [i]. *)
Fixpoint LastCut (s : string) (sep : byte) : option (string * string) :=
  match s with
  | EmptyString => None
  | String a s' =>
      match LastCut s' sep with
      | Some (before, after) => Some (String a before, after)
      | None => if Ascii.eqb a sep then Some (EmptyString, s') else None
      end
  end.

Definition HasSuffixByte (s : string) (c : byte) : bool :=
  match LastCut s c with
  | Some (_, EmptyString) => true
  | _ => false
  end.

(** [s[:len(s)-1]]. *)
Fixpoint DropLast (s : string) : string :=
  match s with
  | EmptyString => EmptyString
  | String a EmptyString => EmptyString
  | String a s' => String a (DropLast s')
  end.

Definition lower (c : byte) : byte :=
  if is_upper c then byte_of (code c + 32) else c.

Fixpoint ToLower (s : string) : string :=
  match s with
  | EmptyString => EmptyString
  | String a s' => String (lower a) (ToLower s')
  end.

(** The first [n] bytes and the rest. *)
Fixpoint splitAt (n : nat) (s : string) : string * string :=
  match n, s with
  | S n', String a s' => let '(l, r) := splitAt n' s' in (String a l, r)
  | _, _ => (EmptyString, s)
  end.

Fixpoint all (p : byte -> bool) (s : string) : bool :=
  match s with
  | EmptyString => true
  | String a s' => p a && all p s'
  end.

End strings.

(** ** Package strconv *)

Module strconv.

(** [Itoa]/[FormatInt(i, 10)]: a minus sign for a negative number, then
    the decimal digits with no leading zero. *)
Definition Itoa (i : Z) : string := NilZero.string_of_int (Z.to_int i).

Definition minInt64 : Z := - 2 ^ 63.
Definition maxInt64 : Z := 2 ^ 63 - 1.

Fixpoint digitsValue (s : string) (acc : Z) : Z :=
  match s with
  | EmptyString => acc
  | String a s' => digitsValue s' (10 * acc + (code a - 48))
  end.

(** [ParseInt(s, 10, 64)]: an optional sign, at least one digit, only
    digits, and a value that fits 64 bits; [None] is the error. *)
Definition ParseInt (s : string) : option Z :=
  let '(neg, ds) :=
    match s with
    | String "-" r => (true, r)
    | String "+" r => (false, r)
    | _ => (false, s)
    end in
  match ds with
  | EmptyString => None
  | _ =>
      if strings.all is_digit ds then
        let v := digitsValue ds 0 in
        let v := if neg then - v else v in
        if (minInt64 <=? v) && (v <=? maxInt64) then Some v else None
      else None
  end.

End strconv.

(** ** Package fmt: [Sprintf] with the verbs the package uses *)

Module fmt.

(** An operand of [Sprintf].  [Stringer] is a value printed through its
    [String] or [Error] method, given by the text that method returns. *)
Inductive arg : Type :=
| Str (s : string)
| Int (i : Z)
| Stringer (s : string).

Definition render (verb : byte) (a : arg) : string :=
  match a with
  | Str s =>
      if byte_in verb "sv" then s
      else "%!" ++ String verb ("(string=" ++ s ++ ")")
  | Int i =>
      if byte_in verb "dv" then strconv.Itoa i
      else "%!" ++ String verb ("(int=" ++ strconv.Itoa i ++ ")")
  | Stringer s =>
      if byte_in verb "sv" then s
      else "%!" ++ String verb "(BADVERB)"
  end.

(** The format is read left to right; each [%x] takes the next operand.
    Only the plain verbs are modelled (no flags, width or precision),
    which is all the package writes. *)
Fixpoint Sprintf (format : string) (args : list arg) : string :=
  match format with
  | EmptyString => EmptyString
  | String "%" (String "%" rest) => String "%" (Sprintf rest args)
  | String "%" (String verb rest) =>
      match args with
      | a :: args' => render verb a ++ Sprintf rest args'
      | [] => "%!" ++ String verb ("(MISSING)" ++ Sprintf rest [])
      end
  | String "%" EmptyString => "%!(NOVERB)"
  | String c rest => String c (Sprintf rest args)
  end.

End fmt.

(** ** Package net/url: [Parse], [ResolveReference] and [String] *)

Module url.

Inductive encoding : Type :=
| encodePath
| encodePathSegment
| encodeHost
| encodeZone
| encodeUserPassword
| encodeQueryComponent
| encodeFragment.

Definition encoding_eqb (a b : encoding) : bool :=
  match a, b with
  | encodePath, encodePath
  | encodePathSegment, encodePathSegment
  | encodeHost, encodeHost
  | encodeZone, encodeZone
  | encodeUserPassword, encodeUserPassword
  | encodeQueryComponent, encodeQueryComponent
  | encodeFragment, encodeFragment => true
  | _, _ => false
  end.

(** What [Parse] can fail with: [EscapeError], [InvalidHostError], or an
    [errors.New] text. *)
Inductive parseError : Type :=
| EscapeError (s : string)
| InvalidHostError (s : string)
| errorString (msg : string).

(** [*url.Error]: the operation, the URL text and the cause. *)
Record Error : Type := mkError {
  Op : string;
  ErrURL : string;
  Err : parseError
}.

Record Userinfo : Type := mkUserinfo {
  username : string;
  password : string;
  passwordSet : bool
}.

Record URL : Type := mkURL {
  Scheme : string;
  Opaque : string;
  User : option Userinfo;
  Host : string;
  Path : string;
  RawPath : string;
  OmitHost : bool;
  ForceQuery : bool;
  RawQuery : string;
  Fragment : string;
  RawFragment : string
}.

(** [new(URL)]. *)
Definition empty : URL :=
  mkURL "" "" None "" "" "" false false "" "" "".

Definition ishex (c : byte) : bool :=
  is_digit c || between "a" "f" c || between "A" "F" c.

Definition unhex (c : byte) : Z :=
  if is_digit c then code c - 48
  else if between "a" "f" c then code c - 97 + 10
  else if between "A" "F" c then code c - 65 + 10
  else 0.

Definition upperhex (n : Z) : byte :=
  if n <? 10 then byte_of (48 + n) else byte_of (65 + n - 10).

Definition shouldEscape (c : byte) (mode : encoding) : bool :=
  if is_alpha c || is_digit c then false
  else if (encoding_eqb mode encodeHost || encoding_eqb mode encodeZone)
          && (byte_in c "!$&'()*+,;=:[]<>" || Ascii.eqb c dquote)
  then false
  else if byte_in c "-_.~" then false
  else if byte_in c "$&+,/:;=?@" then
    match mode with
    | encodePath => Ascii.eqb c "?"
    | encodePathSegment => byte_in c "/;,?"
    | encodeUserPassword => byte_in c "@/?:"
    | encodeQueryComponent => true
    | encodeFragment => false
    | encodeHost | encodeZone => true
    end
  else if encoding_eqb mode encodeFragment && byte_in c "!()*" then false
  else true.

(** [unescape]: the check and the decoding in one pass from the left, so
    the error is the one Go's checking loop meets first. *)
Fixpoint unescape (s : string) (mode : encoding) : parseError + string :=
  match s with
  | EmptyString => inr EmptyString
  | String "%" rest =>
      match rest with
      | String h1 (String h2 rest') =>
          if ishex h1 && ishex h2 then
            let three := String "%" (String h1 (String h2 EmptyString)) in
            let v := byte_of (unhex h1 * 16 + unhex h2) in
            if encoding_eqb mode encodeHost && (unhex h1 <? 8)
               && negb (String.eqb three "%25")
            then inl (EscapeError three)
            else if encoding_eqb mode encodeZone
                    && negb (String.eqb three "%25")
                    && negb (Ascii.eqb v " ")
                    && shouldEscape v encodeHost
            then inl (EscapeError three)
            else match unescape rest' mode with
                 | inl e => inl e
                 | inr t => inr (String v t)
                 end
          else inl (EscapeError (fst (strings.splitAt 3 s)))
      | _ => inl (EscapeError (fst (strings.splitAt 3 s)))
      end
  | String c rest =>
      if (encoding_eqb mode encodeHost || encoding_eqb mode encodeZone)
         && (code c <? 128) && shouldEscape c encodeHost
      then inl (InvalidHostError (String c EmptyString))
      else match unescape rest mode with
           | inl e => inl e
           | inr t =>
               if Ascii.eqb c "+" && encoding_eqb mode encodeQueryComponent
               then inr (String " " t)
               else inr (String c t)
           end
  end.

Fixpoint escape (s : string) (mode : encoding) : string :=
  match s with
  | EmptyString => EmptyString
  | String c rest =>
      if Ascii.eqb c " " && encoding_eqb mode encodeQueryComponent
      then String "+" (escape rest mode)
      else if shouldEscape c mode
      then String "%" (String (upperhex (code c / 16))
                         (String (upperhex (code c mod 16))
                            (escape rest mode)))
      else String c (escape rest mode)
  end.

Definition validEncoding (s : string) (mode : encoding) : bool :=
  strings.all
    (fun c => byte_in c "!$&'()*+,;=:@[]%" || negb (shouldEscape c mode))
    s.

Definition stringContainsCTLByte (s : string) : bool :=
  negb (strings.all (fun c => negb ((code c <? 32) || (code c =? 127))) s).

(** [u.setPath(p)]: the new [Path] and [RawPath]. *)
Definition setPath (u : URL) (p : string) : parseError + URL :=
  match unescape p encodePath with
  | inl e => inl e
  | inr path =>
      let raw := if String.eqb p (escape path encodePath) then "" else p in
      inr (mkURL (Scheme u) (Opaque u) (User u) (Host u) path raw
             (OmitHost u) (ForceQuery u) (RawQuery u)
             (Fragment u) (RawFragment u))
  end.

Definition setFragment (u : URL) (f : string) : parseError + URL :=
  match unescape f encodeFragment with
  | inl e => inl e
  | inr frag =>
      let raw :=
        if String.eqb f (escape frag encodeFragment) then "" else f in
      inr (mkURL (Scheme u) (Opaque u) (User u) (Host u) (Path u)
             (RawPath u) (OmitHost u) (ForceQuery u) (RawQuery u) frag raw)
  end.

Definition EscapedPath (u : URL) : string :=
  let hint :=
    if negb (String.eqb (RawPath u) "")
       && validEncoding (RawPath u) encodePath
    then match unescape (RawPath u) encodePath with
         | inr p => String.eqb p (Path u)
         | inl _ => false
         end
    else false in
  if hint then RawPath u
  else if String.eqb (Path u) "*" then "*"
  else escape (Path u) encodePath.

Definition EscapedFragment (u : URL) : string :=
  let hint :=
    if negb (String.eqb (RawFragment u) "")
       && validEncoding (RawFragment u) encodeFragment
    then match unescape (RawFragment u) encodeFragment with
         | inr f => String.eqb f (Fragment u)
         | inl _ => false
         end
    else false in
  if hint then RawFragment u else escape (Fragment u) encodeFragment.

(** [getScheme]: the loop over the bytes, with [seen] the bytes already
    passed (so [seen = ""] is Go's [i == 0]). *)
Fixpoint getSchemeFrom (seen rest whole : string)
  : parseError + (string * string) :=
  match rest with
  | EmptyString => inr ("", whole)
  | String c rest' =>
      if is_alpha c then getSchemeFrom (seen ++ String c "") rest' whole
      else if is_digit c || byte_in c "+-." then
        match seen with
        | EmptyString => inr ("", whole)
        | _ => getSchemeFrom (seen ++ String c "") rest' whole
        end
      else if Ascii.eqb c ":" then
        match seen with
        | EmptyString => inl (errorString "missing protocol scheme")
        | _ => inr (seen, rest')
        end
      else inr ("", whole)
  end.

Definition getScheme (rawURL : string) : parseError + (string * string) :=
  getSchemeFrom "" rawURL rawURL.

Definition validOptionalPort (port : string) : bool :=
  match port with
  | EmptyString => true
  | String c ds => Ascii.eqb c ":" && strings.all is_digit ds
  end.

Definition validUserinfo (s : string) : bool :=
  strings.all
    (fun c => is_alpha c || is_digit c || byte_in c "-._:~!$&'()*+,;=%@") s.

(** [strings.Index(s, sub)], as the text before and from the match. *)
Fixpoint IndexCut (s sub : string) : option (string * string) :=
  if strings.HasPrefix s sub then Some (EmptyString, s)
  else match s with
       | EmptyString => None
       | String a s' =>
           match IndexCut s' sub with
           | Some (l, r) => Some (String a l, r)
           | None => None
           end
       end.

Definition bind {E A B} (x : E + A) (f : A -> E + B) : E + B :=
  match x with
  | inl e => inl e
  | inr a => f a
  end.

Definition parseHost (host : string) : parseError + string :=
  if strings.HasPrefix host "[" then
    match strings.LastCut host "]" with
    | None => inl (errorString "missing ']' in host")
    | Some (inside, colonPort) =>
        if negb (validOptionalPort colonPort)
        then inl (errorString
                    ("invalid port " ++ String dquote colonPort
                     ++ String dquote " after host"))
        else
          match IndexCut inside "%25" with
          | Some (h1, zone) =>
              bind (unescape h1 encodeHost) (fun host1 =>
              bind (unescape zone encodeZone) (fun host2 =>
              bind (unescape (String "]" colonPort) encodeHost)
                (fun host3 => inr (host1 ++ host2 ++ host3))))
          | None => unescape host encodeHost
          end
    end
  else
    match strings.LastCut host ":" with
    | Some (_, port) =>
        if negb (validOptionalPort (String ":" port))
        then inl (errorString
                    ("invalid port " ++ String dquote (String ":" port)
                     ++ String dquote " after host"))
        else unescape host encodeHost
    | None => unescape host encodeHost
    end.

Definition parseAuthority (authority : string)
  : parseError + (option Userinfo * string) :=
  match strings.LastCut authority "@" with
  | None => bind (parseHost authority) (fun h => inr (None, h))
  | Some (userinfo, hostpart) =>
      bind (parseHost hostpart) (fun h =>
      if negb (validUserinfo userinfo)
      then inl (errorString "net/url: invalid userinfo")
      else if negb (strings.ContainsByte userinfo ":") then
        bind (unescape userinfo encodeUserPassword) (fun name =>
        inr (Some (mkUserinfo name "" false), h))
      else
        let '(name, pw, _) := strings.Cut userinfo ":" in
        bind (unescape name encodeUserPassword) (fun name' =>
        bind (unescape pw encodeUserPassword) (fun pw' =>
        inr (Some (mkUserinfo name' pw' true), h))))
  end.

(** [parse(rawURL, false)], the part of [Parse] before the fragment. *)
Definition parse (rawURL : string) : parseError + URL :=
  if stringContainsCTLByte rawURL
  then inl (errorString "net/url: invalid control character in URL")
  else if String.eqb rawURL "*"
  then inr (mkURL "" "" None "" "*" "" false false "" "" "")
  else
    bind (getScheme rawURL) (fun '(scheme0, rest0) =>
    let scheme := strings.ToLower scheme0 in
    let '(rest, force, query) :=
      if strings.HasSuffixByte rest0 "?"
         && Nat.eqb (strings.CountByte rest0 "?") 1
      then (strings.DropLast rest0, true, "")
      else let '(r, q, _) := strings.Cut rest0 "?" in (r, false, q) in
    let rootless := negb (strings.HasPrefix rest "/") in
    if rootless && negb (String.eqb scheme "")
    then inr (mkURL scheme rest None "" "" "" false force query "" "")
    else if rootless
            && strings.ContainsByte (fst (fst (strings.Cut rest "/"))) ":"
    then inl (errorString "first path segment in URL cannot contain colon")
    else if (negb (String.eqb scheme "")
             || negb (strings.HasPrefix rest "///"))
            && strings.HasPrefix rest "//"
    then
      let '(authority, after, found) :=
        strings.Cut (snd (strings.splitAt 2 rest)) "/" in
      let rest' := if found then String "/" after else "" in
      bind (parseAuthority authority) (fun '(user, host) =>
      setPath (mkURL scheme "" user host "" "" false force query "" "")
        rest')
    else
      let omit := negb (String.eqb scheme "") && strings.HasPrefix rest "/" in
      setPath (mkURL scheme "" None "" "" "" omit force query "" "") rest).

(** [url.Parse]. *)
Definition Parse (rawURL : string) : Error + URL :=
  let '(u, frag, _) := strings.Cut rawURL "#" in
  match parse u with
  | inl e => inl (mkError "parse" u e)
  | inr url =>
      if String.eqb frag "" then inr url
      else match setFragment url frag with
           | inl e => inl (mkError "parse" rawURL e)
           | inr url' => inr url'
           end
  end.

Definition Userinfo_String (u : Userinfo) : string :=
  escape (username u) encodeUserPassword
  ++ (if passwordSet u
      then ":" ++ escape (password u) encodeUserPassword else "").

(** The method [String] of [URL]. *)
Definition String_ (u : URL) : string :=
  let head := if String.eqb (Scheme u) "" then "" else Scheme u ++ ":" in
  let body :=
    if negb (String.eqb (Opaque u) "") then head ++ Opaque u
    else
      let hasUser := match User u with Some _ => true | None => false end in
      let auth :=
        if negb (String.eqb (Scheme u) "")
           || negb (String.eqb (Host u) "") || hasUser
        then
          if OmitHost u && String.eqb (Host u) "" && negb hasUser then ""
          else
            (if negb (String.eqb (Host u) "")
                || negb (String.eqb (Path u) "") || hasUser
             then "//" else "")
            ++ match User u with
               | Some ui => Userinfo_String ui ++ "@"
               | None => ""
               end
            ++ (if String.eqb (Host u) "" then ""
                else escape (Host u) encodeHost)
        else "" in
      let path := EscapedPath u in
      let buf := head ++ auth in
      let buf :=
        if negb (String.eqb path "") && negb (strings.HasPrefix path "/")
           && negb (String.eqb (Host u) "")
        then buf ++ "/" else buf in
      let buf :=
        if String.eqb buf ""
           && strings.ContainsByte (fst (fst (strings.Cut path "/"))) ":"
        then "./" else buf in
      buf ++ path in
  let body :=
    if ForceQuery u || negb (String.eqb (RawQuery u) "")
    then body ++ "?" ++ RawQuery u else body in
  if String.eqb (Fragment u) "" then body
  else body ++ "#" ++ EscapedFragment u.

(** The segments of [s] between slashes, as the repeated
    [strings.Cut(remaining, "/")] of [resolvePath] yields them. *)
Fixpoint segments (s : string) : list string :=
  match s with
  | EmptyString => [EmptyString]
  | String c s' =>
      if Ascii.eqb c "/" then EmptyString :: segments s'
      else match segments s' with
           | seg :: more => String c seg :: more
           | [] => [String c EmptyString]
           end
  end.

Definition isDot (elem : string) : bool :=
  String.eqb elem "." || String.eqb elem "..".

(** One turn of the loop of [resolvePath] on the state
    [(dst[1:], first)]: [dst] always starts with the slash written before
    the loop, and only the text after it is kept here. *)
Definition resolveStep (st : string * bool) (elem : string)
  : string * bool :=
  let '(str, first) := st in
  if String.eqb elem "." then (str, false)
  else if String.eqb elem ".." then
    match strings.LastCut str "/" with
    | None => ("", true)
    | Some (before, _) => (before, first)
    end
  else ((if first then str else str ++ "/") ++ elem, false).

Definition resolvePath (base ref : string) : string :=
  let full :=
    match ref with
    | EmptyString => base
    | String c _ =>
        if Ascii.eqb c "/" then ref
        else match strings.LastCut base "/" with
             | Some (before, _) => before ++ "/" ++ ref
             | None => ref
             end
    end in
  match full with
  | EmptyString => ""
  | _ =>
      let elems := segments full in
      let '(str, _) := fold_left resolveStep elems ("", true) in
      let str := if isDot (last elems "") then str ++ "/" else str in
      if strings.HasPrefix str "/" then str else String "/" str
  end.

(** The method [ResolveReference] of [URL]. *)
Definition ResolveReference (u ref : URL) : URL :=
  let scheme := if String.eqb (Scheme ref) "" then Scheme u else Scheme ref in
  let withPath (url : URL) (p : string) : URL :=
    match setPath url p with
    | inr url' => url'
    | inl _ => url
    end in
  let hasUser := match User ref with Some _ => true | None => false end in
  if negb (String.eqb (Scheme ref) "") || negb (String.eqb (Host ref) "")
     || hasUser
  then
    withPath
      (mkURL scheme (Opaque ref) (User ref) (Host ref) (Path ref)
         (RawPath ref) (OmitHost ref) (ForceQuery ref) (RawQuery ref)
         (Fragment ref) (RawFragment ref))
      (resolvePath (EscapedPath ref) "")
  else if negb (String.eqb (Opaque ref) "")
  then mkURL scheme (Opaque ref) None "" "" (RawPath ref) (OmitHost ref)
         (ForceQuery ref) (RawQuery ref) (Fragment ref) (RawFragment ref)
  else
    let inherit :=
      String.eqb (Path ref) "" && negb (ForceQuery ref)
      && String.eqb (RawQuery ref) "" in
    let query := if inherit then RawQuery u else RawQuery ref in
    let keepFrag := inherit && String.eqb (Fragment ref) "" in
    let frag := if keepFrag then Fragment u else Fragment ref in
    let rawfrag := if keepFrag then RawFragment u else RawFragment ref in
    if String.eqb (Path ref) "" && negb (String.eqb (Opaque u) "")
    then mkURL scheme (Opaque u) None "" "" (RawPath ref) (OmitHost ref)
           (ForceQuery ref) query frag rawfrag
    else
      withPath
        (mkURL scheme (Opaque ref) (User u) (Host u) (Path ref)
           (RawPath ref) (OmitHost ref) (ForceQuery ref) query frag rawfrag)
        (resolvePath (EscapedPath u) (EscapedPath ref)).

End url.

(** ** Go's [error] values

    The error values that can reach the package, each with its [Error]
    text.  [errorString] is what [errors.New] and [fmt.Errorf] build: it
    keeps the text only.  A failure of the transport or of a body read is
    any [error] value. *)

Inductive error : Type :=
| UrlError (e : url.Error)
| errorString (msg : string)
| EOF
| ErrUnexpectedEOF
| SyntaxError (msg : string)
| UnmarshalTypeError (Value Type_ Struct Field : string)
| InvalidUnmarshalError (Type_ : string).

(** [InvalidUnmarshalError] with the empty text is the one with a nil
    [Type], for the nil interface. *)

(** [strconv.Quote] for text without control or non-ASCII bytes: the text
    between double quotes, with a backslash (byte 92) before a quote or
    backslash. *)
Fixpoint quoteBody (s : string) : string :=
  match s with
  | EmptyString => String dquote EmptyString
  | String c s' =>
      if Ascii.eqb c dquote || Ascii.eqb c "092"
      then String "092" (String c (quoteBody s'))
      else String c (quoteBody s')
  end.

Definition Quote (s : string) : string := String dquote (quoteBody s).

Definition parseError_Error (e : url.parseError) : string :=
  match e with
  | url.EscapeError s => "invalid URL escape " ++ Quote s
  | url.InvalidHostError s => "invalid character " ++ Quote s ++ " in host name"
  | url.errorString msg => msg
  end.

Definition Error (e : error) : string :=
  match e with
  | UrlError e =>
      url.Op e ++ " " ++ Quote (url.ErrURL e) ++ ": "
      ++ parseError_Error (url.Err e)
  | errorString msg => msg
  | EOF => "EOF"
  | ErrUnexpectedEOF => "unexpected EOF"
  | SyntaxError msg => msg
  | UnmarshalTypeError v t s f =>
      if String.eqb s "" && String.eqb f ""
      then "json: cannot unmarshal " ++ v ++ " into Go value of type " ++ t
      else "json: cannot unmarshal " ++ v ++ " into Go struct field "
           ++ s ++ "." ++ f ++ " of type " ++ t
  | InvalidUnmarshalError t =>
      if String.eqb t "" then "json: Unmarshal(nil)"
      else "json: Unmarshal(nil " ++ t ++ ")"
  end.

(** [fmt.Errorf] without [%w]: the formatted text as a new error. *)
Definition Errorf (format : string) (args : list fmt.arg) : error :=
  errorString (fmt.Sprintf format args).

(** ** Package io: a reader, as the results of its successive [Read]s *)

Module io.

(** A stream: the [chunks] that successive calls of [Read] deliver, then
    [failure] for ever ([None] is [io.EOF]). *)
Record Reader : Type := mkReader {
  chunks : list string;
  failure : option error
}.

Definition content (r : Reader) : string := String.concat "" (chunks r).

End io.

(** [ioutil.ReadAll]: the data read until the stream ends, and the error
    that ended it unless it is [io.EOF]. *)
Definition ReadAll (r : io.Reader) : string * option error :=
  (io.content r, io.failure r).

(** ** Package net/http: requests, responses and [NewRequest] *)

Module http.

Record Request : Type := mkRequest {
  Method : string;
  URL : url.URL;
  Host : string;
  ReqBody : option io.Reader
}.

(** A response as [Client.Do] returns it: [Request] is the request that
    was sent to obtain it. *)
Record Response : Type := mkResponse {
  StatusCode : Z;
  Body : io.Reader;
  Request_ : Request
}.

(** An [*http.Client]: which transport it is, and its timeout. *)
Record Client : Type := mkClient {
  Transport : nat;
  Timeout : Z
}.

Definition DefaultClient : Client := mkClient 0 0.

(** RFC 7230 token bytes. *)
Definition isToken (c : byte) : bool :=
  is_alpha c || is_digit c || byte_in c "!#$%&'*+-.^_`|~".

Definition validMethod (method : string) : bool :=
  negb (String.eqb method "") && strings.all isToken method.

Definition hasPort (s : string) : bool :=
  match strings.LastCut s ":" with
  | None => false
  | Some (_, after) => negb (strings.ContainsByte after "]")
  end.

Definition removeEmptyPort (host : string) : string :=
  if hasPort host && strings.HasSuffixByte host ":"
  then strings.DropLast host else host.

(** [http.NewRequest]: the request, or the error with a nil request. *)
Definition NewRequest (method urlStr : string) (body : option io.Reader)
  : error + Request :=
  let method := if String.eqb method "" then "GET" else method in
  if negb (validMethod method)
  then inl (Errorf "net/http: invalid method %s" [fmt.Str (Quote method)])
  else match url.Parse urlStr with
       | inl e => inl (UrlError e)
       | inr u =>
           let host := removeEmptyPort (url.Host u) in
           let u' := url.mkURL (url.Scheme u) (url.Opaque u) (url.User u)
                       host (url.Path u) (url.RawPath u) (url.OmitHost u)
                       (url.ForceQuery u) (url.RawQuery u)
                       (url.Fragment u) (url.RawFragment u) in
           inr (mkRequest method u' host body)
       end.

End http.

(** ** Package encoding/json: the scanner *)

Module json.

(** A scanned JSON value.  A number keeps its literal; a string is
    already unquoted; an object keeps its members in order, duplicates
    included. *)
Inductive value : Type :=
| Null
| Bool (b : bool)
| Number (lit : string)
| Str (s : string)
| Array (elems : list value)
| Object (members : list (string * value)).

(** *** Unquoting a string literal *)

(** The size of the valid UTF-8 sequence at the head of [s], 0 when the
    head is not one ([utf8.DecodeRune] then yields [RuneError], width 1). *)
Definition runeSize (s : string) : nat :=
  let cont c := between (byte_of 128) (byte_of 191) c in
  match s with
  | String c0 rest =>
      let b0 := code c0 in
      if b0 <? 128 then 1%nat
      else if (194 <=? b0) && (b0 <=? 223) then
        match rest with
        | String c1 _ => if cont c1 then 2%nat else 0%nat
        | _ => 0%nat
        end
      else if (224 <=? b0) && (b0 <=? 239) then
        match rest with
        | String c1 (String c2 _) =>
            let lo := if b0 =? 224 then 160 else 128 in
            let hi := if b0 =? 237 then 159 else 191 in
            if (lo <=? code c1) && (code c1 <=? hi) && cont c2
            then 3%nat else 0%nat
        | _ => 0%nat
        end
      else if (240 <=? b0) && (b0 <=? 244) then
        match rest with
        | String c1 (String c2 (String c3 _)) =>
            let lo := if b0 =? 240 then 144 else 128 in
            let hi := if b0 =? 244 then 143 else 191 in
            if (lo <=? code c1) && (code c1 <=? hi) && cont c2 && cont c3
            then 4%nat else 0%nat
        | _ => 0%nat
        end
      else 0%nat
  | EmptyString => 0%nat
  end.

(** U+FFFD in UTF-8. *)
Definition replacement : string :=
  String (byte_of 239) (String (byte_of 191) (String (byte_of 189) "")).

(** [utf8.EncodeRune]. *)
Definition encodeRune (r : Z) : string :=
  if r <? 128 then String (byte_of r) ""
  else if r <? 2048 then
    String (byte_of (192 + r / 64)) (String (byte_of (128 + r mod 64)) "")
  else if (55296 <=? r) && (r <=? 57343) then replacement
  else if r <? 65536 then
    String (byte_of (224 + r / 4096))
      (String (byte_of (128 + (r / 64) mod 64))
         (String (byte_of (128 + r mod 64)) ""))
  else if r <=? 1114111 then
    String (byte_of (240 + r / 262144))
      (String (byte_of (128 + (r / 4096) mod 64))
         (String (byte_of (128 + (r / 64) mod 64))
            (String (byte_of (128 + r mod 64)) "")))
  else replacement.

(** [getu4]: the value of four hex digits after a backslash and [u]. *)
Definition getu4 (s : string) : option (Z * string) :=
  match s with
  | String "092" (String "u" (String a (String b (String c (String d r))))) =>
      if url.ishex a && url.ishex b && url.ishex c && url.ishex d
      then Some (((url.unhex a * 16 + url.unhex b) * 16 + url.unhex c) * 16
                 + url.unhex d, r)
      else None
  | _ => None
  end.

Definition isSurrogate (r : Z) : bool := (55296 <=? r) && (r <? 57344).

Definition escapeByte (e : byte) : byte :=
  if Ascii.eqb e "b" then byte_of 8
  else if Ascii.eqb e "f" then byte_of 12
  else if Ascii.eqb e "n" then byte_of 10
  else if Ascii.eqb e "r" then byte_of 13
  else if Ascii.eqb e "t" then byte_of 9
  else e.

(** [unquote] on the text between the quotes of a literal the scanner
    accepted.  [n] bytes at the head are still part of the sequence
    handled last: they are copied when [copy] holds and dropped
    otherwise. *)
Fixpoint unquoteFrom (copy : bool) (n : nat) (s : string) : string :=
  match s with
  | EmptyString => EmptyString
  | String c rest =>
      match n with
      | S k =>
          if copy then String c (unquoteFrom copy k rest)
          else unquoteFrom copy k rest
      | O =>
          if Ascii.eqb c "092" then
            match rest with
            | String "u" _ =>
                match getu4 s with
                | Some (rr, after) =>
                    if isSurrogate rr then
                      match getu4 after with
                      | Some (rr1, _) =>
                          if (rr <? 56320) && (56320 <=? rr1)
                             && (rr1 <? 57344)
                          then encodeRune
                                 ((rr - 55296) * 1024 + (rr1 - 56320)
                                  + 65536)
                               ++ unquoteFrom false 11 rest
                          else replacement ++ unquoteFrom false 5 rest
                      | None => replacement ++ unquoteFrom false 5 rest
                      end
                    else encodeRune rr ++ unquoteFrom false 5 rest
                | None => EmptyString
                end
            | String e _ => String (escapeByte e) (unquoteFrom false 1 rest)
            | EmptyString => EmptyString
            end
          else if code c <? 128 then String c (unquoteFrom false 0 rest)
          else match runeSize s with
               | O => replacement ++ unquoteFrom false 0 rest
               | S k => String c (unquoteFrom true k rest)
               end
      end
  end.

Definition unquote (raw : string) : string := unquoteFrom false 0 raw.

(** *** The scanner of scanner.go, building the value as it goes *)

(** An open array or object ([parseState] of the scanner), with what has
    been read of it.  [ObjKey ms None] awaits a key, [ObjKey ms (Some k)]
    the colon after [k]; [ObjVal ms k] is reading the value of [k];
    [ObjDone ms] has just read a member. *)
Inductive frame : Type :=
| Arr (elems : list value)
| ObjKey (members : list (string * value)) (key : option string)
| ObjVal (members : list (string * value)) (key : string)
| ObjDone (members : list (string * value)).

(** The [step] function the scanner is in, with the text of the token
    being read. *)
Inductive state : Type :=
| stBeginValue
| stBeginValueOrEmpty
| stBeginStringOrEmpty
| stBeginString
| stEndValue
| stInString (raw : string)
| stInStringEsc (raw : string)
| stInStringEscU (seen : nat) (raw : string)
| stNeg (lit : string)
| st1 (lit : string)
| st0 (lit : string)
| stDot (lit : string)
| stDot0 (lit : string)
| stE (lit : string)
| stESign (lit : string)
| stE0 (lit : string)
| stLit (name : string) (expect : string) (v : value).

(** [top] is the finished top-level value once there is one (the
    scanner's [endTop]). *)
Record scanner : Type := mkScanner {
  step : state;
  parseState : list frame;
  top : option value
}.

(** [scan.reset()]. *)
Definition reset : scanner := mkScanner stBeginValue [] None.

(** What one byte does: the scan goes on, or the top-level value is
    complete (at this byte for an array or object, at the byte before
    it otherwise), or the byte is a syntax error. *)
Inductive opcode : Type :=
| scanContinue (s : scanner)
| scanEnd (v : value)
| scanError (e : error).

Definition maxNestingDepth : Z := 10000.

Definition isSpace (c : byte) : bool :=
  Ascii.eqb c " " || (code c =? 9) || (code c =? 13) || (code c =? 10).

Definition quoteChar (c : byte) : string :=
  if Ascii.eqb c "'" then String "'" (String "092" "''")
  else if Ascii.eqb c "092" then String "'" (String "092" (String "092" "'"))
  else String "'" (String c "'").

Definition syntaxError (c : byte) (context : string) : opcode :=
  scanError (SyntaxError ("invalid character " ++ quoteChar c ++ " "
                          ++ context)).

(** A value has just been read: it goes where the innermost open array
    or object awaits it, or it is the top-level value; the scanner is
    then in [stateEndValue]. *)
Definition pushValue (v : value) (stack : list frame) : scanner :=
  match stack with
  | [] => mkScanner stEndValue [] (Some v)
  | Arr es :: st => mkScanner stEndValue (Arr (es ++ [v]) :: st) None
  | ObjKey ms None :: st =>
      match v with
      | Str k => mkScanner stEndValue (ObjKey ms (Some k) :: st) None
      | _ => mkScanner stEndValue stack None
      end
  | ObjVal ms k :: st =>
      mkScanner stEndValue (ObjDone (ms ++ [(k, v)]) :: st) None
  | _ => mkScanner stEndValue stack None
  end.

(** A closing bracket ends the array or object [v]: at top level the
    scan is over at this byte. *)
Definition closeValue (v : value) (st : list frame) : opcode :=
  match st with
  | [] => scanEnd v
  | _ => scanContinue (pushValue v st)
  end.

Definition pushParseState (c : byte) (f : frame) (next : state)
  (stack : list frame) : opcode :=
  if Z.of_nat (List.length (f :: stack)) <=? maxNestingDepth
  then scanContinue (mkScanner next (f :: stack) None)
  else syntaxError c "exceeded max depth".

Definition stateEndValue (sc : scanner) (c : byte) : opcode :=
  match parseState sc with
  | [] =>
      match top sc with
      | Some v => scanEnd v
      | None => syntaxError c ""
      end
  | f :: st =>
      if isSpace c then scanContinue (mkScanner stEndValue (f :: st) None)
      else match f with
           | ObjKey ms (Some k) =>
               if Ascii.eqb c ":"
               then scanContinue (mkScanner stBeginValue (ObjVal ms k :: st)
                                    None)
               else syntaxError c "after object key"
           | ObjDone ms =>
               if Ascii.eqb c ","
               then scanContinue (mkScanner stBeginString
                                    (ObjKey ms None :: st) None)
               else if Ascii.eqb c "}" then closeValue (Object ms) st
               else syntaxError c "after object key:value pair"
           | Arr es =>
               if Ascii.eqb c ","
               then scanContinue (mkScanner stBeginValue (Arr es :: st) None)
               else if Ascii.eqb c "]" then closeValue (Array es) st
               else syntaxError c "after array element"
           | _ => syntaxError c ""
           end
  end.

Definition stateBeginValue (stack : list frame) (c : byte) : opcode :=
  let go st := scanContinue (mkScanner st stack None) in
  let one := String c "" in
  if isSpace c then go stBeginValue
  else if Ascii.eqb c "{"
  then pushParseState c (ObjKey [] None) stBeginStringOrEmpty stack
  else if Ascii.eqb c "["
  then pushParseState c (Arr []) stBeginValueOrEmpty stack
  else if Ascii.eqb c dquote then go (stInString "")
  else if Ascii.eqb c "-" then go (stNeg one)
  else if Ascii.eqb c "0" then go (st0 one)
  else if Ascii.eqb c "t" then go (stLit "true" "rue" (Bool true))
  else if Ascii.eqb c "f" then go (stLit "false" "alse" (Bool false))
  else if Ascii.eqb c "n" then go (stLit "null" "ull" Null)
  else if between "1" "9" c then go (st1 one)
  else syntaxError c "looking for beginning of value".

Definition stateBeginString (stack : list frame) (c : byte) : opcode :=
  if isSpace c then scanContinue (mkScanner stBeginString stack None)
  else if Ascii.eqb c dquote
  then scanContinue (mkScanner (stInString "") stack None)
  else syntaxError c "looking for beginning of object key string".

(** The end of a number: the byte after it is handled by
    [stateEndValue]. *)
Definition endNumber (lit : string) (stack : list frame) (c : byte)
  : opcode :=
  stateEndValue (pushValue (Number lit) stack) c.

Definition state0 (lit : string) (stack : list frame) (c : byte) : opcode :=
  let go st := scanContinue (mkScanner st stack None) in
  if Ascii.eqb c "." then go (stDot (lit ++ String c ""))
  else if byte_in c "eE" then go (stE (lit ++ String c ""))
  else endNumber lit stack c.

Definition stateESign (lit : string) (stack : list frame) (c : byte)
  : opcode :=
  if is_digit c
  then scanContinue (mkScanner (stE0 (lit ++ String c "")) stack None)
  else syntaxError c "in exponent of numeric literal".

(** [scan.step(&scan, c)]. *)
Definition stepByte (sc : scanner) (c : byte) : opcode :=
  let stack := parseState sc in
  let go st := scanContinue (mkScanner st stack None) in
  let add lit := lit ++ String c "" in
  match step sc with
  | stBeginValue => stateBeginValue stack c
  | stBeginValueOrEmpty =>
      if isSpace c then go stBeginValueOrEmpty
      else if Ascii.eqb c "]" then stateEndValue sc c
      else stateBeginValue stack c
  | stBeginStringOrEmpty =>
      if isSpace c then go stBeginStringOrEmpty
      else if Ascii.eqb c "}" then
        match stack with
        | ObjKey ms None :: st =>
            stateEndValue (mkScanner stEndValue (ObjDone ms :: st) None) c
        | _ => stateEndValue sc c
        end
      else stateBeginString stack c
  | stBeginString => stateBeginString stack c
  | stEndValue => stateEndValue sc c
  | stInString raw =>
      if Ascii.eqb c dquote
      then scanContinue (pushValue (Str (unquote raw)) stack)
      else if Ascii.eqb c "092" then go (stInStringEsc (add raw))
      else if code c <? 32 then syntaxError c "in string literal"
      else go (stInString (add raw))
  | stInStringEsc raw =>
      if byte_in c "bfnrt/" || Ascii.eqb c "092" || Ascii.eqb c dquote
      then go (stInString (add raw))
      else if Ascii.eqb c "u" then go (stInStringEscU 0 (add raw))
      else syntaxError c "in string escape code"
  | stInStringEscU seen raw =>
      if url.ishex c then
        if Nat.eqb seen 3 then go (stInString (add raw))
        else go (stInStringEscU (S seen) (add raw))
      else syntaxError c
             (String "i" (String "n" (String " " (String "092"
                "u hexadecimal character escape"))))
  | stNeg lit =>
      if Ascii.eqb c "0" then go (st0 (add lit))
      else if between "1" "9" c then go (st1 (add lit))
      else syntaxError c "in numeric literal"
  | st1 lit =>
      if is_digit c then go (st1 (add lit)) else state0 lit stack c
  | st0 lit => state0 lit stack c
  | stDot lit =>
      if is_digit c then go (stDot0 (add lit))
      else syntaxError c "after decimal point in numeric literal"
  | stDot0 lit =>
      if is_digit c then go (stDot0 (add lit))
      else if byte_in c "eE" then go (stE (add lit))
      else endNumber lit stack c
  | stE lit =>
      if byte_in c "+-" then go (stESign (add lit))
      else stateESign lit stack c
  | stESign lit => stateESign lit stack c
  | stE0 lit =>
      if is_digit c then go (stE0 (add lit)) else endNumber lit stack c
  | stLit name expect v =>
      match expect with
      | String e rest =>
          if Ascii.eqb c e then
            match rest with
            | EmptyString => scanContinue (pushValue v stack)
            | _ => go (stLit name rest v)
            end
          else syntaxError c ("in literal " ++ name ++ " (expecting '"
                              ++ String e "')")
      | EmptyString => syntaxError c ""
      end
  end.

(** *** Reading one value from a stream ([Decoder.readValue]) *)

(** The scan of the bytes of one refill of the buffer. *)
Fixpoint scanBytes (sc : scanner) (s : string) : opcode :=
  match s with
  | EmptyString => scanContinue sc
  | String c rest =>
      match stepByte sc c with
      | scanContinue sc' => scanBytes sc' rest
      | r => r
      end
  end.

Definition nonSpace (b : string) : bool :=
  negb (strings.all isSpace b).

(** The decoder reads chunk after chunk until the scanner reports the end
    of a value or an error.  When the stream ends, a space is fed to the
    scanner to see whether a value was complete.  [buf] is the text read
    so far; it is returned with the outcome. *)
Fixpoint readValue (sc : scanner) (chunks : list string)
  (failure : option error) (buf : string) : (error + value) * string :=
  match chunks with
  | [] =>
      match failure with
      | Some e => (inl e, buf)
      | None =>
          match stepByte sc " " with
          | scanEnd v => (inr v, buf)
          | _ => (inl (if nonSpace buf then ErrUnexpectedEOF else EOF), buf)
          end
      end
  | c :: rest =>
      match scanBytes sc c with
      | scanEnd v => (inr v, buf ++ c)
      | scanError e => (inl e, buf ++ c)
      | scanContinue sc' => readValue sc' rest failure (buf ++ c)
      end
  end.

(** *** Storing a value into a Go variable ([decodeState.value]) *)

(** The struct and the path of fields being decoded, for the text of a
    type error. *)
Definition context : Type := string * list string.

Definition typeError (ctx : context) (v t : string) : option error :=
  Some (UnmarshalTypeError v t (fst ctx) (String.concat "." (snd ctx))).

(** The first error met is the one [Unmarshal] returns. *)
Definition firstError (a b : option error) : option error :=
  match a with
  | Some _ => a
  | None => b
  end.

(** A Go type that [Unmarshal] can store into: its name, its zero value
    and [store], which gives the variable after the value was stored and
    the type error saved on the way, if any. *)
Class Unmarshaler (T : Type) : Type := {
  typeName : string;
  zero : T;
  store : context -> value -> T -> T * option error
}.

(** What kind of JSON value a type error names. *)
Definition kindName (v : value) : string :=
  match v with
  | Null => "null"
  | Bool _ => "bool"
  | Number _ => "number"
  | Str _ => "string"
  | Array _ => "array"
  | Object _ => "object"
  end.

#[export] Instance int_Unmarshaler : Unmarshaler Z := {
  typeName := "int";
  zero := 0;
  store ctx v x :=
    match v with
    | Null => (x, None)
    | Number lit =>
        match strconv.ParseInt lit with
        | Some n => (n, None)
        | None => (x, typeError ctx ("number " ++ lit) "int")
        end
    | _ => (x, typeError ctx (kindName v) "int")
    end
}.

#[export] Instance string_Unmarshaler : Unmarshaler string := {
  typeName := "string";
  zero := "";
  store ctx v x :=
    match v with
    | Null => (x, None)
    | Str s => (s, None)
    | _ => (x, typeError ctx (kindName v) "string")
    end
}.

(** The elements of a JSON array stored one by one: into the element
    already at that index while the old slice has one, into a zero
    element after that.  (What Go keeps between the length and the
    capacity of a slice is not part of this model of a slice: an element
    past the old length starts as zero.) *)
Fixpoint storeElems {T} `{Unmarshaler T} (ctx : context)
  (vs : list value) (old : list T) : list T * option error :=
  match vs with
  | [] => ([], None)
  | v :: vs' =>
      let '(x, e1) := store ctx v (hd zero old) in
      let '(xs, e2) := storeElems ctx vs' (tl old) in
      (x :: xs, firstError e1 e2)
  end.

(** A slice: [None] is nil.  A JSON array always leaves a non-nil slice,
    [null] leaves nil. *)
#[export] Instance slice_Unmarshaler {T} `{Unmarshaler T}
  : Unmarshaler (option (list T)) := {
  typeName := "[]" ++ typeName (T := T);
  zero := None;
  store ctx v x :=
    match v with
    | Null => (None, None)
    | Array vs =>
        let old := match x with Some l => l | None => [] end in
        let '(xs, e) := storeElems ctx vs old in
        (Some xs, e)
    | _ => (x, typeError ctx (kindName v) ("[]" ++ typeName (T := T)))
    end
}.

(** *** Structs *)

(** [foldName]: the text that two names share exactly when they are
    equal under Unicode simple case folding, for names one of which is
    ASCII.  ASCII letters go to upper case; the Kelvin sign (E2 84 AA)
    folds with K and the long s (C5 BF) with S.  [n] bytes at the head
    belong to a sequence already folded. *)
Fixpoint foldFrom (n : nat) (s : string) : string :=
  match s with
  | EmptyString => EmptyString
  | String c rest =>
      match n with
      | S k => foldFrom k rest
      | O =>
          if is_lower c then String (byte_of (code c - 32)) (foldFrom 0 rest)
          else if strings.HasPrefix s
                    (String (byte_of 226) (String (byte_of 132)
                       (String (byte_of 170) "")))
          then String "K" (foldFrom 2 rest)
          else if strings.HasPrefix s
                    (String (byte_of 197) (String (byte_of 191) ""))
          then String "S" (foldFrom 1 rest)
          else String c (foldFrom 0 rest)
      end
  end.

Definition foldName (s : string) : string := foldFrom 0 s.

(** A field of a struct of type [T]: its JSON name and how a value is
    stored into it. *)
Definition field (T : Type) : Type :=
  string * (context -> value -> T -> T * option error).

(** The field a key selects: the one of that exact name, or else the
    first whose name is equal to the key under case folding. *)
Definition findField {T} (fields : list (field T)) (key : string)
  : option (field T) :=
  match find (fun f => String.eqb (fst f) key) fields with
  | Some f => Some f
  | None =>
      find (fun f => String.eqb (foldName (fst f)) (foldName key)) fields
  end.

(** The members of an object stored in order; a key that selects no
    field is skipped. *)
Fixpoint storeMembers {T} (name : string) (fields : list (field T))
  (ctx : context) (ms : list (string * value)) (x : T)
  : T * option error :=
  match ms with
  | [] => (x, None)
  | (k, v) :: ms' =>
      let '(x1, e1) :=
        match findField fields k with
        | Some (fname, set) => set (name, (snd ctx ++ [fname])%list) v x
        | None => (x, None)
        end in
      let '(x2, e2) := storeMembers name fields ctx ms' x1 in
      (x2, firstError e1 e2)
  end.

(** [store] for a struct type called [name] (the empty text for an
    unnamed type), printed as [tname]. *)
Definition storeStruct {T} (name tname : string) (fields : list (field T))
  (ctx : context) (v : value) (x : T) : T * option error :=
  match v with
  | Null => (x, None)
  | Object ms => storeMembers name fields ctx ms x
  | _ => (x, typeError ctx (kindName v) tname)
  end.

(** *** [Decoder.Decode] *)

(** The second operand of [Decode] and of the client's [Do]: the nil
    interface, a nil pointer, or a pointer to a variable. *)
Inductive target (T : Type) : Type :=
| nilInterface
| nilPointer
| pointer (x : T).

Arguments nilInterface {T}.
Arguments nilPointer {T}.

(** [NewDecoder(r).Decode(v)] for [v] that is not the nil interface: the
    variable [v] points to afterwards, the error, and the text read from
    [r]. *)
Definition Decode {T} `{Unmarshaler T} (r : io.Reader) (v : target T)
  : target T * option error * string :=
  match readValue reset (io.chunks r) (io.failure r) "" with
  | (inl e, buf) => (v, Some e, buf)
  | (inr val, buf) =>
      match v with
      | pointer x =>
          let '(x', e) := store ("", []) val x in (pointer x', e, buf)
      | nilPointer =>
          (v, Some (InvalidUnmarshalError ("*" ++ typeName (T := T))), buf)
      | nilInterface => (v, Some (InvalidUnmarshalError ""), buf)
      end
  end.

End json.

(** ** The world outside: the network, and what was sent over it *)

(** What [http.Client.Do] comes back with: a response, or the error of the
    transport and no response. *)
Inductive RoundTrip : Type :=
| Responded (resp : http.Response)
| Failed (err : error).

(** * Package opap *)

Module opap.

Import json.

Definition defaultBaseURL : string := "http://applications.opap.gr/".
Definition defaultDrawsEndpoint : string := "DrawsRestServices".

(** [drawsService].  Its field [client] points back to the [Client] that
    holds the service: the methods below read it as the client of the
    state. *)
Record drawsService : Type := mkDrawsService {
  Endpoint : string
}.

(** [Client]. *)
Record Client : Type := mkClientOpap {
  client : http.Client;
  BaseURL : url.URL;
  Draws : drawsService
}.

(** [NewClient]: [None] is the nil [*http.Client]. *)
Definition NewClient (httpClient : option http.Client) : Client :=
  let httpClient :=
    match httpClient with
    | None => http.DefaultClient
    | Some h => h
    end in
  let baseURL :=
    match url.Parse defaultBaseURL with
    | inr u => u
    | inl _ => url.empty
    end in
  mkClientOpap httpClient baseURL (mkDrawsService defaultDrawsEndpoint).

(** *** State

    The heap holds the client [self] the methods are called on.  The
    [network] answers a request sent through an [http.Client], given the
    requests sent before; [sent] logs the requests handed to the
    transport, oldest first, and [closed] counts the response bodies
    closed. *)
Record State : Type := mkState {
  self : Client;
  network : list http.Request -> http.Client -> http.Request -> RoundTrip;
  sent : list http.Request;
  closed : nat
}.

Definition M (A : Type) : Type := State -> A * State.

Definition ret {A} (a : A) : M A := fun st => (a, st).

Definition bind {A B} (m : M A) (k : A -> M B) : M B :=
  fun st => let '(a, st') := m st in k a st'.

Notation "x <- m ;; k" := (bind m (fun x => k))
  (at level 61, m at next level, right associativity).
Notation "' p <- m ;; k" := (bind m (fun p => k))
  (at level 61, p pattern, m at next level, right associativity).

(** The client the method is called on. *)
Definition this : M Client := fun st => (self st, st).

(** [c.client.Do(req)]: the request goes out and the network answers. *)
Definition httpDo (h : http.Client) (req : http.Request) : M RoundTrip :=
  fun st =>
    (network st (sent st) h req,
     mkState (self st) (network st) (sent st ++ [req]) (closed st)).

(** [resp.Body.Close()]. *)
Definition Close (resp : http.Response) : M unit :=
  fun st =>
    (tt, mkState (self st) (network st) (sent st) (S (closed st))).

(** [defer f; body]: [f] runs when [body] has returned. *)
Definition defer {A} (f : M unit) (body : M A) : M A :=
  a <- body ;; _ <- f ;; ret a.

(** *** client.go *)

(** [Client.NewRequest]: the request, or the error with a nil request. *)
Definition NewRequest (method urlStr : string) (body : option io.Reader)
  : M (error + http.Request) :=
  c <- this ;;
  match url.Parse urlStr with
  | inl err => ret (inl (UrlError err))
  | inr rel =>
      let u := url.ResolveReference (BaseURL c) rel in
      match http.NewRequest method (url.String_ u) body with
      | inl err => ret (inl err)
      | inr req => ret (inr req)
      end
  end.

(** [checkResponse]. *)
Definition checkResponse (r : http.Response) : option error :=
  let c := http.StatusCode r in
  if (200 <=? c) && (c <=? 299) then None
  else
    let '(data, err) := ReadAll (http.Body r) in
    match err with
    | Some err =>
        Some (Errorf "reading response body: %v" [fmt.Stringer (Error err)])
    | None =>
        Some (Errorf "%v %v: %d %s"
                [fmt.Str (http.Method (http.Request_ r));
                 fmt.Stringer (url.String_ (http.URL (http.Request_ r)));
                 fmt.Int (http.StatusCode r);
                 fmt.Str data])
    end.

(** [Client.Do]: the response, the error, and the decode target [v] as
    the call leaves it. *)
Definition Do {T} `{Unmarshaler T} (req : http.Request) (v : target T)
  : M (option http.Response * option error * target T) :=
  c <- this ;;
  r <- httpDo (client c) req ;;
  match r with
  | Failed err => ret (None, Some err, v)
  | Responded resp =>
      defer (Close resp)
        match checkResponse resp with
        | Some err => ret (Some resp, Some err, v)
        | None =>
            match v with
            | nilInterface => ret (Some resp, None, v)
            | _ =>
                let '(v', err, buf) := Decode (http.Body resp) v in
                match err with
                | Some err =>
                    ret (Some resp,
                         Some (Errorf "JSON decoding: %v (%s)"
                                 [fmt.Stringer (Error err); fmt.Str buf]),
                         v')
                | None => ret (Some resp, None, v')
                end
            end
        end
  end.

(** [Client.get]. *)
Definition get {T} `{Unmarshaler T} (url : string) (result : target T)
  : M (option http.Response * option error * target T) :=
  r <- NewRequest "GET" url None ;;
  match r with
  | inl err => ret (None, Some err, result)
  | inr req => Do req result
  end.

(** *** draws.go *)

(** [Game] and [PropoGame] are string types. *)
Definition Game : Type := string.
Definition PropoGame : Type := string.

(** Only [Kino] is declared with the type [Game]; the constants after
    it are untyped string constants, which Go converts to [Game] where
    one is expected. *)
Definition Kino : Game := "kino".
Definition Lotto : string := "lotto".
Definition Joker : string := "joker".
Definition Proto : string := "proto".
Definition Super3 : string := "super3".
Definition Extra5 : string := "extra5".
Definition Propogoal : string := "propogoal".
Definition Penalties : string := "penalties".
Definition Bowling : string := "bowling".

(** The second letter of this constant, in its name and in its value, is
    the Greek small omicron (U+03BF, bytes 206 191), as in the source. *)
Definition Pοwerspin : string :=
  String "p" (String "206" (String "191" "werspin")).

Definition PropoSun : PropoGame := "proposun".
Definition PropoSat : string := "proposat".
Definition PropoWed : string := "propowed".

(** The constants of the block that starts with [Kino]. *)
Definition games : list Game :=
  [Kino; Lotto; Joker; Proto; Super3; Extra5; Propogoal; Penalties;
   Bowling; Pοwerspin].

Record Draw : Type := mkDraw {
  DrawTime : string;
  DrawNo : Z;
  Results : option (list Z)
}.

Record draws : Type := mkDraws {
  draws_Draw : Draw
}.

(** The unnamed struct type of the field [Draws] of [drawsByDate]. *)
Record drawsByDate_Draws : Type := mkDrawsByDate_Draws {
  drawsByDate_Draw : option (list Draw)
}.

Record drawsByDate : Type := mkDrawsByDate {
  drawsByDate_Draws_ : drawsByDate_Draws
}.

Record PropoDraw : Type := mkPropoDraw {
  PropoDrawTime : string;
  PropoDrawNo : Z;
  PropoResults : option (list string)
}.

Record propoDraws : Type := mkPropoDraws {
  propoDraws_Draw : PropoDraw
}.

Record propoDrawsByDate_Draws : Type := mkPropoDrawsByDate_Draws {
  propoDrawsByDate_Draw : option (list PropoDraw)
}.

Record propoDrawsByDate : Type := mkPropoDrawsByDate {
  propoDrawsByDate_Draws_ : propoDrawsByDate_Draws
}.

(** A field with tag [json:name], read by [get] and written by [set]. *)
Definition tagged {T F} `{Unmarshaler F} (name : string) (get : T -> F)
  (set : F -> T -> T) : field T :=
  (name,
   fun ctx v x => let '(y, e) := store ctx v (get x) in (set y x, e)).

#[export] Instance Draw_Unmarshaler : Unmarshaler Draw := {
  typeName := "opap.Draw";
  zero := mkDraw "" 0 None;
  store :=
    storeStruct "Draw" "opap.Draw"
      [tagged "drawTime" DrawTime
         (fun y d => mkDraw y (DrawNo d) (Results d));
       tagged "drawNo" DrawNo
         (fun y d => mkDraw (DrawTime d) y (Results d));
       tagged "results" Results
         (fun y d => mkDraw (DrawTime d) (DrawNo d) y)]
}.

#[export] Instance draws_Unmarshaler : Unmarshaler draws := {
  typeName := "opap.draws";
  zero := mkDraws zero;
  store :=
    storeStruct "draws" "opap.draws"
      [tagged "draw" draws_Draw (fun y _ => mkDraws y)]
}.

(** The text Go prints for the unnamed struct type holding [fieldType]. *)
Definition unnamedStruct (fieldType : string) : string :=
  "struct { Draw " ++ fieldType ++ " "
  ++ Quote ("json:" ++ String dquote ("draw" ++ String dquote "")) ++ " }".

#[export] Instance drawsByDate_Draws_Unmarshaler
  : Unmarshaler drawsByDate_Draws := {
  typeName := unnamedStruct "[]opap.Draw";
  zero := mkDrawsByDate_Draws None;
  store :=
    storeStruct "" (unnamedStruct "[]opap.Draw")
      [tagged "draw" drawsByDate_Draw (fun y _ => mkDrawsByDate_Draws y)]
}.

#[export] Instance drawsByDate_Unmarshaler : Unmarshaler drawsByDate := {
  typeName := "opap.drawsByDate";
  zero := mkDrawsByDate zero;
  store :=
    storeStruct "drawsByDate" "opap.drawsByDate"
      [tagged "draws" drawsByDate_Draws_ (fun y _ => mkDrawsByDate y)]
}.

#[export] Instance PropoDraw_Unmarshaler : Unmarshaler PropoDraw := {
  typeName := "opap.PropoDraw";
  zero := mkPropoDraw "" 0 None;
  store :=
    storeStruct "PropoDraw" "opap.PropoDraw"
      [tagged "drawTime" PropoDrawTime
         (fun y d => mkPropoDraw y (PropoDrawNo d) (PropoResults d));
       tagged "drawNo" PropoDrawNo
         (fun y d => mkPropoDraw (PropoDrawTime d) y (PropoResults d));
       tagged "results" PropoResults
         (fun y d => mkPropoDraw (PropoDrawTime d) (PropoDrawNo d) y)]
}.

#[export] Instance propoDraws_Unmarshaler : Unmarshaler propoDraws := {
  typeName := "opap.propoDraws";
  zero := mkPropoDraws zero;
  store :=
    storeStruct "propoDraws" "opap.propoDraws"
      [tagged "draw" propoDraws_Draw (fun y _ => mkPropoDraws y)]
}.

#[export] Instance propoDrawsByDate_Draws_Unmarshaler
  : Unmarshaler propoDrawsByDate_Draws := {
  typeName := unnamedStruct "[]opap.PropoDraw";
  zero := mkPropoDrawsByDate_Draws None;
  store :=
    storeStruct "" (unnamedStruct "[]opap.PropoDraw")
      [tagged "draw" propoDrawsByDate_Draw
         (fun y _ => mkPropoDrawsByDate_Draws y)]
}.

#[export] Instance propoDrawsByDate_Unmarshaler
  : Unmarshaler propoDrawsByDate := {
  typeName := "opap.propoDrawsByDate";
  zero := mkPropoDrawsByDate zero;
  store :=
    storeStruct "propoDrawsByDate" "opap.propoDrawsByDate"
      [tagged "draws" propoDrawsByDate_Draws_
         (fun y _ => mkPropoDrawsByDate y)]
}.

(** The service of the client the method is called on ([c.Draws]). *)
Definition service : M drawsService := c <- this ;; ret (Draws c).

(** [new(T)], and the variable a pointer made by [new] points to after
    a call that was handed the pointer. *)
Definition new (T : Type) `{Unmarshaler T} : T := zero.
Arguments new T {_}.

Definition deref {T} `{Unmarshaler T} (p : target T) : T :=
  match p with
  | pointer x => x
  | _ => zero
  end.

Definition Latest (g : Game)
  : M (option Draw * option http.Response * option error) :=
  s <- service ;;
  let d := new draws in
  let u := fmt.Sprintf "%s/%s/last.json" [fmt.Str (Endpoint s); fmt.Str g] in
  '(resp, err, d) <- get u (pointer d) ;;
  match err with
  | Some err => ret (None, resp, Some err)
  | None => ret (Some (draws_Draw (deref d)), resp, None)
  end.

Definition PropoLatest (g : PropoGame)
  : M (option PropoDraw * option http.Response * option error) :=
  s <- service ;;
  let d := new propoDraws in
  let u := fmt.Sprintf "%s/%s/last.json" [fmt.Str (Endpoint s); fmt.Str g] in
  '(resp, err, d) <- get u (pointer d) ;;
  match err with
  | Some err => ret (None, resp, Some err)
  | None => ret (Some (propoDraws_Draw (deref d)), resp, None)
  end.

Definition ByNumber (g : Game) (number : Z)
  : M (option Draw * option http.Response * option error) :=
  s <- service ;;
  let d := new draws in
  let u := fmt.Sprintf "%s/%s/%d.json"
             [fmt.Str (Endpoint s); fmt.Str g; fmt.Int number] in
  '(resp, err, d) <- get u (pointer d) ;;
  match err with
  | Some err => ret (None, resp, Some err)
  | None => ret (Some (draws_Draw (deref d)), resp, None)
  end.

Definition PropoByNumber (g : PropoGame) (number : Z)
  : M (option PropoDraw * option http.Response * option error) :=
  s <- service ;;
  let d := new propoDraws in
  let u := fmt.Sprintf "%s/%s/%d.json"
             [fmt.Str (Endpoint s); fmt.Str g; fmt.Int number] in
  '(resp, err, d) <- get u (pointer d) ;;
  match err with
  | Some err => ret (None, resp, Some err)
  | None => ret (Some (propoDraws_Draw (deref d)), resp, None)
  end.

(** The slice a by-date method returns is the field itself: [None] is
    the nil slice. *)
Definition ByDate (g : Game) (day month year : Z)
  : M (option (list Draw) * option http.Response * option error) :=
  s <- service ;;
  let d := new drawsByDate in
  let date := fmt.Sprintf "%d-%d-%d"
                [fmt.Int day; fmt.Int month; fmt.Int year] in
  let u := fmt.Sprintf "%s/%s/drawDate/%s.json"
             [fmt.Str (Endpoint s); fmt.Str g; fmt.Str date] in
  '(resp, err, d) <- get u (pointer d) ;;
  match err with
  | Some err => ret (None, resp, Some err)
  | None =>
      ret (drawsByDate_Draw (drawsByDate_Draws_ (deref d)), resp, None)
  end.

Definition PropoByDate (g : PropoGame) (day month year : Z)
  : M (option (list PropoDraw) * option http.Response * option error) :=
  s <- service ;;
  let d := new propoDrawsByDate in
  let date := fmt.Sprintf "%d-%d-%d"
                [fmt.Int day; fmt.Int month; fmt.Int year] in
  let u := fmt.Sprintf "%s/%s/drawDate/%s.json"
             [fmt.Str (Endpoint s); fmt.Str g; fmt.Str date] in
  '(resp, err, d) <- get u (pointer d) ;;
  match err with
  | Some err => ret (None, resp, Some err)
  | None =>
      ret (propoDrawsByDate_Draw (propoDrawsByDate_Draws_ (deref d)),
           resp, None)
  end.

End opap.

(** * Properties *)

Unset Implicit Arguments.

Import opap json.

(** ** Vocabulary of the statements *)

(** How the network answers [req] when it is sent in state [st]. *)
Definition answer (st : State) (req : http.Request) : RoundTrip :=
  network st (sent st) (client (self st)) req.

(** The state after [req] went out, and after the body of its response
    was closed too. *)
Definition afterSend (st : State) (req : http.Request) : State :=
  mkState (self st) (network st) (sent st ++ [req]) (closed st).

Definition afterClose (st : State) (req : http.Request) : State :=
  mkState (self st) (network st) (sent st ++ [req]) (S (closed st)).

(** The status is one of 200..299. *)
Definition success (resp : http.Response) : bool :=
  (200 <=? http.StatusCode resp) && (http.StatusCode resp <=? 299).

(** The text of the error [checkResponse] builds from a response whose
    body was read to its end. *)
Definition statusText (resp : http.Response) : string :=
  http.Method (http.Request_ resp) ++ " "
  ++ url.String_ (http.URL (http.Request_ resp)) ++ ": "
  ++ strconv.Itoa (http.StatusCode resp) ++ " "
  ++ io.content (http.Body resp).

(** The text of the error [Do] builds when decoding fails with [err]
    after [buf] was read. *)
Definition decodeText (err : error) (buf : string) : string :=
  "JSON decoding: " ++ Error err ++ " (" ++ buf ++ ")".

(** A state whose client is the default one and whose network answers
    every request with the given status and body. *)
Definition mock (status : Z) (body : io.Reader) : State :=
  mkState (NewClient None)
    (fun _ _ req => Responded (http.mkResponse status body req)) [] 0.

(** A state whose network refuses every connection. *)
Definition refusing : State :=
  mkState (NewClient None)
    (fun _ _ _ => Failed (errorString "dial tcp: connection refused")) [] 0.

(** The request [Client.NewRequest] builds for a client. *)
Definition buildRequest (c : Client) (method urlStr : string)
  (body : option io.Reader) : error + http.Request :=
  match url.Parse urlStr with
  | inl e => inl (UrlError e)
  | inr rel =>
      http.NewRequest method
        (url.String_ (url.ResolveReference (BaseURL c) rel)) body
  end.

(** The paths of the three kinds of lookup. *)
Definition latestPath (endpoint g : string) : string :=
  endpoint ++ "/" ++ g ++ "/last.json".

Definition numberPath (endpoint g : string) (number : Z) : string :=
  endpoint ++ "/" ++ g ++ "/" ++ strconv.Itoa number ++ ".json".

Definition datePath (endpoint g : string) (day month year : Z) : string :=
  endpoint ++ "/" ++ g ++ "/drawDate/" ++ strconv.Itoa day ++ "-"
  ++ strconv.Itoa month ++ "-" ++ strconv.Itoa year ++ ".json".

(** What a lookup returns after [get] returned [r]: on an error the nil
    result, otherwise the field [unwrap] of the envelope. *)
Definition outcome {T R} `{Unmarshaler T} (unwrap : T -> option R)
  (r : option http.Response * option error * target T)
  : option R * option http.Response * option error :=
  let '(resp, err, d) := r in
  match err with
  | Some e => (None, resp, Some e)
  | None => (unwrap (deref d), resp, None)
  end.

(** A lookup: [get] on a path with a fresh envelope, then [outcome]. *)
Definition lookup {T R} `{Unmarshaler T} (unwrap : T -> option R)
  (path : string) (st : State)
  : (option R * option http.Response * option error) * State :=
  let '(r, st') := get path (pointer (new T)) st in (outcome unwrap r, st').

(** The configuration of the client is the same in two states: the
    [http.Client] it sends through, its base URL, and the endpoint of its
    draws service. *)
Definition sameClient (st st' : State) : Prop :=
  client (self st') = client (self st)
  /\ BaseURL (self st') = BaseURL (self st)
  /\ Endpoint (Draws (self st')) = Endpoint (Draws (self st)).

(** In state [st], the GET request for [path] can be built and the network
    answers it with [resp]. *)
Definition receives (st : State) (path : string) (resp : http.Response)
  : Prop :=
  exists req,
    buildRequest (self st) "GET" path None = inr req
    /\ answer st req = Responded resp.

(** Requests and bodies of the examples. *)
Definition plainGet : http.Request := http.mkRequest "GET" url.empty "" None.

Definition html : io.Reader :=
  io.mkReader ["<html>something broke</html>"] None.

(** A body whose connection drops after the first bytes. *)
Definition truncated : io.Reader :=
  io.mkReader ["something"] (Some ErrUnexpectedEOF).

(** What the decoder makes of a stream with the given content, whatever
    the chunks it arrives in: the value the scanner finds complete within
    the content; or, when the content ends first, the error that ended the
    stream or, at a clean end, the value that is complete once a space is
    fed to the scanner. *)
Definition scanStream (content : string) (failure : option error)
  : error + value :=
  match scanBytes reset content with
  | scanEnd v => inr v
  | scanError e => inl e
  | scanContinue sc =>
      match failure with
      | Some e => inl e
      | None =>
          match stepByte sc " " with
          | scanEnd v => inr v
          | _ => inl (if nonSpace content then ErrUnexpectedEOF else EOF)
          end
      end
  end.

(** [Decode] without the text read: the target after the call and the
    error. *)
Definition decodeStream {T} `{Unmarshaler T} (content : string)
  (failure : option error) (v : target T) : target T * option error :=
  match scanStream content failure with
  | inl e => (v, Some e)
  | inr val =>
      match v with
      | pointer x => let '(x', e) := store ("", []) val x in (pointer x', e)
      | nilPointer =>
          (v, Some (InvalidUnmarshalError ("*" ++ typeName (T := T))))
      | nilInterface => (v, Some (InvalidUnmarshalError ""))
      end
  end.

(** A JSON string literal: the text between double quotes. *)
Definition q (s : string) : string := String dquote (s ++ String dquote "").

(** The JSON text of Joker draw 1873; the body of the server's answer for
    it as a single draw and as the draws of a date; and the body that holds
    an empty array of draws. *)
Definition text1873 : string :=
  "{" ++ q "drawTime" ++ ":" ++ q "24-12-2017T22:00:00"
  ++ "," ++ q "drawNo" ++ ":1873," ++ q "results" ++ ":[40,13,1,24,15,8]}".

Definition body1873 : string := "{" ++ q "draw" ++ ":" ++ text1873 ++ "}".

Definition bodyDate1873 : string :=
  "{" ++ q "draws" ++ ":{" ++ q "draw" ++ ":[" ++ text1873 ++ "]}}".

Definition bodyNoDraws : string :=
  "{" ++ q "draws" ++ ":{" ++ q "draw" ++ ":[]}}".

Definition draw1873 : Draw :=
  mkDraw "24-12-2017T22:00:00" 1873 (Some [40; 13; 1; 24; 15; 8]).

(** The zero [Draw] and [PropoDraw]: no time, number 0, nil results. *)
Definition zeroDraw : Draw := mkDraw "" 0 None.
Definition zeroPropoDraw : PropoDraw := mkPropoDraw "" 0 None.

(** The URL [http://applications.opap.gr] followed by [path], and the GET
    request for it with no body. *)
Definition opapURL (path : string) : url.URL :=
  url.mkURL "http" "" None "applications.opap.gr" path "" false false "" ""
    "".

Definition opapGet (path : string) : http.Request :=
  http.mkRequest "GET" (opapURL path) "applications.opap.gr" None.

(** Plain decimal digits: a first digit 1..9, then digits. *)
Definition plainDigits (s : string) : bool :=
  match s with
  | String c rest => between "1" "9" c && strings.all is_digit rest
  | EmptyString => false
  end.

(** [s] is the plain decimal numeral of [n]: the text 0 for zero, plain
    digits for a positive number, a minus sign and plain digits for a
    negative one, and the number the numeral denotes is [n].  So there is
    no padding: no leading zero, no sign on a positive number, no space. *)
Definition plainDecimal (n : Z) (s : string) : Prop :=
  match n with
  | 0 => s = "0"
  | Z.pos _ => plainDigits s = true
  | Z.neg _ => exists t, s = String "-" t /\ plainDigits t = true
  end
  /\ option_map Z.of_int (NilZero.int_of_string s) = Some n.

(** A path of plain segments: letters, digits, the marks [-_.~] and
    slashes only, no slash at the start, and no segment that is [.] or
    [..]. *)
Definition safeByte (c : byte) : bool :=
  is_alpha c || is_digit c || byte_in c "-_.~/".

Definition plainPath (p : string) : bool :=
  strings.all safeByte p
  && negb (strings.HasPrefix p "/")
  && forallb (fun seg => negb (url.isDot seg)) (url.segments p).

(** The URL a relative path parses to. *)
Definition relURL (p : string) : url.URL :=
  url.mkURL "" "" None "" p "" false false "" "" "".

(** A base URL of the plain kind: scheme [http] or [https], a host of
    letters, digits, dots and hyphens with no port and no user, a path of
    plain segments that starts and ends with a slash, and nothing else. *)
Definition hostByte (c : byte) : bool :=
  is_alpha c || is_digit c || byte_in c "-.".

Definition plainBase (b : url.URL) : bool :=
  (String.eqb (url.Scheme b) "http" || String.eqb (url.Scheme b) "https")
  && String.eqb (url.Opaque b) ""
  && match url.User b with None => true | Some _ => false end
  && negb (String.eqb (url.Host b) "")
  && strings.all hostByte (url.Host b)
  && strings.HasPrefix (url.Path b) "/"
  && strings.HasSuffixByte (url.Path b) "/"
  && strings.all safeByte (url.Path b)
  && forallb (fun seg => negb (url.isDot seg)) (url.segments (url.Path b))
  && String.eqb (url.RawPath b) ""
  && negb (url.OmitHost b)
  && negb (url.ForceQuery b)
  && String.eqb (url.RawQuery b) ""
  && String.eqb (url.Fragment b) ""
  && String.eqb (url.RawFragment b) "".

Definition baseURL (scheme host path : string) : url.URL :=
  url.mkURL scheme "" None host path "" false false "" "" "".

(** A game tag of ASCII letters and digits only. *)
Definition tagByte (c : byte) : bool := is_alpha c || is_digit c.

Definition plainTag (g : string) : bool := strings.all tagByte g.

(** [req] is the GET request with no body that [NewRequest] builds for
    [path], and its URL is the base URL of the client followed by
    [path]. *)
Definition getFor (c : Client) (path : string) (req : http.Request) : Prop :=
  buildRequest c "GET" path None = inr req
  /\ http.Method req = "GET"
  /\ http.ReqBody req = None
  /\ url.String_ (http.URL req) = url.String_ (BaseURL c) ++ path.

(** In state [st], the GET request for [path] can be built and the
    transport fails on it with [err]. *)
Definition fails (st : State) (path : string) (err : error) : Prop :=
  exists req,
    buildRequest (self st) "GET" path None = inr req
    /\ answer st req = Failed err.

(** 1 for a response, 0 for the nil response. *)
Definition responded (r : option http.Response) : nat :=
  match r with
  | Some _ => 1
  | None => 0
  end.

(** The response among the three results of a lookup. *)
Definition response {R} (r : option R * option http.Response * option error)
  : option http.Response := snd (fst r).

(** What the three results of a lookup that returns one draw always
    satisfy: there is a draw exactly when the error is nil, and a nil
    error comes with a response.  For a lookup that returns a slice: an
    error comes with the nil slice, and a nil error with a response. *)
Definition drawOrError {R}
  (r : option R * option http.Response * option error) : Prop :=
  let '(d, resp, err) := r in
  (err = None <-> d <> None) /\ (err = None -> resp <> None).

Definition sliceOrError {R}
  (r : option R * option http.Response * option error) : Prop :=
  let '(d, resp, err) := r in
  (err <> None -> d = None) /\ (err = None -> resp <> None).


(** Printable ASCII: what [strconv.Quote] writes as it is, but for the
    double quote and the backslash. *)
Definition printable (c : byte) : bool :=
  ((32 <=? code c) && (code c <? 127))%Z.

(** Text that a JSON string literal holds as it is: printable ASCII but
    for the double quote and the backslash. *)
Definition plainChar (c : byte) : bool :=
  printable c && negb (Ascii.eqb c dquote) && negb (Ascii.eqb c "092").

Definition plainText (s : string) : bool := strings.all plainChar s.

(** A decimal integer literal: 0, or plain digits with an optional minus
    sign. *)
Definition integerLiteral (lit : string) : bool :=
  String.eqb lit "0" || plainDigits lit
  || match lit with
     | String "-" t => plainDigits t
     | _ => false
     end.

(** The JSON text of a value, written without white space: a number is
    its literal and a string is its text between quotes (which is right
    for plain text). *)
Fixpoint encode (v : value) : string :=
  match v with
  | Null => "null"
  | Bool true => "true"
  | Bool false => "false"
  | Number lit => lit
  | Str s => q s
  | Array vs => "[" ++ String.concat "," (map encode vs) ++ "]"
  | Object ms =>
      "{" ++ String.concat ","
               (map (fun kv => q (fst kv) ++ ":" ++ encode (snd kv)) ms)
      ++ "}"
  end.

(** The values [encode] writes faithfully: integers, plain text, and
    arrays and objects of such values with plain keys. *)
Fixpoint simple (v : value) : bool :=
  match v with
  | Null => true
  | Bool _ => true
  | Number lit => integerLiteral lit
  | Str s => plainText s
  | Array vs => forallb simple vs
  | Object ms => forallb (fun kv => plainText (fst kv) && simple (snd kv)) ms
  end.

(** How deep arrays and objects nest in a value. *)
Fixpoint depth (v : value) : nat :=
  match v with
  | Array vs => S (fold_right (fun v n => Nat.max (depth v) n) 0%nat vs)
  | Object ms =>
      S (fold_right (fun kv n => Nat.max (depth (snd kv)) n) 0%nat ms)
  | _ => 0%nat
  end.

(** The scan goes on with the bytes [rest] after a step. *)
Definition andThen (r : opcode) (rest : string) : opcode :=
  match r with
  | scanContinue sc => scanBytes sc rest
  | scanEnd v => scanEnd v
  | scanError e => scanError e
  end.

(** A byte that ends a number. *)
Definition numEnd (c : byte) : bool :=
  negb (is_digit c) && negb (byte_in c ".eE").

(** The two states in which a value may begin. *)
Definition begins (st : state) : Prop :=
  st = stBeginValue \/ st = stBeginValueOrEmpty.

(** The scanner reads the text of [v] as [v], wherever a value may
    begin inside an array or object: after the text and a byte [c] that
    can follow a number, the scanner is where [v] and then [c] put it. *)
Definition reads (v : value) : Prop :=
  forall st stack c rest,
    begins st ->
    stack <> [] ->
    (Z.of_nat (List.length stack + depth v) <= maxNestingDepth)%Z ->
    numEnd c = true ->
    scanBytes (mkScanner st stack None) (encode v ++ String c rest)
    = andThen (stateEndValue (pushValue v stack) c) rest.

(** The text of a member of an object. *)
Definition member (kv : string * value) : string :=
  q (fst kv) ++ ":" ++ encode (snd kv).

(** The two states in which a key may begin. *)
Definition beginsKey (st : state) : Prop :=
  st = stBeginString \/ st = stBeginStringOrEmpty.

(** Every value of the list is read by the scanner, below [n] open
    arrays and objects. *)
Definition readable (n : nat) (vs : list value) : Prop :=
  Forall (fun v => reads v
                   /\ (Z.of_nat (S n + depth v) <= maxNestingDepth)%Z) vs.

Definition readableMembers (n : nat) (ms : list (string * value)) : Prop :=
  Forall (fun kv => plainText (fst kv) = true
                    /\ reads (snd kv)
                    /\ (Z.of_nat (S n + depth (snd kv)) <= maxNestingDepth)%Z)
    ms.

(** The number that decimal digits denote after the digits that gave
    [acc]. *)
Fixpoint uval (d : Decimal.uint) (acc : Z) : Z :=
  match d with
  | Decimal.Nil => acc
  | Decimal.D0 d => uval d (10 * acc)
  | Decimal.D1 d => uval d (10 * acc + 1)
  | Decimal.D2 d => uval d (10 * acc + 2)
  | Decimal.D3 d => uval d (10 * acc + 3)
  | Decimal.D4 d => uval d (10 * acc + 4)
  | Decimal.D5 d => uval d (10 * acc + 5)
  | Decimal.D6 d => uval d (10 * acc + 6)
  | Decimal.D7 d => uval d (10 * acc + 7)
  | Decimal.D8 d => uval d (10 * acc + 8)
  | Decimal.D9 d => uval d (10 * acc + 9)
  end.

(** A number of 64 bits. *)
Definition int64 (n : Z) : bool :=
  ((strconv.minInt64 <=? n) && (n <=? strconv.maxInt64))%Z.

(** The JSON values of a number, of a draw and of a Propo draw: the
    fields in order, each under its tag, with [null] for a nil slice. *)
Definition jsonInt (n : Z) : value := Number (strconv.Itoa n).

Definition drawMembers (d : Draw) : list (string * value) :=
  [("drawTime", Str (DrawTime d));
   ("drawNo", jsonInt (DrawNo d));
   ("results",
    match Results d with
    | Some rs => Array (map jsonInt rs)
    | None => Null
    end)].

Definition jsonDraw (d : Draw) : value := Object (drawMembers d).

Definition propoDrawMembers (d : PropoDraw) : list (string * value) :=
  [("drawTime", Str (PropoDrawTime d));
   ("drawNo", jsonInt (PropoDrawNo d));
   ("results",
    match PropoResults d with
    | Some rs => Array (map Str rs)
    | None => Null
    end)].

Definition jsonPropoDraw (d : PropoDraw) : value :=
  Object (propoDrawMembers d).

(** The envelopes of the service: one draw, and the draws of a date. *)
Definition jsonOne (draw : value) : value := Object [("draw", draw)].

Definition jsonMany (draws : list value) : value :=
  Object [("draws", Object [("draw", Array draws)])].

(** Draws that their JSON text gives back: a time of plain text, numbers
    of 64 bits, results of plain text. *)
Definition plainDraw (d : Draw) : bool :=
  plainText (DrawTime d) && int64 (DrawNo d)
  && match Results d with
     | Some rs => forallb int64 rs
     | None => true
     end.

Definition plainPropoDraw (d : PropoDraw) : bool :=
  plainText (PropoDrawTime d) && int64 (PropoDrawNo d)
  && match PropoResults d with
     | Some rs => forallb plainText rs
     | None => true
     end.

(** The JSON names of the fields of [Draw] and of [PropoDraw], and
    whether a key selects one of them: it is equal to one under case
    folding. *)
Definition drawTags : list string := ["drawTime"; "drawNo"; "results"].

Definition knownKey (k : string) : bool :=
  existsb (fun name => String.eqb (foldName name) (foldName k)) drawTags.

(** The [http.Client] that [NewClient] keeps: the one it is given, or
    the default one for nil. *)
Definition transport (h : option http.Client) : http.Client :=
  match h with
  | Some c => c
  | None => http.DefaultClient
  end.

(** A state right after [NewClient]: nothing sent, nothing closed. *)
Definition fresh (h : option http.Client)
  (net : list http.Request -> http.Client -> http.Request -> RoundTrip)
  : State := mkState (NewClient h) net [] 0.

(** *** Base URLs and references whose text is kept

    The user and host of [b] as [String] writes them between the two
    slashes and the path. *)
Definition authorityText (b : url.URL) : string :=
  match url.User b with
  | Some ui => url.Userinfo_String ui ++ "@"
  | None => ""
  end ++ url.escape (url.Host b) url.encodeHost.


Definition sameUser (a b : option url.Userinfo) : bool :=
  match a, b with
  | None, None => true
  | Some x, Some y =>
      String.eqb (url.username x) (url.username y)
      && String.eqb (url.password x) (url.password y)
      && Bool.eqb (url.passwordSet x) (url.passwordSet y)
  | _, _ => false
  end.

(** A scheme in lower case: a letter, then letters, digits and the marks
    [+-.]. *)
Definition schemeByte (c : byte) : bool :=
  is_lower c || is_digit c || byte_in c "+-.".

Definition lowerScheme (s : string) : bool :=
  match s with
  | String c rest => is_lower c && strings.all schemeByte rest
  | EmptyString => false
  end.

(** No segment of [s] is [.] or [..]. *)
Definition noDots (s : string) : bool :=
  forallb (fun seg => negb (url.isDot seg)) (url.segments s).

(** A base URL that ends with a slash and reads back from its text: no
    scheme or a scheme in lower case; no opaque part; a user and a host
    that [parseAuthority] reads back from what [String] writes for them
    (any user info, any host, with or without a port), the port not empty,
    and the host not left out after a scheme; an escaped path that starts
    and ends with a slash and has no dot segment and, where there is
    neither a scheme nor an authority, does not start with just two
    slashes (which would read as an authority); no query and no
    fragment. *)
Definition keptBase (b : url.URL) : bool :=
  (String.eqb (url.Scheme b) "" || lowerScheme (url.Scheme b))
  && String.eqb (url.Opaque b) ""
  && match url.parseAuthority (authorityText b) with
     | inr (user, host) =>
         sameUser user (url.User b) && String.eqb host (url.Host b)
     | inl _ => false
     end
  && String.eqb (http.removeEmptyPort (url.Host b)) (url.Host b)
  && negb (url.OmitHost b && String.eqb (authorityText b) ""
           && negb (String.eqb (url.Scheme b) ""))
  && strings.HasPrefix (url.EscapedPath b) "/"
  && strings.HasSuffixByte (url.EscapedPath b) "/"
  && noDots (url.EscapedPath b)
  && (negb (String.eqb (url.Scheme b) "" && String.eqb (authorityText b) "")
      || strings.HasPrefix (url.EscapedPath b) "///"
      || negb (strings.HasPrefix (url.EscapedPath b) "//"))
  && negb (url.ForceQuery b)
  && String.eqb (url.RawQuery b) ""
  && String.eqb (url.Fragment b) "".

(** A relative path that [net/url] keeps as it is written: every byte is
    one [validEncoding] allows in a path (letters, digits, the marks
    [-_.~], [$&+,/:;=@], [!'()*], the brackets and the percent sign; so no
    space, no question mark, no number sign, no control or non-ASCII
    byte), every percent sign starts an escape [unescape] accepts, there
    is no slash at the start, no colon in the first segment, no segment
    that is [.] or [..], and the path is not [%2A], the escape of the
    star. *)
Definition keptPath (p : string) : bool :=
  url.validEncoding p url.encodePath
  && match url.unescape p url.encodePath with
     | inr _ => true
     | inl _ => false
     end
  && negb (strings.HasPrefix p "/")
  && negb (strings.ContainsByte (fst (fst (strings.Cut p "/"))) ":")
  && noDots p
  && negb (String.eqb p "%2A").





(** A query [net/url] keeps as written: any bytes but the number sign and
    the control bytes.  A fragment it keeps as written: not empty, every
    byte one [validEncoding] allows in a fragment, every percent sign the
    start of an escape [unescape] accepts. *)
Definition keptQuery (q : string) : bool :=
  negb (strings.ContainsByte q "#") && negb (url.stringContainsCTLByte q).

Definition keptFragment (f : string) : bool :=
  negb (String.eqb f "")
  && url.validEncoding f url.encodeFragment
  && match url.unescape f url.encodeFragment with
     | inr _ => true
     | inl _ => false
     end.

(** A relative reference [net/url] keeps as written: a kept path, then
    possibly a kept query, then possibly a kept fragment; and its text. *)
Definition keptReference (path : string) (q f : option string) : bool :=
  keptPath path
  && match q with Some q => keptQuery q | None => true end
  && match f with Some f => keptFragment f | None => true end.


(** Whether a text is the text of a kept reference: the path is the text
    before the first question mark or number sign, the fragment the text
    after the first number sign, the query what is between them. *)
Definition keptText (p : string) : bool :=
  let '(u, f, hasFragment) := strings.Cut p "#" in
  let '(path, q, hasQuery) := strings.Cut u "?" in
  keptReference path (if hasQuery then Some q else None)
    (if hasFragment then Some f else None).



(** The URL a text parses to, and a client with a given base URL whose
    network refuses every connection. *)
Definition parsed (s : string) : url.URL :=
  match url.Parse s with
  | inr u => u
  | inl _ => url.empty
  end.

Definition clientAt (b : url.URL) : State :=
  mkState
    (mkClientOpap http.DefaultClient b (mkDrawsService defaultDrawsEndpoint))
    (fun _ _ _ => Failed (errorString "dial tcp: connection refused")) [] 0.

(** Whether [NewRequest] on [p], for a client with base URL [b], gives a
    request whose URL is the text of [b] followed by [p]. *)
Definition concatenates (b : url.URL) (p : string) : bool :=
  match fst (NewRequest "GET" p None (clientAt b)) with
  | inr req => String.eqb (url.String_ (http.URL req)) (url.String_ b ++ p)
  | inl _ => false
  end.

(** The texts of [n] bytes taken from [bytes], and those of at most [n]
    bytes. *)
Fixpoint texts (bytes : list byte) (n : nat) : list string :=
  match n with
  | O => [""]
  | S n' =>
      flat_map (fun w => map (fun c => String c w) bytes) (texts bytes n')
  end.

Definition textsUpTo (bytes : list byte) (n : nat) : list string :=
  flat_map (texts bytes) (seq 0 (S n)).

(** For a text [s] that parses to a base URL: the base URL is a kept one
    exactly when [NewRequest] on the path [x/y] gives the base URL followed
    by that path. *)
Definition exactBase (s : string) : bool :=
  match url.Parse s with
  | inr b => Bool.eqb (keptBase b) (concatenates b "x/y")
  | inl _ => true
  end.

(** *** The harness of the package's tests

    [setup] starts a test server whose mux has the given handlers and
    points a new client at it; a handler is the status and the body it
    writes.  As in [http.ServeMux], a pattern that ends with a slash
    matches every path below it, and a path no pattern matches gets the
    404 of the mux. *)
Definition nl : string := String (byte_of 10) "".

Definition handler : Type := Z * string.

Definition matches (pattern path : string) : bool :=
  String.eqb pattern path
  || (strings.HasSuffixByte pattern "/" && strings.HasPrefix path pattern).

Definition serve (routes : list (string * handler)) (req : http.Request)
  : http.Response :=
  match find (fun r => matches (fst r) (url.Path (http.URL req))) routes with
  | Some (_, (status, body)) =>
      http.mkResponse status (io.mkReader [body] None) req
  | None =>
      http.mkResponse 404 (io.mkReader ["404 page not found" ++ nl] None) req
  end.

Definition serverURL : url.URL :=
  match url.Parse "http://127.0.0.1:8080" with
  | inr u => u
  | inl _ => url.empty
  end.

Definition setup (routes : list (string * handler)) : State :=
  mkState
    (mkClientOpap http.DefaultClient serverURL
       (mkDrawsService defaultDrawsEndpoint))
    (fun _ _ req => Responded (serve routes req)) [] 0.

(** The client of a test server that was closed. *)
Definition teardown (st : State) : State :=
  mkState (self st)
    (fun _ _ _ => Failed (errorString "dial tcp: connection refused"))
    (sent st) (closed st).

(** [NewRequest] and then [Do], as the tests of [Do] call them. *)
Definition requestAndDo {T} `{Unmarshaler T} (method urlStr : string)
  (v : target T) (st : State)
  : option http.Response * option error * target T :=
  match fst (NewRequest method urlStr None st) with
  | inl err => (None, Some err, v)
  | inr req => fst (Do req v st)
  end.

(** The struct [foo] of [TestClient_Do]: its field has no json tag, so its
    JSON name is the name of the field. *)
Record foo : Type := mkFoo {
  Bar : string
}.

#[export] Instance foo_Unmarshaler : Unmarshaler foo := {
  typeName := "opap.foo";
  zero := mkFoo "";
  store := storeStruct "foo" "opap.foo" [tagged "Bar" Bar (fun y _ => mkFoo y)]
}.

(** The bodies the test handlers write. *)
Definition bodyFoo : string := "{" ++ q "bar" ++ ":" ++ q "baz" ++ "}".

Definition propoResults : list string :=
  ["2"; "2"; "1"; "X"; "X"; "1"; "X"; "2"; "1"; "1"; "1"; "X"; "2"; "2"].

Definition textPropo : string :=
  "{" ++ q "drawTime" ++ ":" ++ q "23-12-2017T16:00:00" ++ ","
  ++ q "drawNo" ++ ":201751," ++ q "results" ++ ":["
  ++ String.concat "," (map q propoResults) ++ "]}".

Definition bodyPropo : string := "{" ++ q "draw" ++ ":" ++ textPropo ++ "}".

Definition bodyDatePropo : string :=
  "{" ++ q "draws" ++ ":{" ++ q "draw" ++ ":[" ++ textPropo ++ "]}}".

Definition propoDraw201751 : PropoDraw :=
  mkPropoDraw "23-12-2017T16:00:00" 201751 (Some propoResults).

(** The error text of a handler that answers [http.Error(w, msg, code)]. *)
Definition brokeText (path : string) : string :=
  "GET http://127.0.0.1:8080" ++ path ++ ": 500 something broke" ++ nl.

(** ** Strings *)

Lemma append_nil_r (s : string) : s ++ "" = s.
Proof. induction s; simpl; congruence. Qed.

Lemma append_assoc (a b c : string) : (a ++ b) ++ c = a ++ b ++ c.
Proof. induction a; simpl; congruence. Qed.

Lemma concat_cons (c : string) (cs : list string) :
  String.concat "" (c :: cs) = c ++ String.concat "" cs.
Proof.
  destruct cs as [|c' cs]; simpl; [rewrite append_nil_r|]; reflexivity.
Qed.

Lemma all_impl (P Q : byte -> bool) (s : string) :
  (forall c, P c = true -> Q c = true) ->
  strings.all P s = true -> strings.all Q s = true.
Proof.
  intros I. induction s as [|c s IH]; simpl; [reflexivity|].
  intros H. apply andb_true_iff in H as [Hc Hs].
  rewrite (I c Hc), (IH Hs). reflexivity.
Qed.

Lemma all_app (P : byte -> bool) (a b : string) :
  strings.all P (a ++ b) = strings.all P a && strings.all P b.
Proof.
  induction a as [|c a IH]; simpl; [reflexivity|].
  rewrite IH, andb_assoc. reflexivity.
Qed.

Lemma all_absent (P : byte -> bool) (s : string) (c : byte) :
  P c = false -> strings.all P s = true -> strings.ContainsByte s c = false.
Proof.
  intros Pc. induction s as [|a s IH]; simpl; [reflexivity|].
  intros H. apply andb_true_iff in H as [Ha Hs]. rewrite (IH Hs).
  destruct (Ascii.eqb_spec a c) as [->|_]; [congruence|reflexivity].
Qed.

Lemma Contains_app (a b : string) (c : byte) :
  strings.ContainsByte (a ++ b) c
  = strings.ContainsByte a c || strings.ContainsByte b c.
Proof.
  induction a as [|x a IH]; simpl; [reflexivity|].
  rewrite IH, orb_assoc. reflexivity.
Qed.

Lemma Cut_absent (s : string) (c : byte) :
  strings.ContainsByte s c = false -> strings.Cut s c = (s, "", false).
Proof.
  induction s as [|a s IH]; simpl; [reflexivity|].
  intros H. apply orb_false_iff in H as [Ha Hs].
  rewrite Ha, (IH Hs). reflexivity.
Qed.

Lemma Cut_first (a b : string) (c : byte) :
  strings.ContainsByte a c = false ->
  strings.Cut (a ++ String c b) c = (a, b, true).
Proof.
  induction a as [|x a IH]; simpl.
  - rewrite Ascii.eqb_refl. reflexivity.
  - intros H. apply orb_false_iff in H as [Hx Ha].
    rewrite Hx, (IH Ha). reflexivity.
Qed.

Lemma LastCut_absent (s : string) (c : byte) :
  strings.ContainsByte s c = false -> strings.LastCut s c = None.
Proof.
  induction s as [|a s IH]; simpl; [reflexivity|].
  intros H. apply orb_false_iff in H as [Ha Hs].
  rewrite (IH Hs), Ha. reflexivity.
Qed.


Lemma Cut_fst_absent (s : string) (c d : byte) :
  strings.ContainsByte s c = false ->
  strings.ContainsByte (fst (fst (strings.Cut s d))) c = false.
Proof.
  induction s as [|a s IH]; simpl; [reflexivity|].
  intros H. apply orb_false_iff in H as [Ha Hs].
  destruct (Ascii.eqb a d); [reflexivity|].
  specialize (IH Hs). destruct (strings.Cut s d) as [[b af] f]. simpl in *.
  rewrite Ha, IH. reflexivity.
Qed.

Lemma HasPrefix_slashes (p : string) :
  strings.HasPrefix p "/" = false -> strings.HasPrefix p "//" = false.
Proof.
  destruct p as [|c p]; [reflexivity|]. simpl.
  destruct (Ascii.eqb c "/"); [|reflexivity].
  destruct p; intros H; discriminate H.
Qed.

Lemma forallb_last (P : string -> bool) (l : list string) (d : string) :
  l <> [] -> forallb P l = true -> P (last l d) = true.
Proof.
  induction l as [|a l IH]; [congruence|]. intros _ H.
  apply andb_true_iff in H as [Ha Hl]. destruct l as [|b l]; [exact Ha|].
  apply IH; [discriminate | exact Hl].
Qed.

(** ** [Do], case by case *)

Lemma Do_failed T (U : Unmarshaler T) st req (v : target T) err :
  answer st req = Failed err ->
  Do req v st = ((None, Some err, v), afterSend st req).
Proof.
  unfold answer, Do, opap.bind, this, httpDo. simpl. intros ->. reflexivity.
Qed.

Lemma Do_status T (U : Unmarshaler T) st req (v : target T) resp err :
  answer st req = Responded resp ->
  checkResponse resp = Some err ->
  Do req v st = ((Some resp, Some err, v), afterClose st req).
Proof.
  unfold answer, Do, opap.bind, this, httpDo, defer, Close. simpl.
  intros -> Hc. unfold opap.bind. rewrite Hc. reflexivity.
Qed.

Lemma Do_nil T (U : Unmarshaler T) st req resp :
  answer st req = Responded resp ->
  checkResponse resp = None ->
  Do req (@nilInterface T) st
  = ((Some resp, None, nilInterface), afterClose st req).
Proof.
  unfold answer, Do, opap.bind, this, httpDo, defer, Close. simpl.
  intros -> Hc. unfold opap.bind. rewrite Hc. reflexivity.
Qed.

Lemma Do_decode T (U : Unmarshaler T) st req (v : target T) resp :
  answer st req = Responded resp ->
  checkResponse resp = None ->
  v <> nilInterface ->
  Do req v st
  = (let '(v', err, buf) := Decode (http.Body resp) v in
     (Some resp,
      match err with
      | Some e => Some (errorString (decodeText e buf))
      | None => None
      end, v'),
     afterClose st req).
Proof.
  unfold answer, Do, opap.bind, this, httpDo, defer, Close. simpl.
  intros -> Hc Hv. unfold opap.bind. rewrite Hc.
  destruct v; try congruence;
    destruct (Decode (http.Body resp) _) as [[v' [e|]] buf]; reflexivity.
Qed.

Lemma Do_self T (U : Unmarshaler T) req (v : target T) st :
  self (snd (Do req v st)) = self st.
Proof.
  destruct (answer st req) as [resp|err] eqn:A.
  - destruct (checkResponse resp) as [e|] eqn:C.
    + erewrite Do_status by eassumption. reflexivity.
    + destruct v.
      * erewrite Do_nil by eassumption. reflexivity.
      * erewrite Do_decode by (eassumption || discriminate). reflexivity.
      * erewrite Do_decode by (eassumption || discriminate). reflexivity.
  - erewrite Do_failed by eassumption. reflexivity.
Qed.

Lemma Do_sent T (U : Unmarshaler T) req (v : target T) st :
  sent (snd (Do req v st)) = (sent st ++ [req])%list.
Proof.
  destruct (answer st req) as [resp|err] eqn:A.
  - destruct (checkResponse resp) as [e|] eqn:C.
    + erewrite Do_status by eassumption. reflexivity.
    + destruct v.
      * erewrite Do_nil by eassumption. reflexivity.
      * erewrite Do_decode by (eassumption || discriminate). reflexivity.
      * erewrite Do_decode by (eassumption || discriminate). reflexivity.
  - erewrite Do_failed by eassumption. reflexivity.
Qed.

(** [Do] closes the body of the response it received, once, on every
    path; without a response there is nothing to close. *)
Lemma Do_closed T (U : Unmarshaler T) req (v : target T) st :
  closed (snd (Do req v st))
  = match answer st req with
    | Responded _ => S (closed st)
    | Failed _ => closed st
    end.
Proof.
  destruct (answer st req) as [resp|err] eqn:A.
  - destruct (checkResponse resp) as [e|] eqn:C.
    + erewrite Do_status by eassumption. reflexivity.
    + destruct v.
      * erewrite Do_nil by eassumption. reflexivity.
      * erewrite Do_decode by (eassumption || discriminate). reflexivity.
      * erewrite Do_decode by (eassumption || discriminate). reflexivity.
  - erewrite Do_failed by eassumption. reflexivity.
Qed.

(** ** [checkResponse], case by case *)

Lemma checkResponse_success resp :
  success resp = true -> checkResponse resp = None.
Proof. unfold success, checkResponse. intros ->. reflexivity. Qed.

Lemma checkResponse_status resp :
  success resp = false ->
  io.failure (http.Body resp) = None ->
  checkResponse resp = Some (errorString (statusText resp)).
Proof.
  unfold success, checkResponse, ReadAll, statusText. intros -> ->.
  unfold Errorf. simpl. rewrite append_nil_r. reflexivity.
Qed.

Lemma checkResponse_unread resp e :
  success resp = false ->
  io.failure (http.Body resp) = Some e ->
  checkResponse resp
  = Some (errorString ("reading response body: " ++ Error e)).
Proof.
  unfold success, checkResponse, ReadAll. intros -> ->.
  unfold Errorf. simpl. rewrite append_nil_r. reflexivity.
Qed.

Lemma checkResponse_failure resp :
  success resp = false -> exists err, checkResponse resp = Some err.
Proof.
  intros H. destruct (io.failure (http.Body resp)) as [e|] eqn:F.
  - eexists. apply checkResponse_unread; eassumption.
  - eexists. apply checkResponse_status; assumption.
Qed.

(** ** [NewRequest] and [get] *)

Lemma NewRequest_pure method urlStr body st :
  NewRequest method urlStr body st
  = (buildRequest (self st) method urlStr body, st).
Proof.
  unfold NewRequest, buildRequest, opap.bind, this, ret.
  destruct (url.Parse urlStr); [reflexivity|].
  destruct (http.NewRequest _ _ _); reflexivity.
Qed.

Lemma get_spec T (U : Unmarshaler T) path (v : target T) st :
  get path v st
  = match buildRequest (self st) "GET" path None with
    | inl err => ((None, Some err, v), st)
    | inr req => Do req v st
    end.
Proof.
  unfold get, opap.bind. rewrite NewRequest_pure.
  destruct (buildRequest _ _ _ _); reflexivity.
Qed.

Lemma get_self T (U : Unmarshaler T) path (v : target T) st :
  self (snd (get path v st)) = self st.
Proof.
  rewrite get_spec. destruct (buildRequest _ _ _ _); [reflexivity|].
  apply Do_self.
Qed.

Lemma buildRequest_method c method urlStr body req :
  buildRequest c method urlStr body = inr req ->
  http.Method req = if String.eqb method "" then "GET" else method.
Proof.
  unfold buildRequest, http.NewRequest.
  destruct (url.Parse urlStr) as [e|rel]; [discriminate|].
  destruct (negb _); [discriminate|].
  destruct (url.Parse _); [discriminate|].
  intros H. injection H as <-. reflexivity.
Qed.

Lemma validMethod_nonempty (method : string) :
  http.validMethod method = true ->
  (if String.eqb method "" then "GET" else method) = method.
Proof.
  unfold http.validMethod. destruct (String.eqb method ""); [discriminate|].
  reflexivity.
Qed.

(** ** The six lookups are [get] on a path, then [outcome] *)

Lemma Latest_lookup g st :
  Latest g st
  = lookup (fun d => Some (draws_Draw d))
      (latestPath (Endpoint (Draws (self st))) g) st.
Proof.
  unfold Latest, lookup, latestPath, service, opap.bind, this, ret. simpl.
  destruct (get _ _ st) as [[[resp [e|]] d] st']; reflexivity.
Qed.

Lemma PropoLatest_lookup g st :
  PropoLatest g st
  = lookup (fun d => Some (propoDraws_Draw d))
      (latestPath (Endpoint (Draws (self st))) g) st.
Proof.
  unfold PropoLatest, lookup, latestPath, service, opap.bind, this, ret.
  simpl. destruct (get _ _ st) as [[[resp [e|]] d] st']; reflexivity.
Qed.

Lemma ByNumber_lookup g number st :
  ByNumber g number st
  = lookup (fun d => Some (draws_Draw d))
      (numberPath (Endpoint (Draws (self st))) g number) st.
Proof.
  unfold ByNumber, lookup, numberPath, service, opap.bind, this, ret. simpl.
  destruct (get _ _ st) as [[[resp [e|]] d] st']; reflexivity.
Qed.

Lemma PropoByNumber_lookup g number st :
  PropoByNumber g number st
  = lookup (fun d => Some (propoDraws_Draw d))
      (numberPath (Endpoint (Draws (self st))) g number) st.
Proof.
  unfold PropoByNumber, lookup, numberPath, service, opap.bind, this, ret.
  simpl. destruct (get _ _ st) as [[[resp [e|]] d] st']; reflexivity.
Qed.

Lemma date_text day month year :
  fmt.Sprintf "%d-%d-%d" [fmt.Int day; fmt.Int month; fmt.Int year]
  = strconv.Itoa day ++ "-" ++ strconv.Itoa month ++ "-" ++ strconv.Itoa year.
Proof. simpl. rewrite append_nil_r. reflexivity. Qed.

Lemma date_path endpoint g day month year :
  fmt.Sprintf "%s/%s/drawDate/%s.json"
    [fmt.Str endpoint; fmt.Str g;
     fmt.Str (fmt.Sprintf "%d-%d-%d"
                [fmt.Int day; fmt.Int month; fmt.Int year])]
  = datePath endpoint g day month year.
Proof.
  rewrite date_text. unfold datePath. simpl.
  rewrite !append_assoc. simpl. rewrite !append_assoc. reflexivity.
Qed.

Lemma ByDate_lookup g day month year st :
  ByDate g day month year st
  = lookup (fun d => drawsByDate_Draw (drawsByDate_Draws_ d))
      (datePath (Endpoint (Draws (self st))) g day month year) st.
Proof.
  unfold ByDate, lookup, service, opap.bind, this, ret.
  cbv beta iota zeta. rewrite date_path.
  destruct (get _ _ st) as [[[resp [e|]] d] st']; reflexivity.
Qed.

Lemma PropoByDate_lookup g day month year st :
  PropoByDate g day month year st
  = lookup (fun d => propoDrawsByDate_Draw (propoDrawsByDate_Draws_ d))
      (datePath (Endpoint (Draws (self st))) g day month year) st.
Proof.
  unfold PropoByDate, lookup, service, opap.bind, this, ret.
  cbv beta iota zeta. rewrite date_path.
  destruct (get _ _ st) as [[[resp [e|]] d] st']; reflexivity.
Qed.

Lemma lookup_self T R (U : Unmarshaler T) (unwrap : T -> option R) path st :
  self (snd (lookup unwrap path st)) = self st.
Proof.
  unfold lookup. pose proof (get_self T U path (pointer (new T)) st) as H.
  destruct (get _ _ st). exact H.
Qed.

Lemma sameClient_of_self st st' : self st' = self st -> sameClient st st'.
Proof. unfold sameClient. intros ->. auto. Qed.

Lemma lookup_sent T R (U : Unmarshaler T) (unwrap : T -> option R) path st :
  sent (snd (lookup unwrap path st))
  = match buildRequest (self st) "GET" path None with
    | inl _ => sent st
    | inr req => (sent st ++ [req])%list
    end.
Proof.
  unfold lookup. rewrite get_spec.
  destruct (buildRequest _ _ _ _) as [e|req]; [reflexivity|].
  pose proof (Do_sent T U req (pointer (new T)) st) as H.
  destruct (Do _ _ st). exact H.
Qed.

Lemma lookup_status T R (U : Unmarshaler T) (unwrap : T -> option R)
  path st resp err :
  receives st path resp ->
  checkResponse resp = Some err ->
  fst (lookup unwrap path st) = (None, Some resp, Some err).
Proof.
  intros [req [B A]] C. unfold lookup. rewrite get_spec, B.
  rewrite (Do_status T U st req _ resp err A C). reflexivity.
Qed.

(** ** The decoder: what it has read, and chunks *)

Lemma readValue_buf sc chunks failure buf :
  exists n,
    snd (readValue sc chunks failure buf)
    = buf ++ String.concat "" (firstn n chunks).
Proof.
  revert sc buf. induction chunks as [|c cs IH]; intros sc buf.
  - exists 0%nat. simpl. rewrite append_nil_r.
    destruct failure; [reflexivity|]. destruct (stepByte sc " "); reflexivity.
  - simpl. destruct (scanBytes sc c) as [sc'|v|e].
    + destruct (IH sc' (buf ++ c)) as [n Hn]. exists (S n).
      rewrite Hn. rewrite firstn_cons, concat_cons, append_assoc. reflexivity.
    + exists 1%nat. reflexivity.
    + exists 1%nat. reflexivity.
Qed.

Lemma Decode_buf T (U : Unmarshaler T) r (v : target T) :
  exists n,
    snd (Decode r v) = String.concat "" (firstn n (io.chunks r)).
Proof.
  unfold Decode.
  destruct (readValue_buf reset (io.chunks r) (io.failure r) "") as [n Hn].
  exists n. simpl in Hn. rewrite <- Hn.
  destruct (readValue _ _ _ _) as [[e|val] buf]; [reflexivity|].
  destruct v; try reflexivity. destruct (store _ _ _); reflexivity.
Qed.

Lemma scanBytes_app sc a b :
  scanBytes sc (a ++ b)
  = match scanBytes sc a with
    | scanContinue sc' => scanBytes sc' b
    | r => r
    end.
Proof.
  revert sc. induction a as [|c a IH]; intros sc; simpl.
  - reflexivity.
  - destruct (stepByte sc c); [apply IH | reflexivity | reflexivity].
Qed.

Lemma scanBytes_end doc t v :
  scanBytes reset doc = scanEnd v -> scanBytes reset (doc ++ t) = scanEnd v.
Proof. intros H. rewrite scanBytes_app, H. reflexivity. Qed.

Lemma readValue_content sc chunks failure buf :
  fst (readValue sc chunks failure buf)
  = match scanBytes sc (String.concat "" chunks) with
    | scanEnd v => inr v
    | scanError e => inl e
    | scanContinue sc' =>
        match failure with
        | Some e => inl e
        | None =>
            match stepByte sc' " " with
            | scanEnd v => inr v
            | _ => inl (if nonSpace (buf ++ String.concat "" chunks)
                        then ErrUnexpectedEOF else EOF)
            end
        end
    end.
Proof.
  revert sc buf. induction chunks as [|c cs IH]; intros sc buf.
  - simpl. rewrite append_nil_r. destruct failure; [reflexivity|].
    destruct (stepByte sc " "); reflexivity.
  - rewrite concat_cons, scanBytes_app. simpl.
    destruct (scanBytes sc c) as [sc'|v|e]; try reflexivity.
    rewrite IH, append_assoc. reflexivity.
Qed.

Lemma Decode_stream T (U : Unmarshaler T) r (v : target T) :
  fst (Decode r v) = decodeStream (io.content r) (io.failure r) v.
Proof.
  unfold Decode, decodeStream, scanStream, io.content.
  pose proof (readValue_content reset (io.chunks r) (io.failure r) "") as H.
  simpl in H. destruct (readValue _ _ _ _) as [res buf]. simpl in H. subst res.
  destruct (scanBytes reset _) as [sc|val|e].
  - destruct (io.failure r); [reflexivity|].
    destruct (stepByte sc " "); try reflexivity.
    destruct v; try reflexivity. destruct (store _ _ _); reflexivity.
  - destruct v; try reflexivity. destruct (store _ _ _); reflexivity.
  - reflexivity.
Qed.

Lemma scanStream_end content failure v :
  scanBytes reset content = scanEnd v -> scanStream content failure = inr v.
Proof. unfold scanStream. intros ->. reflexivity. Qed.

Lemma decode_empty_object T (U : Unmarshaler T) (x : T) failure :
  store ("", []) (Object []) x = (x, None) ->
  decodeStream "{}" failure (pointer x) = (pointer x, None).
Proof.
  intros H. unfold decodeStream.
  rewrite (scanStream_end "{}" failure (Object [])) by reflexivity.
  rewrite H. reflexivity.
Qed.

Lemma lookup_decoded T R (U : Unmarshaler T) (unwrap : T -> option R)
  path st resp :
  receives st path resp ->
  success resp = true ->
  exists buf,
    fst (lookup unwrap path st)
    = outcome unwrap
        (let '(v, err) :=
           decodeStream (io.content (http.Body resp))
             (io.failure (http.Body resp)) (pointer (new T)) in
         (Some resp,
          match err with
          | Some e => Some (errorString (decodeText e buf))
          | None => None
          end, v)).
Proof.
  intros [req [B A]] S. apply checkResponse_success in S.
  unfold lookup. rewrite get_spec, B.
  rewrite (Do_decode T U st req _ resp A S) by discriminate.
  rewrite <- Decode_stream.
  destruct (Decode _ _) as [[v err] buf]. exists buf. reflexivity.
Qed.

Lemma lookup_success T R (U : Unmarshaler T) (unwrap : T -> option R)
  path st resp x :
  receives st path resp ->
  success resp = true ->
  decodeStream (io.content (http.Body resp)) (io.failure (http.Body resp))
    (pointer (new T)) = (pointer x, None) ->
  fst (lookup unwrap path st) = (unwrap x, Some resp, None).
Proof.
  intros Rc S D. destruct (lookup_decoded T R U unwrap path st resp Rc S)
    as [buf H].
  rewrite H, D. reflexivity.
Qed.

Lemma lookup_returns T R (U : Unmarshaler T) (unwrap : T -> option R)
  path st resp x r :
  receives st path resp ->
  success resp = true ->
  unwrap x = r ->
  decodeStream (io.content (http.Body resp)) (io.failure (http.Body resp))
    (pointer (new T)) = (pointer x, None) ->
  fst (lookup unwrap path st) = (r, Some resp, None).
Proof.
  intros Rc S <- D. apply (lookup_success T R U unwrap path st resp x Rc S D).
Qed.

(** A goal about one of the six lookups, turned into one about [lookup];
    and a goal that a lookup returns a result, reduced to what the decoder
    makes of the body, given the envelope [x] it decodes to. *)
Ltac as_lookup :=
  first [ rewrite Latest_lookup | rewrite PropoLatest_lookup
        | rewrite ByNumber_lookup | rewrite PropoByNumber_lookup
        | rewrite ByDate_lookup | rewrite PropoByDate_lookup ].

Ltac returns x :=
  eapply (lookup_returns _ _ _ _ _ _ _ x _);
  [ eassumption | eassumption | reflexivity | ].

Ltac returns_zero :=
  match goal with
  | |- fst (@lookup ?T _ ?U _ _ _) = _ => returns (@zero T U)
  end.

(** ** [Itoa] writes plain decimal *)

Lemma string_of_uint_digits (d : Decimal.uint) :
  strings.all is_digit (NilEmpty.string_of_uint d) = true.
Proof. induction d; simpl; auto. Qed.

Lemma to_uint_plain (p : positive) :
  plainDigits (NilZero.string_of_uint (Pos.to_uint p)) = true.
Proof.
  pose proof (DecimalPos.Unsigned.to_of (Pos.to_uint p)) as H.
  rewrite DecimalPos.Unsigned.of_to in H. simpl in H.
  assert (N : Decimal.nzhead (Pos.to_uint p) <> Decimal.Nil).
  { intros E. apply DecimalFacts.unorm_0 in E. rewrite E in H.
    pose proof (DecimalPos.Unsigned.of_to p) as O. rewrite H in O.
    discriminate O. }
  rewrite (DecimalFacts.unorm_nzhead _ N) in H.
  pose proof (DecimalFacts.nzhead_nonzero (Pos.to_uint p)) as Z.
  rewrite <- H in Z, N.
  destruct (Pos.to_uint p) as [|d|d|d|d|d|d|d|d|d|d]; simpl;
    try apply string_of_uint_digits.
  - contradiction.
  - exfalso. apply (Z d). reflexivity.
Qed.

Lemma Itoa_value (n : Z) :
  option_map Z.of_int (NilZero.int_of_string (strconv.Itoa n)) = Some n.
Proof.
  unfold strconv.Itoa. rewrite NilZero.isi.
  - simpl. rewrite DecimalZ.of_to. reflexivity.
  - destruct n; simpl; try discriminate.
    intros E. injection E as E.
    pose proof (DecimalPos.Unsigned.of_to p) as O. rewrite E in O.
    discriminate O.
  - destruct n; simpl; try discriminate.
    intros E. injection E as E.
    pose proof (DecimalPos.Unsigned.of_to p) as O. rewrite E in O.
    discriminate O.
Qed.

Lemma Itoa_plain (n : Z) : plainDecimal n (strconv.Itoa n).
Proof.
  split; [|apply Itoa_value].
  destruct n; unfold strconv.Itoa; simpl.
  - reflexivity.
  - apply to_uint_plain.
  - eexists. split; [reflexivity|]. apply to_uint_plain.
Qed.

(** ** Plain relative paths resolve by concatenation *)

(** What a byte of a plain path is not. *)
Lemma safeByte_facts (c : byte) :
  safeByte c = true ->
  (code c <? 32) || (code c =? 127) = false
  /\ Ascii.eqb c "%" = false
  /\ Ascii.eqb c ":" = false
  /\ Ascii.eqb c "+" = false
  /\ safeByte "#" = false
  /\ url.shouldEscape c url.encodePath = false.
Proof.
  destruct c as [[] [] [] [] [] [] [] []]; intros H; vm_compute in H;
    try discriminate H; vm_compute; repeat split.
Qed.

Lemma plain_absent (p : string) (c : byte) :
  safeByte c = false ->
  strings.all safeByte p = true -> strings.ContainsByte p c = false.
Proof. apply all_absent. Qed.

Lemma noCTL_plain (p : string) :
  strings.all safeByte p = true -> url.stringContainsCTLByte p = false.
Proof.
  intros H. unfold url.stringContainsCTLByte.
  rewrite (all_impl safeByte _ p); [reflexivity | | exact H].
  intros c Hc. destruct (safeByte_facts c Hc) as [E _]. rewrite E. reflexivity.
Qed.

Lemma not_star (p : string) :
  strings.all safeByte p = true -> String.eqb p "*" = false.
Proof.
  intros H. destruct (String.eqb_spec p "*") as [->|]; [|reflexivity].
  vm_compute in H. discriminate H.
Qed.

Lemma unescape_step (c : byte) (s : string) :
  safeByte c = true ->
  url.unescape (String c s) url.encodePath
  = match url.unescape s url.encodePath with
    | inl e => inl e
    | inr t => inr (String c t)
    end.
Proof.
  destruct c as [[] [] [] [] [] [] [] []]; intros H; vm_compute in H;
    try discriminate H; reflexivity.
Qed.

Lemma unescape_plain (p : string) :
  strings.all safeByte p = true -> url.unescape p url.encodePath = inr p.
Proof.
  induction p as [|c p IH]; [reflexivity|]. simpl strings.all.
  intros H. apply andb_true_iff in H as [Hc Hp].
  rewrite (unescape_step c p Hc), (IH Hp). reflexivity.
Qed.

Lemma escape_plain (p : string) :
  strings.all safeByte p = true -> url.escape p url.encodePath = p.
Proof.
  induction p as [|c p IH]; [reflexivity|]. simpl.
  intros H. apply andb_true_iff in H as [Hc Hp].
  destruct (safeByte_facts c Hc) as [_ [_ [_ [_ [_ E]]]]].
  rewrite E, andb_false_r, (IH Hp). reflexivity.
Qed.

Lemma setPath_plain (u : url.URL) (p : string) :
  strings.all safeByte p = true ->
  url.setPath u p
  = inr (url.mkURL (url.Scheme u) (url.Opaque u) (url.User u) (url.Host u)
           p "" (url.OmitHost u) (url.ForceQuery u) (url.RawQuery u)
           (url.Fragment u) (url.RawFragment u)).
Proof.
  intros H. unfold url.setPath.
  rewrite (unescape_plain p H), (escape_plain p H), String.eqb_refl.
  reflexivity.
Qed.

Lemma EscapedPath_plain (u : url.URL) :
  url.RawPath u = "" ->
  strings.all safeByte (url.Path u) = true ->
  url.EscapedPath u = url.Path u.
Proof.
  intros Raw S. unfold url.EscapedPath. rewrite Raw. simpl.
  rewrite (not_star _ S). apply escape_plain, S.
Qed.

Lemma getSchemeFrom_plain (rest seen whole : string) :
  strings.all safeByte rest = true ->
  url.getSchemeFrom seen rest whole = inr ("", whole).
Proof.
  revert seen. induction rest as [|c rest IH]; intros seen; [reflexivity|].
  simpl. intros H. apply andb_true_iff in H as [Hc Hr].
  destruct (safeByte_facts c Hc) as [_ [_ [E _]]].
  destruct (is_alpha c); [apply IH, Hr|].
  destruct (is_digit c || byte_in c "+-.").
  - destruct seen; [reflexivity | apply IH, Hr].
  - rewrite E. reflexivity.
Qed.

Lemma parse_plain (p : string) :
  strings.all safeByte p = true ->
  strings.HasPrefix p "/" = false ->
  url.parse p = inr (relURL p).
Proof.
  intros H R. unfold url.parse.
  rewrite (noCTL_plain p H), (not_star p H).
  unfold url.getScheme. rewrite (getSchemeFrom_plain p "" p H).
  unfold url.bind. cbv beta iota.
  assert (Q : strings.ContainsByte p "?" = false)
    by (apply plain_absent; [reflexivity | exact H]).
  assert (C : strings.ContainsByte p ":" = false)
    by (apply plain_absent; [reflexivity | exact H]).
  unfold strings.HasSuffixByte. rewrite (LastCut_absent p "?" Q).
  rewrite (Cut_absent p "?" Q). cbv beta iota zeta delta [andb negb].
  rewrite R, (Cut_fst_absent p ":" "/" C), (HasPrefix_slashes p R).
  destruct (strings.HasPrefix p "///"); simpl;
    rewrite (setPath_plain _ p H); reflexivity.
Qed.

Lemma Parse_plain (p : string) :
  strings.all safeByte p = true ->
  strings.HasPrefix p "/" = false ->
  url.Parse p = inr (relURL p).
Proof.
  intros H R. unfold url.Parse.
  rewrite (Cut_absent p "#") by (apply plain_absent; [reflexivity | exact H]).
  rewrite (parse_plain p H R). reflexivity.
Qed.

Lemma segments_nonempty (p : string) : url.segments p <> [].
Proof.
  destruct p as [|c p]; simpl; [discriminate|].
  destruct (Ascii.eqb c "/"); [discriminate|].
  destruct (url.segments p); discriminate.
Qed.

Lemma resolveStep_plain (str elem : string) :
  url.isDot elem = false ->
  url.resolveStep (str, false) elem = ((str ++ "/") ++ elem, false).
Proof.
  unfold url.isDot, url.resolveStep. intros H.
  apply orb_false_iff in H as [-> ->]. reflexivity.
Qed.

(** Over segments none of which is a dot segment, the loop of
    [resolvePath] writes the path back as it was.  The first segment is
    appended as it is, so only the segments after it matter here. *)
Lemma resolve_fold (p x : string) :
  forallb (fun seg => negb (url.isDot seg)) (tl (url.segments p)) = true ->
  fold_left url.resolveStep (tl (url.segments p))
    (x ++ hd "" (url.segments p), false)
  = (x ++ p, false).
Proof.
  revert x. induction p as [|c p IH]; intros x; [reflexivity|].
  simpl url.segments. destruct (Ascii.eqb_spec c "/") as [->|N].
  - specialize (IH ((x ++ "") ++ "/")).
    destruct (url.segments p) as [|seg more] eqn:E;
      [destruct (segments_nonempty p E)|].
    cbn [fold_left forallb tl hd] in *. intros H.
    apply andb_true_iff in H as [Hs Hm]. apply negb_true_iff in Hs.
    rewrite (resolveStep_plain (x ++ "") seg Hs), (IH Hm).
    rewrite append_nil_r, append_assoc. reflexivity.
  - specialize (IH (x ++ String c "")).
    destruct (url.segments p) as [|seg more] eqn:E;
      [destruct (segments_nonempty p E)|].
    cbn [fold_left forallb tl hd] in *. intros H.
    rewrite !append_assoc in IH. exact (IH H).
Qed.

Lemma resolvePath_plain (p : string) :
  strings.HasPrefix p "/" = false ->
  forallb (fun seg => negb (url.isDot seg)) (url.segments p) = true ->
  url.resolvePath "/" p = String "/" p.
Proof.
  intros R D. unfold url.resolvePath.
  assert (F : match p with
              | EmptyString => "/"
              | String c _ =>
                  if Ascii.eqb c "/" then p
                  else match strings.LastCut "/" "/" with
                       | Some (before, _) => before ++ "/" ++ p
                       | None => p
                       end
              end = String "/" p).
  { destruct p as [|c p]; [reflexivity|]. simpl in R.
    destruct (Ascii.eqb c "/"); [|reflexivity].
    destruct p; discriminate R. }
  rewrite F. cbn [url.segments]. rewrite Ascii.eqb_refl.
  pose proof (segments_nonempty p) as NE.
  assert (L : url.isDot (last (EmptyString :: url.segments p) "") = false).
  { apply negb_true_iff.
    apply (forallb_last (fun seg => negb (url.isDot seg))); [discriminate|].
    simpl. exact D. }
  rewrite L.
  destruct (url.segments p) as [|seg more] eqn:E; [destruct (NE eq_refl)|].
  cbn [fold_left]. cbn [forallb] in D.
  apply andb_true_iff in D as [Ds Dm]. apply negb_true_iff in Ds.
  change (url.resolveStep ("", true) "") with ("", false).
  rewrite (resolveStep_plain "" seg Ds).
  pose proof (resolve_fold p "/") as RF. rewrite E in RF.
  cbn [tl hd] in RF. change (("" ++ "/") ++ seg) with ("/" ++ seg).
  rewrite (RF Dm). simpl. destruct p; reflexivity.
Qed.

Lemma plainPath_parts (p : string) :
  plainPath p = true ->
  strings.all safeByte p = true
  /\ strings.HasPrefix p "/" = false
  /\ forallb (fun seg => negb (url.isDot seg)) (url.segments p) = true.
Proof.
  unfold plainPath. intros H.
  apply andb_true_iff in H as [H D]. apply andb_true_iff in H as [S R].
  apply negb_true_iff in R. auto.
Qed.

Lemma Resolve_plain (p : string) :
  plainPath p = true ->
  url.ResolveReference (opapURL "/") (relURL p) = opapURL (String "/" p).
Proof.
  intros H. destruct (plainPath_parts p H) as [S [R D]].
  unfold url.ResolveReference.
  rewrite (EscapedPath_plain (relURL p) eq_refl S).
  rewrite (EscapedPath_plain (opapURL "/") eq_refl eq_refl).
  cbn [url.Scheme url.Opaque url.User url.Host url.Path url.RawPath
       url.OmitHost url.ForceQuery url.RawQuery url.Fragment url.RawFragment
       relURL opapURL].
  rewrite (resolvePath_plain p R D).
  assert (S' : strings.all safeByte (String "/" p) = true) by exact S.
  simpl. rewrite andb_false_r.
  destruct (String.eqb p ""); simpl; rewrite setPath_plain by exact S';
    reflexivity.
Qed.

Lemma String_plain (p : string) :
  strings.all safeByte p = true ->
  url.String_ (opapURL (String "/" p)) = defaultBaseURL ++ p.
Proof.
  intros S.
  assert (S' : strings.all safeByte (String "/" p) = true) by exact S.
  unfold url.String_.
  rewrite (EscapedPath_plain (opapURL (String "/" p)) eq_refl S').
  cbn [url.Scheme url.Opaque url.User url.Host url.Path url.RawPath
       url.OmitHost url.ForceQuery url.RawQuery url.Fragment url.RawFragment
       opapURL].
  reflexivity.
Qed.

Lemma absolute_no_fragment (p : string) :
  strings.all safeByte p = true ->
  strings.ContainsByte (defaultBaseURL ++ p) "#" = false.
Proof.
  intros S. rewrite Contains_app, (plain_absent p "#" eq_refl S). reflexivity.
Qed.

Lemma parse_absolute (p : string) :
  strings.all safeByte p = true ->
  url.parse (defaultBaseURL ++ p) = inr (opapURL (String "/" p)).
Proof.
  intros S. unfold url.parse.
  assert (CTL : url.stringContainsCTLByte (defaultBaseURL ++ p) = false).
  { unfold url.stringContainsCTLByte.
    rewrite all_app. apply noCTL_plain in S.
    unfold url.stringContainsCTLByte in S. apply negb_false_iff in S.
    rewrite S. reflexivity. }
  rewrite CTL.
  change (String.eqb (defaultBaseURL ++ p) "*") with false.
  change (url.getScheme (defaultBaseURL ++ p))
    with (@inr url.parseError _ ("http", "//applications.opap.gr/" ++ p)).
  unfold url.bind. cbv beta iota.
  assert (Q : strings.ContainsByte ("//applications.opap.gr/" ++ p) "?"
              = false).
  { rewrite Contains_app, (plain_absent p "?" eq_refl S). reflexivity. }
  unfold strings.HasSuffixByte. rewrite (LastCut_absent _ "?" Q).
  rewrite (Cut_absent _ "?" Q). cbv beta iota zeta delta [andb].
  change (strings.ToLower "http") with "http".
  change (strings.HasPrefix ("//applications.opap.gr/" ++ p) "/") with true.
  change (strings.HasPrefix ("//applications.opap.gr/" ++ p) "//") with true.
  change (snd (strings.splitAt 2 ("//applications.opap.gr/" ++ p)))
    with ("applications.opap.gr" ++ String "/" p).
  rewrite (Cut_first "applications.opap.gr" p "/" eq_refl).
  change (url.parseAuthority "applications.opap.gr")
    with (@inr url.parseError _ (@None url.Userinfo, "applications.opap.gr")).
  simpl. rewrite setPath_plain by exact S. reflexivity.
Qed.

Lemma Parse_absolute (p : string) :
  strings.all safeByte p = true ->
  url.Parse (defaultBaseURL ++ p) = inr (opapURL (String "/" p)).
Proof.
  intros S. unfold url.Parse.
  rewrite (Cut_absent _ "#" (absolute_no_fragment p S)).
  rewrite (parse_absolute p S). reflexivity.
Qed.

Lemma buildRequest_plain (c : Client) (method p : string) body :
  BaseURL c = opapURL "/" ->
  http.validMethod method = true ->
  plainPath p = true ->
  buildRequest c method p body
  = inr (http.mkRequest method (opapURL (String "/" p))
           "applications.opap.gr" body).
Proof.
  intros B V H. destruct (plainPath_parts p H) as [S [R D]].
  unfold buildRequest. rewrite (Parse_plain p S R), B, (Resolve_plain p H).
  rewrite (String_plain p S). unfold http.NewRequest.
  rewrite (validMethod_nonempty method V), V, (Parse_absolute p S).
  reflexivity.
Qed.

(** ** Any plain base URL *)

Lemma plainBase_shape b :
  plainBase b = true ->
  exists s h bp,
    b = baseURL s h bp
    /\ (s = "http" \/ s = "https")
    /\ h <> "" /\ strings.all hostByte h = true
    /\ strings.HasPrefix bp "/" = true
    /\ strings.HasSuffixByte bp "/" = true
    /\ strings.all safeByte bp = true
    /\ forallb (fun seg => negb (url.isDot seg)) (url.segments bp) = true.
Proof.
  unfold plainBase. destruct b as [s o u h bp rp om fq rq fr rf]. simpl.
  intros H. repeat (apply andb_true_iff in H as [H ?]).
  exists s, h, bp.
  repeat match goal with
         | E : String.eqb _ _ = true |- _ => apply String.eqb_eq in E; subst
         | E : negb _ = true |- _ => apply negb_true_iff in E
         end.
  destruct u; [discriminate|]. subst.
  repeat split; auto.
  - apply orb_true_iff in H as [E|E]; apply String.eqb_eq in E; auto.
  - intros ->. discriminate.
Qed.

Lemma segments_app_slash (a b : string) :
  url.segments (a ++ String "/" b) = (url.segments a ++ url.segments b)%list.
Proof.
  induction a as [|c a IH]; simpl; [reflexivity|].
  rewrite IH. destruct (Ascii.eqb c "/"); [reflexivity|].
  destruct (url.segments a) as [|seg more] eqn:E; [|reflexivity].
  destruct (segments_nonempty a E).
Qed.

Lemma LastCut_spec (s : string) (c : byte) (a b : string) :
  strings.LastCut s c = Some (a, b) -> s = a ++ String c b.
Proof.
  revert a b. induction s as [|x s IH]; simpl; [discriminate|].
  intros a b. destruct (strings.LastCut s c) as [[a' b']|].
  - intros H. injection H as <- <-. rewrite (IH a' b' eq_refl). reflexivity.
  - destruct (Ascii.eqb_spec x c) as [->|]; [|discriminate].
    intros H. injection H as <- <-. reflexivity.
Qed.

Lemma HasSuffixByte_spec (s : string) (c : byte) :
  strings.HasSuffixByte s c = true ->
  exists x, s = x ++ String c "" /\ strings.LastCut s c = Some (x, "").
Proof.
  unfold strings.HasSuffixByte.
  destruct (strings.LastCut s c) as [[a [|? ?]]|] eqn:E; try discriminate.
  intros _. exists a. split; [apply (LastCut_spec s c a "" E) | reflexivity].
Qed.

Lemma forallb_app_l {A} (P : A -> bool) (l l' : list A) :
  forallb P (l ++ l') = true -> forallb P l = true.
Proof. rewrite forallb_app. intros H. apply andb_true_iff in H. tauto. Qed.

Lemma resolvePath_general (bp p : string) :
  strings.HasPrefix bp "/" = true ->
  strings.HasSuffixByte bp "/" = true ->
  forallb (fun seg => negb (url.isDot seg)) (url.segments bp) = true ->
  strings.HasPrefix p "/" = false ->
  forallb (fun seg => negb (url.isDot seg)) (url.segments p) = true ->
  url.resolvePath bp p = bp ++ p.
Proof.
  intros P S Db R Dp.
  destruct (HasSuffixByte_spec bp "/" S) as [x [Ex L]].
  unfold url.resolvePath.
  assert (F : match p with
              | EmptyString => bp
              | String c _ =>
                  if Ascii.eqb c "/" then p
                  else match strings.LastCut bp "/" with
                       | Some (before, _) => before ++ "/" ++ p
                       | None => p
                       end
              end = bp ++ p).
  { destruct p as [|c p]; [symmetry; apply append_nil_r|].
    simpl in R. destruct (Ascii.eqb c "/"); [discriminate R|].
    rewrite L, Ex, append_assoc. reflexivity. }
  rewrite F.
  destruct bp as [|b0 bp']; [discriminate P|].
  simpl in P. destruct (Ascii.eqb_spec b0 "/") as [->|]; [|discriminate P].
  clear P.
  assert (D : forallb (fun seg => negb (url.isDot seg))
                (url.segments (bp' ++ p)) = true).
  { destruct x as [|x0 x'].
    - simpl in Ex. injection Ex as E2. subst bp'. exact Dp.
    - simpl in Ex. injection Ex as E1 E2. subst x0 bp'.
      rewrite append_assoc.
      change (x' ++ "/" ++ p) with (x' ++ String "/" p).
      rewrite segments_app_slash, forallb_app, Dp, andb_true_r.
      change (String "/" (x' ++ "/")) with ("" ++ String "/" (x' ++ "/")) in Db.
      rewrite segments_app_slash, forallb_app in Db.
      apply andb_true_iff in Db as [_ Db].
      change (x' ++ "/") with (x' ++ String "/" "") in Db.
      rewrite segments_app_slash in Db. apply forallb_app_l in Db.
      exact Db. }
  change (String "/" bp' ++ p) with (String "/" (bp' ++ p)).
  cbn [url.segments]. rewrite Ascii.eqb_refl.
  pose proof (segments_nonempty (bp' ++ p)) as NE.
  assert (Lst : url.isDot (last (EmptyString :: url.segments (bp' ++ p)) "")
                = false).
  { apply negb_true_iff.
    apply (forallb_last (fun seg => negb (url.isDot seg))); [discriminate|].
    simpl. exact D. }
  rewrite Lst.
  destruct (url.segments (bp' ++ p)) as [|seg more] eqn:E;
    [destruct (NE eq_refl)|].
  cbn [fold_left]. cbn [forallb] in D.
  apply andb_true_iff in D as [Ds Dm]. apply negb_true_iff in Ds.
  change (url.resolveStep ("", true) "") with ("", false).
  rewrite (resolveStep_plain "" seg Ds).
  pose proof (resolve_fold (bp' ++ p) "/") as RF. rewrite E in RF.
  cbn [tl hd] in RF. change (("" ++ "/") ++ seg) with ("/" ++ seg).
  rewrite (RF Dm). reflexivity.
Qed.

Lemma hostByte_facts (c : byte) :
  hostByte c = true ->
  safeByte c = true
  /\ Ascii.eqb c "/" = false
  /\ hostByte "@" = false /\ hostByte "[" = false /\ hostByte ":" = false
  /\ url.shouldEscape c url.encodeHost = false.
Proof.
  destruct c as [[] [] [] [] [] [] [] []]; intros H; vm_compute in H;
    try discriminate H; vm_compute; repeat split.
Qed.

Lemma unescape_host_step (c : byte) (s : string) :
  hostByte c = true ->
  url.unescape (String c s) url.encodeHost
  = match url.unescape s url.encodeHost with
    | inl e => inl e
    | inr t => inr (String c t)
    end.
Proof.
  destruct c as [[] [] [] [] [] [] [] []]; intros H; vm_compute in H;
    try discriminate H; reflexivity.
Qed.

Lemma unescape_host (h : string) :
  strings.all hostByte h = true -> url.unescape h url.encodeHost = inr h.
Proof.
  induction h as [|c h IH]; [reflexivity|]. simpl strings.all.
  intros H. apply andb_true_iff in H as [Hc Hh].
  rewrite (unescape_host_step c h Hc), (IH Hh). reflexivity.
Qed.

Lemma escape_host (h : string) :
  strings.all hostByte h = true -> url.escape h url.encodeHost = h.
Proof.
  induction h as [|c h IH]; [reflexivity|]. simpl.
  intros H. apply andb_true_iff in H as [Hc Hh].
  destruct (hostByte_facts c Hc) as [_ [_ [_ [_ [_ E]]]]].
  rewrite E, andb_false_r, (IH Hh). reflexivity.
Qed.

Lemma host_safe (h : string) :
  strings.all hostByte h = true -> strings.all safeByte h = true.
Proof.
  apply all_impl. intros c Hc. apply (hostByte_facts c Hc).
Qed.

Lemma parseAuthority_host (h : string) :
  strings.all hostByte h = true ->
  url.parseAuthority h = inr (None, h).
Proof.
  intros H. unfold url.parseAuthority.
  rewrite (LastCut_absent h "@" (all_absent hostByte h "@" eq_refl H)).
  unfold url.parseHost.
  assert (B : strings.HasPrefix h "[" = false).
  { destruct h as [|c h]; [reflexivity|]. simpl in *.
    apply andb_true_iff in H as [Hc _].
    destruct (Ascii.eqb_spec c "[") as [->|]; [discriminate Hc|reflexivity]. }
  rewrite B, (LastCut_absent h ":" (all_absent hostByte h ":" eq_refl H)).
  rewrite (unescape_host h H). reflexivity.
Qed.

Lemma Resolve_general (s h bp p : string) :
  strings.HasPrefix bp "/" = true ->
  strings.HasSuffixByte bp "/" = true ->
  strings.all safeByte bp = true ->
  forallb (fun seg => negb (url.isDot seg)) (url.segments bp) = true ->
  plainPath p = true ->
  url.ResolveReference (baseURL s h bp) (relURL p) = baseURL s h (bp ++ p).
Proof.
  intros P Sf Sb Db H. destruct (plainPath_parts p H) as [S [R D]].
  unfold url.ResolveReference.
  rewrite (EscapedPath_plain (relURL p) eq_refl S).
  rewrite (EscapedPath_plain (baseURL s h bp) eq_refl Sb).
  cbn [url.Scheme url.Opaque url.User url.Host url.Path url.RawPath
       url.OmitHost url.ForceQuery url.RawQuery url.Fragment url.RawFragment
       relURL baseURL].
  rewrite (resolvePath_general bp p P Sf Db R D).
  assert (S' : strings.all safeByte (bp ++ p) = true)
    by (rewrite all_app, Sb, S; reflexivity).
  simpl. rewrite andb_false_r.
  destruct (String.eqb p ""); simpl; rewrite setPath_plain by exact S';
    reflexivity.
Qed.

Lemma String_general (s h q : string) :
  s = "http" \/ s = "https" ->
  h <> "" ->
  strings.all hostByte h = true ->
  strings.HasPrefix q "/" = true ->
  strings.all safeByte q = true ->
  url.String_ (baseURL s h q) = s ++ "://" ++ h ++ q.
Proof.
  intros Hs Hh Ha P S. unfold url.String_.
  rewrite (EscapedPath_plain (baseURL s h q) eq_refl S).
  cbn [url.Scheme url.Opaque url.User url.Host url.Path url.RawPath
       url.OmitHost url.ForceQuery url.RawQuery url.Fragment url.RawFragment
       baseURL].
  rewrite (escape_host h Ha), P.
  destruct h as [|c h]; [congruence|].
  destruct q as [|q0 q]; [discriminate P|].
  destruct Hs as [-> | ->]; simpl; reflexivity.
Qed.

Lemma parse_general (s h q : string) :
  s = "http" \/ s = "https" ->
  h <> "" ->
  strings.all hostByte h = true ->
  strings.HasPrefix q "/" = true ->
  strings.all safeByte q = true ->
  url.Parse (s ++ "://" ++ h ++ q) = inr (baseURL s h q).
Proof.
  intros Hs Hh Ha P S.
  pose proof (host_safe h Ha) as Sh.
  assert (Sall : strings.all safeByte (h ++ q) = true)
    by (rewrite all_app, Sh, S; reflexivity).
  destruct q as [|q0 q]; [discriminate P|]. simpl in P.
  destruct (Ascii.eqb_spec q0 "/") as [->|]; [|discriminate P]. clear P.
  assert (Frag : forall pre, strings.ContainsByte pre "#" = false ->
            strings.ContainsByte (pre ++ h ++ String "/" q) "#" = false).
  { intros pre Hp. rewrite Contains_app, Hp.
    apply (plain_absent (h ++ String "/" q) "#" eq_refl Sall). }
  assert (Qm : strings.ContainsByte ("//" ++ h ++ String "/" q) "?" = false).
  { rewrite Contains_app.
    rewrite (plain_absent (h ++ String "/" q) "?" eq_refl Sall). reflexivity. }
  assert (CTL : forall pre, url.stringContainsCTLByte pre = false ->
            url.stringContainsCTLByte (pre ++ h ++ String "/" q) = false).
  { intros pre Hp. unfold url.stringContainsCTLByte in *.
    rewrite all_app. apply negb_false_iff in Hp. rewrite Hp.
    pose proof (noCTL_plain _ Sall) as N.
    unfold url.stringContainsCTLByte in N. exact N. }
  assert (Hslash : strings.ContainsByte h "/" = false).
  { apply (all_absent hostByte h "/" eq_refl Ha). }
  unfold url.Parse.
  destruct Hs as [-> | ->].
  - change ("http" ++ "://" ++ h ++ String "/" q)
      with ("http://" ++ h ++ String "/" q).
    rewrite (Cut_absent _ "#" (Frag "http://" eq_refl)).
    unfold url.parse. rewrite (CTL "http://" eq_refl).
    change (String.eqb ("http://" ++ h ++ String "/" q) "*") with false.
    change (url.getScheme ("http://" ++ h ++ String "/" q))
      with (@inr url.parseError _ ("http", "//" ++ h ++ String "/" q)).
    unfold url.bind. cbv beta iota.
    unfold strings.HasSuffixByte. rewrite (LastCut_absent _ "?" Qm).
    rewrite (Cut_absent _ "?" Qm). cbv beta iota zeta delta [andb].
    change (strings.ToLower "http") with "http".
    change (strings.HasPrefix ("//" ++ h ++ String "/" q) "/") with true.
    change (strings.HasPrefix ("//" ++ h ++ String "/" q) "//") with true.
    change (snd (strings.splitAt 2 ("//" ++ h ++ String "/" q)))
      with (h ++ String "/" q).
    rewrite (Cut_first h q "/" Hslash), (parseAuthority_host h Ha).
    simpl. rewrite setPath_plain by exact S. reflexivity.
  - change ("https" ++ "://" ++ h ++ String "/" q)
      with ("https://" ++ h ++ String "/" q).
    rewrite (Cut_absent _ "#" (Frag "https://" eq_refl)).
    unfold url.parse. rewrite (CTL "https://" eq_refl).
    change (String.eqb ("https://" ++ h ++ String "/" q) "*") with false.
    change (url.getScheme ("https://" ++ h ++ String "/" q))
      with (@inr url.parseError _ ("https", "//" ++ h ++ String "/" q)).
    unfold url.bind. cbv beta iota.
    unfold strings.HasSuffixByte. rewrite (LastCut_absent _ "?" Qm).
    rewrite (Cut_absent _ "?" Qm). cbv beta iota zeta delta [andb].
    change (strings.ToLower "https") with "https".
    change (strings.HasPrefix ("//" ++ h ++ String "/" q) "/") with true.
    change (strings.HasPrefix ("//" ++ h ++ String "/" q) "//") with true.
    change (snd (strings.splitAt 2 ("//" ++ h ++ String "/" q)))
      with (h ++ String "/" q).
    rewrite (Cut_first h q "/" Hslash), (parseAuthority_host h Ha).
    simpl. rewrite setPath_plain by exact S. reflexivity.
Qed.

Lemma removeEmptyPort_host (h : string) :
  strings.all hostByte h = true -> http.removeEmptyPort h = h.
Proof.
  intros Ha. unfold http.removeEmptyPort, http.hasPort.
  rewrite (LastCut_absent h ":" (all_absent hostByte h ":" eq_refl Ha)).
  reflexivity.
Qed.

Lemma buildRequest_general (c : Client) (method p : string) body :
  plainBase (BaseURL c) = true ->
  http.validMethod method = true ->
  plainPath p = true ->
  exists req,
    buildRequest c method p body = inr req
    /\ http.Method req = method
    /\ http.ReqBody req = body
    /\ url.String_ (http.URL req) = url.String_ (BaseURL c) ++ p.
Proof.
  intros B V H. destruct (plainPath_parts p H) as [S [R D]].
  destruct (plainBase_shape _ B) as (s & h & bp & EB & Hs & Hh & Ha & P & E & Sb & Db).
  assert (Sq : strings.all safeByte (bp ++ p) = true)
    by (rewrite all_app, Sb, S; reflexivity).
  assert (Pq : strings.HasPrefix (bp ++ p) "/" = true)
    by (destruct bp; [discriminate P | exact P]).
  unfold buildRequest.
  rewrite (Parse_plain p S R), EB.
  rewrite (Resolve_general s h bp p P E Sb Db H).
  rewrite (String_general s h (bp ++ p) Hs Hh Ha Pq Sq).
  unfold http.NewRequest.
  rewrite (validMethod_nonempty method V), V.
  rewrite (parse_general s h (bp ++ p) Hs Hh Ha Pq Sq).
  eexists. split; [reflexivity|]. cbn [http.Method http.URL http.ReqBody].
  split; [reflexivity|]. split; [reflexivity|].
  cbn [url.Scheme url.Opaque url.User url.Host url.Path url.RawPath
       url.OmitHost url.ForceQuery url.RawQuery url.Fragment url.RawFragment
       baseURL].
  rewrite (removeEmptyPort_host h Ha).
  change (url.mkURL s "" None h (bp ++ p) "" false false "" "" "")
    with (baseURL s h (bp ++ p)).
  rewrite (String_general s h (bp ++ p) Hs Hh Ha Pq Sq).
  rewrite (String_general s h bp Hs Hh Ha P Sb).
  rewrite !append_assoc. reflexivity.
Qed.

(** ** Kept base URLs and kept references *)










































Lemma fragment_absent (f : string) :
  url.validEncoding f url.encodeFragment = true ->
  strings.ContainsByte f "#" = false.
Proof.
  unfold url.validEncoding. apply all_absent. reflexivity.
Qed.























(** The plain paths are kept paths, and the plain base URLs are absolute
    base URLs. *)
Lemma plainPath_kept (p : string) : plainPath p = true -> keptPath p = true.
Proof.
  intros H. destruct (plainPath_parts p H) as (S & R & D).
  unfold keptPath, noDots.
  rewrite (unescape_plain p S), R, D.
  rewrite (Cut_fst_absent p ":" "/" (plain_absent p ":" eq_refl S)).
  assert (V : url.validEncoding p url.encodePath = true).
  { unfold url.validEncoding. revert S. apply all_impl. intros c Hc.
    destruct (safeByte_facts c Hc) as (_ & _ & _ & _ & _ & E).
    rewrite E. apply orb_true_r. }
  rewrite V.
  destruct (String.eqb_spec p "%2A") as [->|]; [discriminate S | reflexivity].
Qed.

Lemma plainBase_kept (b : url.URL) :
  plainBase b = true -> keptBase b = true.
Proof.
  intros H.
  destruct (plainBase_shape b H) as (s & h & bp & -> & Hs & Hh & Ha & P & E & Sb & Db).
  unfold keptBase, authorityText, noDots.
  rewrite (EscapedPath_plain (baseURL s h bp)) by (try reflexivity; exact Sb).
  cbn [baseURL url.Scheme url.Opaque url.User url.Host url.Path url.OmitHost
       url.ForceQuery url.RawQuery url.Fragment append].
  rewrite (escape_host h Ha), (parseAuthority_host h Ha),
    (removeEmptyPort_host h Ha), !String.eqb_refl.
  cbn [sameUser andb negb]. rewrite P, E, Db.
  destruct Hs as [-> | ->]; reflexivity.
Qed.

(** Where the URL is not the base URL followed by the reference: a path
    with a byte [net/url] escapes, a rooted path, a colon in the first
    segment, a dot segment, the escape of the star, an empty fragment, a
    fragment with a byte [net/url] escapes; a base URL with no slash at
    its end, with a dot segment, a query, a fragment, an empty port, an
    opaque part, a host left out, a scheme in upper case, or a host
    [Parse] rejects. *)
Lemma concatenation_limits :
  map (concatenates (parsed defaultBaseURL))
    ["a b"; "/x"; "a:b"; "1:b"; "../x"; "a/./b"; "%2A"; "a#"; "a#b c"]
  = [false; false; false; false; false; false; false; false; false]
  /\ map (fun b => concatenates b "x")
       [parsed "http://h"; parsed "http://h/a"; parsed "http://h/a/../b/";
        parsed "http://h/?q"; parsed "http://h/#f"; parsed "http://h:/";
        parsed "mailto:x/"; parsed "file:/tmp/";
        url.mkURL "HTTP" "" None "h" "/" "" false false "" "" "";
        url.mkURL "http" "" None "a b" "/" "" false false "" "" ""]
     = [false; false; false; false; false; false; false; false; false; false].
Proof. split; vm_compute; reflexivity. Qed.

(** On short texts the two classes are exact.  For every text [p] of at
    most three bytes among [a / . : % 2 A ? # *] and the space,
    [NewRequest] on [p] gives the base URL followed by [p] exactly when
    [p] is a kept text.  For every text of at most three bytes among
    [h : / . @ ? # 8 % T], alone or between [h] and a slash, that parses
    to a base URL, [NewRequest] on the path [x/y] gives the base URL
    followed by the path exactly when the base URL is a kept one. *)
Lemma kept_exactly_on_short_texts :
  forallb
    (fun p =>
       Bool.eqb (keptText p) (concatenates (parsed "http://h:80/b/") p))
    (textsUpTo ["a"; "/"; "."; ":"; "%"; "2"; "A"; "?"; "#"; " "; "*"]%char 3)
  = true
  /\ forallb exactBase
       (textsUpTo ["h"; ":"; "/"; "."; "@"; "?"; "#"; "8"; "%"; "T"]%char 3
        ++ map (fun w => "h" ++ w ++ "/")
             (textsUpTo
                ["h"; ":"; "/"; "."; "@"; "?"; "#"; "8"; "%"; "T"]%char 3))
     = true.
Proof. split; vm_compute; reflexivity. Qed.

(** * The claims *)

(** C1.  For every game [g], [Latest g] is a GET for the path
    [endpoint/g/last.json]: when the request can be built it is the one
    request sent, and its method is GET.  When the answer has a successful
    status and its body decodes into a single-draw envelope, [Latest]
    returns the [draw] field of the envelope, the response and a nil error;
    in particular a body that reads as the answer for Joker draw 1873 gives
    the draw with number 1873, results 40 13 1 24 15 8 and time
    24-12-2017T22:00:00. *)
Theorem C1_Latest :
  forall (g : Game) (st : State),
    let path := latestPath (Endpoint (Draws (self st))) g in
    Latest g st = lookup (fun d => Some (draws_Draw d)) path st
    /\ sent (snd (Latest g st))
       = match buildRequest (self st) "GET" path None with
         | inl _ => sent st
         | inr req => (sent st ++ [req])%list
         end
    /\ (forall req, buildRequest (self st) "GET" path None = inr req ->
        http.Method req = "GET")
    /\ (BaseURL (self st) = opapURL "/" ->
        plainPath path = true ->
        buildRequest (self st) "GET" path None
        = inr (opapGet (String "/" path)))
    /\ (forall resp,
        receives st path resp ->
        success resp = true ->
        (forall d : draws,
           decodeStream (io.content (http.Body resp))
             (io.failure (http.Body resp)) (pointer (new draws))
           = (pointer d, None) ->
           fst (Latest g st) = (Some (draws_Draw d), Some resp, None))
        /\ (io.content (http.Body resp) = body1873 ->
            fst (Latest g st) = (Some draw1873, Some resp, None))).
Proof.
  intros g st path.
  repeat match goal with |- _ /\ _ => split end.
  - apply Latest_lookup.
  - rewrite Latest_lookup. apply lookup_sent.
  - intros req B. apply (buildRequest_method _ _ _ _ _ B).
  - intros B P. apply (buildRequest_plain _ "GET" path None B eq_refl P).
  - intros resp Rc S. split.
    + intros d D. rewrite Latest_lookup.
      apply (lookup_success draws Draw _ (fun d => Some (draws_Draw d)) path
               st resp d); assumption.
    + intros E. rewrite Latest_lookup.
      apply (lookup_success draws Draw _ (fun d => Some (draws_Draw d)) path
               st resp (mkDraws draw1873));
        try assumption.
      rewrite E. unfold decodeStream.
    rewrite (scanStream_end body1873 _
               (Object [("draw",
                  Object [("drawTime", Str "24-12-2017T22:00:00");
                          ("drawNo", Number "1873");
                          ("results",
                           Array [Number "40"; Number "13"; Number "1";
                                  Number "24"; Number "15"; Number "8"])])]))
        by (vm_compute; reflexivity).
      vm_compute. reflexivity.
Qed.

Lemma C1_witness :
  fst (Latest Joker (mock 200 (io.mkReader [body1873] None)))
  = (Some draw1873,
     Some (http.mkResponse 200 (io.mkReader [body1873] None)
             (opapGet "/DrawsRestServices/joker/last.json")),
     None)
  /\ sent (snd (Latest Joker (mock 200 (io.mkReader [body1873] None))))
     = [opapGet "/DrawsRestServices/joker/last.json"].
Proof.
  destruct (C1_Latest Joker (mock 200 (io.mkReader [body1873] None)))
    as [_ [Hs [_ [_ H]]]].
  split; [|exact Hs].
  apply (H (http.mkResponse 200 (io.mkReader [body1873] None)
              (opapGet "/DrawsRestServices/joker/last.json"))).
  - exists (opapGet "/DrawsRestServices/joker/last.json").
    split; reflexivity.
  - reflexivity.
  - reflexivity.
Defined.

(** C2.  For every game [g] and all integers [day], [month], [year],
    [ByDate] (and [PropoByDate]) is a GET for the path
    [endpoint/g/drawDate/day-month-year.json], where each of the three
    numbers is written as its plain decimal numeral, with no zero padding
    (5 is written 5).  When the answer has a successful status and its body
    decodes into a multi-draw envelope, the result is the sequence found
    in [draws.draw] of the envelope. *)
Theorem C2_ByDate :
  forall (g : string) (day month year : Z) (st : State),
    let endpoint := Endpoint (Draws (self st)) in
    let path := datePath endpoint g day month year in
    path = endpoint ++ "/" ++ g ++ "/drawDate/" ++ strconv.Itoa day ++ "-"
           ++ strconv.Itoa month ++ "-" ++ strconv.Itoa year ++ ".json"
    /\ plainDecimal day (strconv.Itoa day)
    /\ plainDecimal month (strconv.Itoa month)
    /\ plainDecimal year (strconv.Itoa year)
    /\ strconv.Itoa 5 = "5"
    /\ ByDate g day month year st
       = lookup (fun d => drawsByDate_Draw (drawsByDate_Draws_ d)) path st
    /\ PropoByDate g day month year st
       = lookup (fun d => propoDrawsByDate_Draw (propoDrawsByDate_Draws_ d))
           path st
    /\ sent (snd (ByDate g day month year st))
       = match buildRequest (self st) "GET" path None with
         | inl _ => sent st
         | inr req => (sent st ++ [req])%list
         end
    /\ (forall req, buildRequest (self st) "GET" path None = inr req ->
        http.Method req = "GET")
    /\ (BaseURL (self st) = opapURL "/" ->
        plainPath path = true ->
        buildRequest (self st) "GET" path None
        = inr (opapGet (String "/" path)))
    /\ (forall resp,
        receives st path resp ->
        success resp = true ->
        (forall d : drawsByDate,
           decodeStream (io.content (http.Body resp))
             (io.failure (http.Body resp)) (pointer (new drawsByDate))
           = (pointer d, None) ->
           fst (ByDate g day month year st)
           = (drawsByDate_Draw (drawsByDate_Draws_ d), Some resp, None))
        /\ (forall d : propoDrawsByDate,
             decodeStream (io.content (http.Body resp))
               (io.failure (http.Body resp)) (pointer (new propoDrawsByDate))
             = (pointer d, None) ->
             fst (PropoByDate g day month year st)
             = (propoDrawsByDate_Draw (propoDrawsByDate_Draws_ d),
                Some resp, None))).
Proof.
  intros g day month year st endpoint path.
  repeat match goal with |- _ /\ _ => split end;
    try apply Itoa_plain; try reflexivity.
  - apply ByDate_lookup.
  - apply PropoByDate_lookup.
  - rewrite ByDate_lookup. apply lookup_sent.
  - intros req B. apply (buildRequest_method _ _ _ _ _ B).
  - intros B P. apply (buildRequest_plain _ "GET" path None B eq_refl P).
  - intros resp Rc S. split; intros d D.
    + rewrite ByDate_lookup.
      apply (lookup_success drawsByDate (list Draw) _
               (fun d => drawsByDate_Draw (drawsByDate_Draws_ d))
               path st resp d); assumption.
    + rewrite PropoByDate_lookup.
      apply (lookup_success propoDrawsByDate (list PropoDraw) _
               (fun d => propoDrawsByDate_Draw (propoDrawsByDate_Draws_ d))
               path st resp d); assumption.
Qed.

Lemma C2_witness :
  fst (ByDate Joker 5 12 2017 (mock 200 (io.mkReader [bodyDate1873] None)))
  = (Some [draw1873],
     Some (http.mkResponse 200 (io.mkReader [bodyDate1873] None)
             (opapGet "/DrawsRestServices/joker/drawDate/5-12-2017.json")),
     None)
  /\ sent (snd (ByDate Joker 5 12 2017
                  (mock 200 (io.mkReader [bodyDate1873] None))))
     = [opapGet "/DrawsRestServices/joker/drawDate/5-12-2017.json"].
Proof.
  destruct (C2_ByDate Joker 5 12 2017
              (mock 200 (io.mkReader [bodyDate1873] None)))
    as [_ [_ [_ [_ [_ [_ [_ [Hs [_ [_ H]]]]]]]]]].
  split; [|exact Hs].
  destruct (H (http.mkResponse 200 (io.mkReader [bodyDate1873] None)
                 (opapGet "/DrawsRestServices/joker/drawDate/5-12-2017.json")))
    as [H1 _].
  - exists (opapGet "/DrawsRestServices/joker/drawDate/5-12-2017.json").
    split; reflexivity.
  - reflexivity.
  - apply (H1 (mkDrawsByDate (mkDrawsByDate_Draws (Some [draw1873])))).
    vm_compute. reflexivity.
Defined.

(** C3, as the code has it.  When the call succeeds and the body is the
    empty object, the single-draw lookups return a zero draw (no time,
    number 0, nil results) and a nil error, and the by-date lookups return
    the nil slice and a nil error.  When the body holds an empty array of
    draws, the by-date lookups return an empty slice that is not nil, and
    a nil error. *)
Theorem C3_empty_data :
  forall (st : State) (resp : http.Response),
    success resp = true ->
    let endpoint := Endpoint (Draws (self st)) in
    (io.content (http.Body resp) = "{}" ->
     (forall g, receives st (latestPath endpoint g) resp ->
        fst (Latest g st) = (Some zeroDraw, Some resp, None)
        /\ fst (PropoLatest g st) = (Some zeroPropoDraw, Some resp, None))
     /\ (forall g n, receives st (numberPath endpoint g n) resp ->
          fst (ByNumber g n st) = (Some zeroDraw, Some resp, None)
          /\ fst (PropoByNumber g n st)
             = (Some zeroPropoDraw, Some resp, None))
     /\ (forall g d m y, receives st (datePath endpoint g d m y) resp ->
          fst (ByDate g d m y st) = (None, Some resp, None)
          /\ fst (PropoByDate g d m y st) = (None, Some resp, None)))
    /\ (io.content (http.Body resp) = bodyNoDraws ->
        forall g d m y, receives st (datePath endpoint g d m y) resp ->
          fst (ByDate g d m y st) = (Some [], Some resp, None)
          /\ fst (PropoByDate g d m y st) = (Some [], Some resp, None)).
Proof.
  intros st resp S endpoint. split.
  - intros E. repeat match goal with |- _ /\ _ => split end;
      intros; split; as_lookup; returns_zero;
      rewrite E; apply decode_empty_object; reflexivity.
  - intros E g d m y Rc. split; as_lookup.
    + returns (mkDrawsByDate (mkDrawsByDate_Draws (Some []))).
      rewrite E. vm_compute. reflexivity.
    + returns (mkPropoDrawsByDate (mkPropoDrawsByDate_Draws (Some []))).
      rewrite E. vm_compute. reflexivity.
Qed.

Lemma C3_witness :
  fst (Latest Joker (mock 200 (io.mkReader ["{}"] None)))
  = (Some zeroDraw,
     Some (http.mkResponse 200 (io.mkReader ["{}"] None)
             (opapGet "/DrawsRestServices/joker/last.json")),
     None).
Proof.
  destruct (C3_empty_data (mock 200 (io.mkReader ["{}"] None))
              (http.mkResponse 200 (io.mkReader ["{}"] None)
                 (opapGet "/DrawsRestServices/joker/last.json"))
              eq_refl) as [H _].
  destruct (H eq_refl) as [HL _].
  apply (HL Joker).
  exists (opapGet "/DrawsRestServices/joker/last.json"). split; reflexivity.
Defined.

(** C3 as stated fails for the by-date lookups: on a successful answer
    whose body is the empty object, [ByDate] returns the nil slice with a
    nil error. *)
Lemma C3_counterexample :
  success (http.mkResponse 200 (io.mkReader ["{}"] None)
             (opapGet "/DrawsRestServices/joker/drawDate/24-12-2017.json"))
  = true
  /\ fst (ByDate Joker 24 12 2017 (mock 200 (io.mkReader ["{}"] None)))
     = (None,
        Some (http.mkResponse 200 (io.mkReader ["{}"] None)
                (opapGet "/DrawsRestServices/joker/drawDate/24-12-2017.json")),
        None).
Proof. split; reflexivity. Qed.

(** C4, as the code has it.  A status in 200..299 is a success.  Any other
    status gives an error, and [Do] and each of the six lookups return it
    together with the response (the lookups with a nil result).  When the
    body was read to its end, the text of the error is the method and URL
    of the response's request, the status code and the whole body; when
    reading the body failed, the text reports that failure instead. *)
Theorem C4_status_error :
  forall (st : State) (resp : http.Response),
    (success resp = true -> checkResponse resp = None)
    /\ (success resp = false ->
        exists err,
          checkResponse resp = Some err
          /\ (io.failure (http.Body resp) = None ->
              Error err = statusText resp)
          /\ (forall e, io.failure (http.Body resp) = Some e ->
              Error err = "reading response body: " ++ Error e)
          /\ (forall T (U : Unmarshaler T) req (v : target T),
                answer st req = Responded resp ->
                fst (Do req v st) = (Some resp, Some err, v))
          /\ (forall g,
                receives st (latestPath (Endpoint (Draws (self st))) g) resp ->
                fst (Latest g st) = (None, Some resp, Some err)
                /\ fst (PropoLatest g st) = (None, Some resp, Some err))
          /\ (forall g n,
                receives st (numberPath (Endpoint (Draws (self st))) g n)
                  resp ->
                fst (ByNumber g n st) = (None, Some resp, Some err)
                /\ fst (PropoByNumber g n st) = (None, Some resp, Some err))
          /\ (forall g d m y,
                receives st (datePath (Endpoint (Draws (self st))) g d m y)
                  resp ->
                fst (ByDate g d m y st) = (None, Some resp, Some err)
                /\ fst (PropoByDate g d m y st)
                   = (None, Some resp, Some err))).
Proof.
  intros st resp. split; [apply checkResponse_success|].
  intros S. destruct (checkResponse_failure resp S) as [err C].
  exists err. split; [exact C|].
  repeat match goal with |- _ /\ _ => split end.
  - intros F. rewrite (checkResponse_status resp S F) in C.
    injection C as <-. reflexivity.
  - intros e F. rewrite (checkResponse_unread resp e S F) in C.
    injection C as <-. reflexivity.
  - intros T U req v A. rewrite (Do_status T U st req v resp err A C).
    reflexivity.
  - intros g Rc. split; [rewrite Latest_lookup | rewrite PropoLatest_lookup];
      eapply lookup_status; eassumption.
  - intros g n Rc.
    split; [rewrite ByNumber_lookup | rewrite PropoByNumber_lookup];
      eapply lookup_status; eassumption.
  - intros g d m y Rc.
    split; [rewrite ByDate_lookup | rewrite PropoByDate_lookup];
      eapply lookup_status; eassumption.
Qed.

Lemma C4_witness :
  fst (Latest Joker (mock 500 (io.mkReader ["something broke"] None)))
  = (None,
     Some (http.mkResponse 500 (io.mkReader ["something broke"] None)
             (opapGet "/DrawsRestServices/joker/last.json")),
     Some (errorString
             ("GET http://applications.opap.gr/DrawsRestServices/joker/"
              ++ "last.json: 500 something broke"))).
Proof.
  destruct (C4_status_error
              (mock 500 (io.mkReader ["something broke"] None))
              (http.mkResponse 500 (io.mkReader ["something broke"] None)
                 (opapGet "/DrawsRestServices/joker/last.json")))
    as [_ H].
  destruct (H eq_refl) as [err [C [_ [_ [_ [HL _]]]]]].
  injection C as <-.
  apply (HL Joker).
  exists (opapGet "/DrawsRestServices/joker/last.json"). split; reflexivity.
Defined.

(** C4 as stated fails where the body of a response with status 500
    cannot be read to its end: the error [Do] returns says so, and its
    text is not the one that carries the status code, the method, the URL
    and the body. *)
Lemma C4_counterexample :
  answer (mock 500 truncated) plainGet
  = Responded (http.mkResponse 500 truncated plainGet)
  /\ success (http.mkResponse 500 truncated plainGet) = false
  /\ fst (Do plainGet (@nilInterface draws) (mock 500 truncated))
     = (Some (http.mkResponse 500 truncated plainGet),
        Some (errorString "reading response body: unexpected EOF"),
        nilInterface)
  /\ "reading response body: unexpected EOF"
     <> statusText (http.mkResponse 500 truncated plainGet).
Proof. repeat split; discriminate. Qed.

(** C5.  When the transport fails and no response was obtained, [Do]
    returns a nil response and the very error of the transport; the decode
    target is left as it was. *)
Theorem C5_transport_failure :
  forall T (U : Unmarshaler T) (st : State) (req : http.Request)
         (v : target T) (err : error),
    answer st req = Failed err ->
    fst (Do req v st) = (None, Some err, v).
Proof. intros. erewrite Do_failed by eassumption. reflexivity. Qed.

Lemma C5_witness :
  answer refusing (http.mkRequest "GET" url.empty "" None)
  = Failed (errorString "dial tcp: connection refused")
  /\ fst (Do (http.mkRequest "GET" url.empty "" None)
            (pointer (new draws)) refusing)
     = (None, Some (errorString "dial tcp: connection refused"),
        pointer (new draws)).
Proof.
  split; [reflexivity|].
  apply (C5_transport_failure draws _ refusing
           (http.mkRequest "GET" url.empty "" None)).
  reflexivity.
Defined.




(** C7.  On a successful status, with a decode target that is not nil,
    when decoding the body into the target fails with a JSON error [e],
    [Do] returns the response and an error whose text is
    [JSON decoding: e (buf)], where [buf] is the text read from the body
    so far: the chunks the decoder has pulled.  With the nil target nothing
    is decoded and the error is nil whatever the body holds. *)
Theorem C7_decode_error :
  forall T (U : Unmarshaler T) (st : State) (req : http.Request)
         (resp : http.Response),
    answer st req = Responded resp ->
    success resp = true ->
    fst (Do req (@nilInterface T) st) = (Some resp, None, nilInterface)
    /\ forall (v v' : target T) (e : error) (buf : string),
         v <> nilInterface ->
         Decode (http.Body resp) v = (v', Some e, buf) ->
         fst (Do req v st)
         = (Some resp,
            Some (errorString ("JSON decoding: " ++ Error e
                               ++ " (" ++ buf ++ ")")), v')
         /\ exists n,
              buf = String.concat "" (firstn n (io.chunks (http.Body resp))).
Proof.
  intros T U st req resp A S. apply checkResponse_success in S. split.
  - rewrite (Do_nil T U st req resp A S). reflexivity.
  - intros v v' e buf Hv D. split.
    + rewrite (Do_decode T U st req v resp A S Hv), D. reflexivity.
    + destruct (Decode_buf T U (http.Body resp) v) as [n Hn].
      exists n. rewrite D in Hn. exact Hn.
Qed.

Lemma C7_witness :
  fst (Do plainGet (pointer (new draws)) (mock 200 html))
  = (Some (http.mkResponse 200 html plainGet),
     Some (errorString
             ("JSON decoding: invalid character '<' looking for beginning "
              ++ "of value (<html>something broke</html>)")),
     pointer (new draws)).
Proof.
  destruct (C7_decode_error draws _ (mock 200 html) plainGet
              (http.mkResponse 200 html plainGet) eq_refl eq_refl) as [_ H].
  exact (proj1 (H (pointer (new draws)) (pointer (new draws))
                  (SyntaxError
                     "invalid character '<' looking for beginning of value")
                  "<html>something broke</html>"
                  ltac:(discriminate) eq_refl)).
Defined.

(** C8, on the code.  The constants of the block are the nine tags kino,
    lotto, joker, proto, super3, extra5, propogoal, penalties and bowling
    in ASCII letters, and a tenth whose second letter is the Greek omicron
    (bytes 206 191): it is ten bytes long and is not the ASCII text
    powerspin, which is no constant of the block.  Every lookup puts the
    tag it is given into the path as it is; for the tenth constant the URL
    of the request shows the two bytes escaped. *)
Theorem C8_game_tags :
  games = ["kino"; "lotto"; "joker"; "proto"; "super3"; "extra5";
           "propogoal"; "penalties"; "bowling"; Pοwerspin]
  /\ Pοwerspin = String "p" (String "206" (String "191" "werspin"))
  /\ String.length Pοwerspin = 10%nat
  /\ String.eqb Pοwerspin "powerspin" = false
  /\ existsb (String.eqb "powerspin") games = false
  /\ (forall endpoint g,
        latestPath endpoint g = endpoint ++ "/" ++ g ++ "/last.json")
  /\ sent (snd (Latest Pοwerspin (mock 200 (io.mkReader ["{}"] None))))
     = [opapGet ("/DrawsRestServices/" ++ Pοwerspin ++ "/last.json")]
  /\ url.String_
       (opapURL ("/DrawsRestServices/" ++ Pοwerspin ++ "/last.json"))
     = "http://applications.opap.gr/DrawsRestServices/p%CE%BFwerspin/last.json".
Proof. repeat split. Qed.

(** C9.  No draw lookup and no request-building or execution method
    writes to the client: after [Latest], [ByNumber], [ByDate],
    [PropoLatest], [PropoByNumber], [PropoByDate], [NewRequest] or [Do],
    whatever the arguments and whatever the network does, the client's
    [http.Client], its [BaseURL] and the [Endpoint] of its draws service
    are what they were before the call. *)
Theorem C9_client_configuration_unchanged :
  forall st : State,
    (forall g, sameClient st (snd (Latest g st)))
    /\ (forall g n, sameClient st (snd (ByNumber g n st)))
    /\ (forall g d m y, sameClient st (snd (ByDate g d m y st)))
    /\ (forall g, sameClient st (snd (PropoLatest g st)))
    /\ (forall g n, sameClient st (snd (PropoByNumber g n st)))
    /\ (forall g d m y, sameClient st (snd (PropoByDate g d m y st)))
    /\ (forall method urlStr body,
          sameClient st (snd (NewRequest method urlStr body st)))
    /\ (forall T (U : Unmarshaler T) req (v : target T),
          sameClient st (snd (Do req v st))).
Proof.
  intros st.
  repeat match goal with |- _ /\ _ => split end;
    intros; apply sameClient_of_self.
  - rewrite Latest_lookup. apply lookup_self.
  - rewrite ByNumber_lookup. apply lookup_self.
  - rewrite ByDate_lookup. apply lookup_self.
  - rewrite PropoLatest_lookup. apply lookup_self.
  - rewrite PropoByNumber_lookup. apply lookup_self.
  - rewrite PropoByDate_lookup. apply lookup_self.
  - rewrite NewRequest_pure. reflexivity.
  - apply Do_self.
Qed.

(** C10, as the code has it.  The decoder stops where the scanner sees the
    end of the first JSON value: at the closing bracket of a top-level
    object or array, or at the byte after a top-level string, number or
    literal.  When that happens within the first bytes [doc] of the body
    of a successful answer, the bytes after [doc] and the way the stream
    ends play no part: [Do] stores the value of [doc] into the target and
    returns the error of storing it, nil when the value fits. *)
Theorem C10_trailing_bytes :
  forall T (U : Unmarshaler T) (st : State) (req : http.Request)
         (resp : http.Response) (x : T) (doc t : string) (v : value),
    answer st req = Responded resp ->
    success resp = true ->
    scanBytes reset doc = scanEnd v ->
    io.content (http.Body resp) = doc ++ t ->
    (forall x', store ("", []) v x = (x', None) ->
       fst (Do req (pointer x) st) = (Some resp, None, pointer x'))
    /\ (forall x' e, store ("", []) v x = (x', Some e) ->
         exists buf,
           fst (Do req (pointer x) st)
           = (Some resp, Some (errorString (decodeText e buf)), pointer x')).
Proof.
  intros T U st req resp x doc t v A S D E.
  apply checkResponse_success in S.
  rewrite (Do_decode T U st req (pointer x) resp A S) by discriminate.
  pose proof (Decode_stream T U (http.Body resp) (pointer x)) as H.
  unfold decodeStream in H.
  rewrite E, (scanStream_end (doc ++ t) _ v (scanBytes_end doc t v D)) in H.
  destruct (Decode (http.Body resp) (pointer x)) as [[v' err] buf].
  simpl in H. split.
  - intros x' St. rewrite St in H. injection H as -> ->. reflexivity.
  - intros x' e St. rewrite St in H. injection H as -> ->.
    exists buf. reflexivity.
Qed.

Lemma C10_witness :
  fst (Do plainGet (pointer (new draws))
         (mock 200 (io.mkReader ["{}garbage"] None)))
  = (Some (http.mkResponse 200 (io.mkReader ["{}garbage"] None) plainGet),
     None, pointer (new draws)).
Proof.
  destruct (C10_trailing_bytes draws _
              (mock 200 (io.mkReader ["{}garbage"] None)) plainGet
              (http.mkResponse 200 (io.mkReader ["{}garbage"] None) plainGet)
              (new draws) "{}" "garbage" (Object [])
              eq_refl eq_refl eq_refl eq_refl) as [H _].
  apply H. reflexivity.
Defined.

(** C10 as stated fails after a top-level number: the body [1] decodes
    into an [int], and the body [1.x], which is that document followed by
    two more bytes, is a decode error. *)
Lemma C10_counterexample :
  fst (Do plainGet (pointer 0) (mock 200 (io.mkReader ["1"] None)))
  = (Some (http.mkResponse 200 (io.mkReader ["1"] None) plainGet),
     None, pointer 1)
  /\ fst (Do plainGet (pointer 0) (mock 200 (io.mkReader ["1.x"] None)))
     = (Some (http.mkResponse 200 (io.mkReader ["1.x"] None) plainGet),
        Some (errorString
                ("JSON decoding: invalid character 'x' after decimal point "
                 ++ "in numeric literal (1.x)")),
        pointer 0).
Proof. split; reflexivity. Qed.

(** * Further properties *)

(** ** The paths of the lookups are plain *)

Lemma segments_single (s : string) :
  strings.ContainsByte s "/" = false -> url.segments s = [s].
Proof.
  induction s as [|c s IH]; simpl; [reflexivity|].
  destruct (Ascii.eqb c "/"); [discriminate|].
  intros H. rewrite (IH H). reflexivity.
Qed.

(** [a/b] is a plain path when [a] is one and is not empty, and [b] is
    made of plain segments. *)
Lemma plainPath_join (a b : string) :
  plainPath a = true -> a <> "" ->
  strings.all safeByte b = true ->
  forallb (fun seg => negb (url.isDot seg)) (url.segments b) = true ->
  plainPath (a ++ "/" ++ b) = true.
Proof.
  intros A N Sb Db.
  destruct (plainPath_parts a A) as [Sa [Ra Da]].
  unfold plainPath. change (a ++ "/" ++ b) with (a ++ String "/" b).
  rewrite segments_app_slash, forallb_app, Da, Db, all_app, Sa.
  change (strings.all safeByte (String "/" b)) with (strings.all safeByte b).
  rewrite Sb. destruct a as [|c a]; [congruence|].
  simpl in *. rewrite Ra. reflexivity.
Qed.

Lemma tagByte_facts (c : byte) :
  tagByte c = true ->
  safeByte c = true /\ Ascii.eqb c "/" = false /\ Ascii.eqb c "." = false.
Proof.
  destruct c as [[] [] [] [] [] [] [] []]; vm_compute; intros H;
    try discriminate H; repeat split.
Qed.

Lemma tag_segment (g x : string) :
  plainTag g = true ->
  strings.all safeByte x = true ->
  forallb (fun seg => negb (url.isDot seg)) (url.segments x) = true ->
  strings.all safeByte (g ++ "/" ++ x) = true
  /\ forallb (fun seg => negb (url.isDot seg)) (url.segments (g ++ "/" ++ x))
     = true.
Proof.
  intros T S D.
  assert (Sg : strings.all safeByte g = true).
  { eapply all_impl; [|exact T]. intros c H. apply (tagByte_facts c H). }
  change (g ++ "/" ++ x) with (g ++ String "/" x). split.
  - rewrite all_app, Sg. exact S.
  - rewrite segments_app_slash, forallb_app, D, andb_true_r.
    rewrite (segments_single g (all_absent tagByte g "/" eq_refl T)).
    simpl. rewrite andb_true_r. apply negb_true_iff.
    unfold url.isDot. destruct g as [|c g]; [reflexivity|].
    simpl in T. apply andb_true_iff in T as [Tc _].
    destruct (tagByte_facts c Tc) as [_ [_ Dc]].
    simpl. rewrite Dc. reflexivity.
Qed.

(** The bytes of a decimal numeral. *)
Lemma numeral_bytes (c : byte) :
  is_digit c || Ascii.eqb c "-" = true ->
  safeByte c = true /\ Ascii.eqb c "/" = false.
Proof.
  destruct c as [[] [] [] [] [] [] [] []]; vm_compute; intros H;
    try discriminate H; repeat split.
Qed.

Lemma plainDigits_all (s : string) :
  plainDigits s = true ->
  strings.all (fun c => is_digit c || Ascii.eqb c "-") s = true.
Proof.
  destruct s as [|c s]; [discriminate|]. simpl. intros H.
  apply andb_true_iff in H as [H1 H2].
  assert (D : is_digit c = true).
  { revert H1. clear. destruct c as [[] [] [] [] [] [] [] []]; vm_compute;
      intros H; try discriminate H; reflexivity. }
  rewrite D. simpl.
  eapply all_impl; [|exact H2]. intros a Ha. rewrite Ha. reflexivity.
Qed.

Lemma Itoa_bytes (n : Z) :
  strings.all (fun c => is_digit c || Ascii.eqb c "-") (strconv.Itoa n)
  = true.
Proof.
  destruct (Itoa_plain n) as [H _]. destruct n.
  - rewrite H. reflexivity.
  - apply plainDigits_all, H.
  - destruct H as [t [-> H]]. simpl. apply plainDigits_all, H.
Qed.

Lemma Itoa_safe (n : Z) :
  strings.all safeByte (strconv.Itoa n) = true
  /\ strings.ContainsByte (strconv.Itoa n) "/" = false.
Proof.
  split.
  - eapply all_impl; [|apply (Itoa_bytes n)].
    intros c H. apply (numeral_bytes c H).
  - apply (all_absent _ _ "/" eq_refl (Itoa_bytes n)).
Qed.

Lemma isDot_json (x : string) : url.isDot (x ++ ".json") = false.
Proof.
  unfold url.isDot. apply orb_false_iff. split; apply String.eqb_neq.
  - destruct x as [|a [|b x]]; simpl; try discriminate.
  - destruct x as [|a [|b [|c x]]]; simpl; try discriminate.
Qed.

Lemma file_segment (x : string) :
  strings.all safeByte x = true ->
  strings.ContainsByte x "/" = false ->
  strings.all safeByte (x ++ ".json") = true
  /\ forallb (fun seg => negb (url.isDot seg)) (url.segments (x ++ ".json"))
     = true.
Proof.
  intros S C. split.
  - rewrite all_app, S. reflexivity.
  - rewrite segments_single by (rewrite Contains_app, C; reflexivity).
    simpl. rewrite isDot_json. reflexivity.
Qed.

Lemma plainPath_latest (e g : string) :
  plainPath e = true -> e <> "" -> plainTag g = true ->
  plainPath (latestPath e g) = true.
Proof.
  intros E N T. unfold latestPath.
  change (g ++ "/last.json") with (g ++ "/" ++ "last.json").
  destruct (tag_segment g "last.json" T eq_refl eq_refl) as [S D].
  apply (plainPath_join e _ E N S D).
Qed.

Lemma plainPath_number (e g : string) (n : Z) :
  plainPath e = true -> e <> "" -> plainTag g = true ->
  plainPath (numberPath e g n) = true.
Proof.
  intros E N T. unfold numberPath.
  destruct (Itoa_safe n) as [Sn Cn].
  destruct (file_segment _ Sn Cn) as [Sf Df].
  destruct (tag_segment g _ T Sf Df) as [S D].
  apply (plainPath_join e _ E N S D).
Qed.

Lemma plainPath_date (e g : string) (d m y : Z) :
  plainPath e = true -> e <> "" -> plainTag g = true ->
  plainPath (datePath e g d m y) = true.
Proof.
  intros E N T. unfold datePath.
  destruct (Itoa_safe d) as [Sd Cd].
  destruct (Itoa_safe m) as [Sm Cm].
  destruct (Itoa_safe y) as [Sy Cy].
  assert (Sn : strings.all safeByte
                 (strconv.Itoa d ++ "-" ++ strconv.Itoa m ++ "-"
                  ++ strconv.Itoa y) = true).
  { rewrite !all_app, Sd, Sm, Sy. reflexivity. }
  assert (Cn : strings.ContainsByte
                 (strconv.Itoa d ++ "-" ++ strconv.Itoa m ++ "-"
                  ++ strconv.Itoa y) "/" = false).
  { rewrite !Contains_app, Cd, Cm, Cy. reflexivity. }
  destruct (file_segment _ Sn Cn) as [Sf Df].
  rewrite !append_assoc in Sf, Df.
  assert (Sx : strings.all safeByte
                 ("drawDate/" ++ strconv.Itoa d ++ "-" ++ strconv.Itoa m
                  ++ "-" ++ strconv.Itoa y ++ ".json") = true) by exact Sf.
  assert (Dx : forallb (fun seg => negb (url.isDot seg))
                 (url.segments
                    ("drawDate/" ++ strconv.Itoa d ++ "-" ++ strconv.Itoa m
                     ++ "-" ++ strconv.Itoa y ++ ".json")) = true).
  { change ("drawDate/" ++ strconv.Itoa d ++ "-" ++ strconv.Itoa m
            ++ "-" ++ strconv.Itoa y ++ ".json")
      with ("drawDate" ++ String "/" (strconv.Itoa d ++ "-" ++ strconv.Itoa m
            ++ "-" ++ strconv.Itoa y ++ ".json")).
    rewrite segments_app_slash, forallb_app, Df. reflexivity. }
  change (g ++ "/drawDate/" ++ strconv.Itoa d ++ "-" ++ strconv.Itoa m
          ++ "-" ++ strconv.Itoa y ++ ".json")
    with (g ++ "/" ++ "drawDate/" ++ strconv.Itoa d ++ "-" ++ strconv.Itoa m
          ++ "-" ++ strconv.Itoa y ++ ".json").
  destruct (tag_segment g _ T Sx Dx) as [S D].
  apply (plainPath_join e _ E N S D).
Qed.

(** ** The lookups, request by request *)

Lemma getFor_plain (c : Client) (path : string) :
  plainBase (BaseURL c) = true ->
  plainPath path = true ->
  exists req, getFor c path req.
Proof.
  intros B P.
  destruct (buildRequest_general c "GET" path None B eq_refl P)
    as (req & E & R).
  exists req. split; [exact E | exact R].
Qed.

Lemma lookup_sent_one T R (U : Unmarshaler T) (unwrap : T -> option R)
  path st req :
  buildRequest (self st) "GET" path None = inr req ->
  sent (snd (lookup unwrap path st)) = (sent st ++ [req])%list.
Proof. intros B. rewrite lookup_sent, B. reflexivity. Qed.

(** X1.  [ByNumber] and [PropoByNumber] are a GET for the path
    [endpoint/g/number.json], where the number is written as its plain
    decimal numeral (a minus sign and the digits for a negative one).
    When the request can be built it is the one request sent.  When the
    answer has a successful status and its body decodes into a
    single-draw envelope, the result is the [draw] field of the envelope,
    with the response and a nil error. *)
Theorem ByNumber_path_and_result :
  forall (g : string) (number : Z) (st : State),
    let endpoint := Endpoint (Draws (self st)) in
    let path := numberPath endpoint g number in
    path = endpoint ++ "/" ++ g ++ "/" ++ strconv.Itoa number ++ ".json"
    /\ plainDecimal number (strconv.Itoa number)
    /\ ByNumber g number st = lookup (fun d => Some (draws_Draw d)) path st
    /\ PropoByNumber g number st
       = lookup (fun d => Some (propoDraws_Draw d)) path st
    /\ (forall req, buildRequest (self st) "GET" path None = inr req ->
        http.Method req = "GET"
        /\ sent (snd (ByNumber g number st)) = (sent st ++ [req])%list
        /\ sent (snd (PropoByNumber g number st)) = (sent st ++ [req])%list)
    /\ (forall resp,
        receives st path resp ->
        success resp = true ->
        (forall d : draws,
           decodeStream (io.content (http.Body resp))
             (io.failure (http.Body resp)) (pointer (new draws))
           = (pointer d, None) ->
           fst (ByNumber g number st) = (Some (draws_Draw d), Some resp, None))
        /\ (forall d : propoDraws,
             decodeStream (io.content (http.Body resp))
               (io.failure (http.Body resp)) (pointer (new propoDraws))
             = (pointer d, None) ->
             fst (PropoByNumber g number st)
             = (Some (propoDraws_Draw d), Some resp, None))).
Proof.
  intros g number st endpoint path.
  repeat match goal with |- _ /\ _ => split end.
  - reflexivity.
  - apply Itoa_plain.
  - apply ByNumber_lookup.
  - apply PropoByNumber_lookup.
  - intros req B. split; [apply (buildRequest_method _ _ _ _ _ B)|].
    rewrite ByNumber_lookup, PropoByNumber_lookup.
    split; apply lookup_sent_one; exact B.
  - intros resp Rc S. split; intros d D; as_lookup.
    + apply (lookup_success draws Draw _ (fun d => Some (draws_Draw d)) path
               st resp d); assumption.
    + apply (lookup_success propoDraws PropoDraw _
               (fun d => Some (propoDraws_Draw d)) path st resp d);
        assumption.
Qed.

Lemma ByNumber_path_and_result_witness :
  fst (ByNumber Joker 1873 (mock 200 (io.mkReader [body1873] None)))
  = (Some draw1873,
     Some (http.mkResponse 200 (io.mkReader [body1873] None)
             (opapGet "/DrawsRestServices/joker/1873.json")),
     None)
  /\ sent (snd (ByNumber Joker 1873 (mock 200 (io.mkReader [body1873] None))))
     = [opapGet "/DrawsRestServices/joker/1873.json"].
Proof.
  destruct (ByNumber_path_and_result Joker 1873
              (mock 200 (io.mkReader [body1873] None)))
    as [_ [_ [_ [_ [Hs H]]]]].
  split.
  - refine (proj1 (H (http.mkResponse 200 (io.mkReader [body1873] None)
                        (opapGet "/DrawsRestServices/joker/1873.json"))
                     _ eq_refl) (mkDraws draw1873) _).
    + exists (opapGet "/DrawsRestServices/joker/1873.json").
      split; reflexivity.
    + reflexivity.
  - exact (proj1 (proj2 (Hs (opapGet "/DrawsRestServices/joker/1873.json")
                           eq_refl))).
Defined.

(** X2.  [PropoLatest] is a GET for the path [endpoint/g/last.json], the
    one request sent when it can be built.  When the answer has a
    successful status and its body decodes into a single-draw Propo
    envelope, the result is the [draw] field of the envelope, with the
    response and a nil error. *)
Theorem PropoLatest_path_and_result :
  forall (g : PropoGame) (st : State),
    let path := latestPath (Endpoint (Draws (self st))) g in
    path = Endpoint (Draws (self st)) ++ "/" ++ g ++ "/last.json"
    /\ PropoLatest g st = lookup (fun d => Some (propoDraws_Draw d)) path st
    /\ (forall req, buildRequest (self st) "GET" path None = inr req ->
        http.Method req = "GET"
        /\ sent (snd (PropoLatest g st)) = (sent st ++ [req])%list)
    /\ (forall resp (d : propoDraws),
        receives st path resp ->
        success resp = true ->
        decodeStream (io.content (http.Body resp))
          (io.failure (http.Body resp)) (pointer (new propoDraws))
        = (pointer d, None) ->
        fst (PropoLatest g st) = (Some (propoDraws_Draw d), Some resp, None)).
Proof.
  intros g st path.
  repeat match goal with |- _ /\ _ => split end.
  - reflexivity.
  - apply PropoLatest_lookup.
  - intros req B. split; [apply (buildRequest_method _ _ _ _ _ B)|].
    rewrite PropoLatest_lookup. apply lookup_sent_one. exact B.
  - intros resp d Rc S D. rewrite PropoLatest_lookup.
    apply (lookup_success propoDraws PropoDraw _
             (fun d => Some (propoDraws_Draw d)) path st resp d); assumption.
Qed.

Lemma PropoLatest_path_and_result_witness :
  fst (PropoLatest PropoSat (mock 200 (io.mkReader [bodyPropo] None)))
  = (Some propoDraw201751,
     Some (http.mkResponse 200 (io.mkReader [bodyPropo] None)
             (opapGet "/DrawsRestServices/proposat/last.json")),
     None).
Proof.
  destruct (PropoLatest_path_and_result PropoSat
              (mock 200 (io.mkReader [bodyPropo] None)))
    as [_ [_ [_ H]]].
  apply (H (http.mkResponse 200 (io.mkReader [bodyPropo] None)
              (opapGet "/DrawsRestServices/proposat/last.json"))
           (mkPropoDraws propoDraw201751)).
  - exists (opapGet "/DrawsRestServices/proposat/last.json").
    split; reflexivity.
  - reflexivity.
  - reflexivity.
Defined.

(** X3.  For a client with a plain base URL and a plain endpoint that is
    not empty, and a game tag of ASCII letters and digits, every lookup
    sends exactly one request: a GET with no body whose URL is the base
    URL followed by the path of the lookup, whatever the number or the
    date. *)
Theorem lookups_request_url :
  forall (st : State) (g : string),
    plainBase (BaseURL (self st)) = true ->
    plainPath (Endpoint (Draws (self st))) = true ->
    Endpoint (Draws (self st)) <> "" ->
    plainTag g = true ->
    let e := Endpoint (Draws (self st)) in
    (exists req,
       getFor (self st) (e ++ "/" ++ g ++ "/last.json") req
       /\ sent (snd (Latest g st)) = (sent st ++ [req])%list
       /\ sent (snd (PropoLatest g st)) = (sent st ++ [req])%list)
    /\ (forall n, exists req,
          getFor (self st)
            (e ++ "/" ++ g ++ "/" ++ strconv.Itoa n ++ ".json") req
          /\ sent (snd (ByNumber g n st)) = (sent st ++ [req])%list
          /\ sent (snd (PropoByNumber g n st)) = (sent st ++ [req])%list)
    /\ (forall d m y, exists req,
          getFor (self st)
            (e ++ "/" ++ g ++ "/drawDate/" ++ strconv.Itoa d ++ "-"
             ++ strconv.Itoa m ++ "-" ++ strconv.Itoa y ++ ".json") req
          /\ sent (snd (ByDate g d m y st)) = (sent st ++ [req])%list
          /\ sent (snd (PropoByDate g d m y st)) = (sent st ++ [req])%list).
Proof.
  intros st g B E N T e.
  repeat match goal with |- _ /\ _ => split end.
  - destruct (getFor_plain (self st) _ B (plainPath_latest e g E N T))
      as [req G].
    exists req. split; [exact G|].
    rewrite Latest_lookup, PropoLatest_lookup.
    split; apply lookup_sent_one; apply G.
  - intros n.
    destruct (getFor_plain (self st) _ B (plainPath_number e g n E N T))
      as [req G].
    exists req. split; [exact G|].
    rewrite ByNumber_lookup, PropoByNumber_lookup.
    split; apply lookup_sent_one; apply G.
  - intros d m y.
    destruct (getFor_plain (self st) _ B (plainPath_date e g d m y E N T))
      as [req G].
    exists req. split; [exact G|].
    rewrite ByDate_lookup, PropoByDate_lookup.
    split; apply lookup_sent_one; apply G.
Qed.

Lemma lookups_request_url_witness :
  exists req,
    getFor (NewClient None) "DrawsRestServices/kino/drawDate/27-12-2017.json"
      req
    /\ sent (snd (ByDate Kino 27 12 2017 refusing)) = [req]
    /\ sent (snd (PropoByDate Kino 27 12 2017 refusing)) = [req].
Proof.
  refine (proj2 (proj2 (lookups_request_url refusing Kino eq_refl eq_refl
                          _ eq_refl)) 27 12 2017).
  discriminate.
Defined.

(** ** What [Do] returns, sends and closes *)

Lemma Do_outcome T (U : Unmarshaler T) req (v : target T) st :
  match answer st req with
  | Failed err => Do req v st = ((None, Some err, v), afterSend st req)
  | Responded resp =>
      exists e v', Do req v st = ((Some resp, e, v'), afterClose st req)
  end.
Proof.
  destruct (answer st req) as [resp|err] eqn:A.
  - destruct (checkResponse resp) as [e|] eqn:C.
    + erewrite Do_status by eassumption. eauto.
    + destruct v.
      * erewrite Do_nil by eassumption. eauto.
      * erewrite Do_decode by (eassumption || discriminate).
        destruct (Decode _ _) as [[v' e] buf]. eauto.
      * erewrite Do_decode by (eassumption || discriminate).
        destruct (Decode _ _) as [[v' e] buf]. eauto.
  - erewrite Do_failed by eassumption. reflexivity.
Qed.

Lemma Do_closed_response T (U : Unmarshaler T) req (v : target T) st :
  closed (snd (Do req v st))
  = (closed st + responded (fst (fst (fst (Do req v st)))))%nat.
Proof.
  pose proof (Do_outcome T U req v st) as H.
  destruct (answer st req) as [resp|err].
  - destruct H as (e & v' & ->). simpl. lia.
  - rewrite H. simpl. lia.
Qed.

Lemma lookup_closed T R (U : Unmarshaler T) (unwrap : T -> option R)
  path st :
  closed (snd (lookup unwrap path st))
  = (closed st + responded (response (fst (lookup unwrap path st))))%nat.
Proof.
  unfold lookup, response. rewrite get_spec.
  destruct (buildRequest _ _ _ _) as [e|req]; [simpl; lia|].
  pose proof (Do_closed_response T U req (pointer (new T)) st) as H.
  destruct (Do _ _ st) as [[[resp err] d] st']. simpl in *.
  rewrite H. destruct err; reflexivity.
Qed.

Lemma lookup_failed T R (U : Unmarshaler T) (unwrap : T -> option R)
  path st err :
  fails st path err ->
  fst (lookup unwrap path st) = (None, None, Some err).
Proof.
  intros (req & B & A). unfold lookup. rewrite get_spec, B.
  rewrite (Do_failed T U st req _ err A). reflexivity.
Qed.

(** X4.  When the transport fails on the request of a lookup and no
    response was obtained, each of the six lookups returns a nil result,
    a nil response and the very error of the transport. *)
Theorem lookups_transport_failure :
  forall (st : State) (err : error),
    let e := Endpoint (Draws (self st)) in
    (forall g, fails st (latestPath e g) err ->
       fst (Latest g st) = (None, None, Some err)
       /\ fst (PropoLatest g st) = (None, None, Some err))
    /\ (forall g n, fails st (numberPath e g n) err ->
          fst (ByNumber g n st) = (None, None, Some err)
          /\ fst (PropoByNumber g n st) = (None, None, Some err))
    /\ (forall g d m y, fails st (datePath e g d m y) err ->
          fst (ByDate g d m y st) = (None, None, Some err)
          /\ fst (PropoByDate g d m y st) = (None, None, Some err)).
Proof.
  intros st err e.
  repeat match goal with |- _ /\ _ => split end; intros;
    split; as_lookup; apply lookup_failed; assumption.
Qed.

Lemma lookups_transport_failure_witness :
  fst (ByDate Kino 27 12 2017 refusing)
  = (None, None, Some (errorString "dial tcp: connection refused"))
  /\ fst (PropoByDate PropoSun 17 12 2017 refusing)
     = (None, None, Some (errorString "dial tcp: connection refused")).
Proof.
  destruct (lookups_transport_failure refusing
              (errorString "dial tcp: connection refused")) as [_ [_ H]].
  split.
  - refine (proj1 (H Kino 27 12 2017 _)).
    exists (opapGet "/DrawsRestServices/kino/drawDate/27-12-2017.json").
    split; reflexivity.
  - refine (proj2 (H PropoSun 17 12 2017 _)).
    exists (opapGet "/DrawsRestServices/proposun/drawDate/17-12-2017.json").
    split; reflexivity.
Defined.

(** X5.  [Do] hands the request to the transport once, and closes the
    body of the response exactly when it returns a response: once on
    every path that has one, also when the status or the decoding gives an
    error, and never when the transport failed.  The same holds for each
    of the six lookups. *)
Theorem response_body_closed_once :
  forall st : State,
    (forall T (U : Unmarshaler T) req (v : target T),
       sent (snd (Do req v st)) = (sent st ++ [req])%list
       /\ closed (snd (Do req v st))
          = (closed st + responded (fst (fst (fst (Do req v st)))))%nat)
    /\ (forall g,
          closed (snd (Latest g st))
          = (closed st + responded (response (fst (Latest g st))))%nat
          /\ closed (snd (PropoLatest g st))
             = (closed st + responded (response (fst (PropoLatest g st))))%nat)
    /\ (forall g n,
          closed (snd (ByNumber g n st))
          = (closed st + responded (response (fst (ByNumber g n st))))%nat
          /\ closed (snd (PropoByNumber g n st))
             = (closed st
                + responded (response (fst (PropoByNumber g n st))))%nat)
    /\ (forall g d m y,
          closed (snd (ByDate g d m y st))
          = (closed st + responded (response (fst (ByDate g d m y st))))%nat
          /\ closed (snd (PropoByDate g d m y st))
             = (closed st
                + responded (response (fst (PropoByDate g d m y st))))%nat).
Proof.
  intros st.
  repeat match goal with |- _ /\ _ => split end; intros;
    try (split; as_lookup; apply lookup_closed).
  split; [apply Do_sent | apply Do_closed_response].
Qed.

(** ** Results and errors of the lookups *)

Lemma lookup_shape T R (U : Unmarshaler T) (unwrap : T -> option R)
  path st :
  (exists err, fst (lookup unwrap path st) = (None, None, Some err))
  \/ (exists resp err, fst (lookup unwrap path st) = (None, Some resp, Some err))
  \/ (exists resp x, fst (lookup unwrap path st) = (unwrap x, Some resp, None)).
Proof.
  unfold lookup. rewrite get_spec.
  destruct (buildRequest _ _ _ _) as [e|req]; [left; eexists; reflexivity|].
  pose proof (Do_outcome T U req (pointer (new T)) st) as H.
  destruct (answer st req) as [resp|err].
  - destruct H as (e & v' & ->). right. destruct e as [e|].
    + left. eexists. eexists. reflexivity.
    + right. eexists. eexists. reflexivity.
  - rewrite H. left. eexists. reflexivity.
Qed.

Lemma lookup_drawOrError T R (U : Unmarshaler T) (f : T -> R) path st :
  drawOrError (fst (lookup (fun d => Some (f d)) path st)).
Proof.
  destruct (lookup_shape T R U (fun d => Some (f d)) path st)
    as [(err & ->) | [(resp & err & ->) | (resp & x & ->)]];
    unfold drawOrError; repeat split; intros; congruence.
Qed.

Lemma lookup_sliceOrError T R (U : Unmarshaler T) (unwrap : T -> option R)
  path st :
  sliceOrError (fst (lookup unwrap path st)).
Proof.
  destruct (lookup_shape T R U unwrap path st)
    as [(err & ->) | [(resp & err & ->) | (resp & x & ->)]];
    unfold sliceOrError; repeat split; intros; congruence.
Qed.


(** X6.  Whatever the state and the network, a lookup that returns one
    draw returns a draw exactly when it returns a nil error, and a lookup
    by date returns the nil slice whenever it returns an error; a nil
    error always comes with the response. *)
Theorem lookups_result_or_error :
  forall st : State,
    (forall g, drawOrError (fst (Latest g st))
               /\ drawOrError (fst (PropoLatest g st)))
    /\ (forall g n, drawOrError (fst (ByNumber g n st))
                    /\ drawOrError (fst (PropoByNumber g n st)))
    /\ (forall g d m y, sliceOrError (fst (ByDate g d m y st))
                        /\ sliceOrError (fst (PropoByDate g d m y st))).
Proof.
  intros st.
  repeat match goal with |- _ /\ _ => split end; intros; split; as_lookup;
    first [apply lookup_drawOrError | apply lookup_sliceOrError].
Qed.



(** ** Bodies without a value, and white space *)

Lemma readValue_whole sc chunks failure buf sc' :
  scanBytes sc (String.concat "" chunks) = scanContinue sc' ->
  snd (readValue sc chunks failure buf) = buf ++ String.concat "" chunks.
Proof.
  revert sc buf. induction chunks as [|c rest IH]; intros sc buf H.
  - simpl. rewrite append_nil_r.
    destruct failure; [reflexivity|]. destruct (stepByte sc " "); reflexivity.
  - rewrite concat_cons in H |- *. rewrite scanBytes_app in H.
    cbn [readValue].
    destruct (scanBytes sc c) as [sc1| |]; try discriminate H.
    rewrite (IH sc1 (buf ++ c) H), append_assoc. reflexivity.
Qed.

Lemma scan_blank (s : string) :
  strings.all isSpace s = true -> scanBytes reset s = scanContinue reset.
Proof.
  induction s as [|c s IH]; simpl; [reflexivity|]. intros H.
  apply andb_true_iff in H as [Hc Hs].
  unfold stepByte, stateBeginValue. simpl. rewrite Hc. exact (IH Hs).
Qed.

Lemma scan_skips_blank (ws doc : string) :
  strings.all isSpace ws = true ->
  scanBytes reset (ws ++ doc) = scanBytes reset doc.
Proof. intros H. rewrite scanBytes_app, (scan_blank ws H). reflexivity. Qed.

Lemma scanStream_skips_blank (ws doc : string) failure :
  strings.all isSpace ws = true ->
  scanStream (ws ++ doc) failure = scanStream doc failure.
Proof.
  intros H. unfold scanStream, nonSpace.
  rewrite (scan_skips_blank ws doc H), all_app, H. reflexivity.
Qed.

Lemma Decode_nilPointer T (U : Unmarshaler T) (r : io.Reader) :
  exists e,
    fst (Decode r (@nilPointer T)) = (nilPointer, Some e)
    /\ forall val, scanStream (io.content r) (io.failure r) = inr val ->
         e = InvalidUnmarshalError ("*" ++ typeName (T := T)).
Proof.
  rewrite Decode_stream. unfold decodeStream.
  destruct (scanStream _ _) as [e|val].
  - exists e. split; [reflexivity|]. discriminate.
  - eexists. split; [reflexivity|]. reflexivity.
Qed.

(** X8.  A nil pointer of a struct type handed to [Do] as the decode
    target is not the nil interface: on a successful status [Do] still
    reads a value from the body, and it always returns an error.  When
    the body holds a JSON value the error says that the target is a nil
    pointer of that type. *)
Theorem Do_typed_nil_pointer :
  forall T (U : Unmarshaler T) (st : State) (req : http.Request)
         (resp : http.Response),
    answer st req = Responded resp ->
    success resp = true ->
    exists e n,
      fst (Do req (@nilPointer T) st)
      = (Some resp,
         Some (errorString
                 (decodeText e
                    (String.concat ""
                       (firstn n (io.chunks (http.Body resp)))))),
         nilPointer)
      /\ forall val,
           scanStream (io.content (http.Body resp))
             (io.failure (http.Body resp)) = inr val ->
           e = InvalidUnmarshalError ("*" ++ typeName (T := T))
           /\ Error e = "json: Unmarshal(nil *" ++ typeName (T := T) ++ ")".
Proof.
  intros T U st req resp A S. apply checkResponse_success in S.
  destruct (Decode_nilPointer T U (http.Body resp)) as (e & D & V).
  destruct (Decode_buf T U (http.Body resp) nilPointer) as [n Hn].
  exists e, n. split.
  - rewrite (Do_decode T U st req _ resp A S) by discriminate.
    destruct (Decode _ _) as [[v' e'] buf]. simpl in D, Hn.
    injection D as -> ->. rewrite Hn. reflexivity.
  - intros val H. rewrite (V val H). split; reflexivity.
Qed.

Lemma Do_typed_nil_pointer_witness :
  exists e n,
    fst (Do plainGet (@nilPointer draws) (mock 200 (io.mkReader ["{}"] None)))
    = (Some (http.mkResponse 200 (io.mkReader ["{}"] None) plainGet),
       Some (errorString
               (decodeText e (String.concat "" (firstn n ["{}"])))),
       nilPointer)
    /\ forall val,
         scanStream "{}" None = inr val ->
         e = InvalidUnmarshalError "*opap.draws"
         /\ Error e = "json: Unmarshal(nil *opap.draws)".
Proof.
  exact (Do_typed_nil_pointer draws _ (mock 200 (io.mkReader ["{}"] None))
           plainGet (http.mkResponse 200 (io.mkReader ["{}"] None) plainGet)
           eq_refl eq_refl).
Defined.

(** X9.  On a successful status, when the body is empty or holds only
    JSON white space (space, tab, carriage return, line feed) and ends
    cleanly, [Do] with a decode target returns the response and the error
    [JSON decoding: EOF] followed by the whole body in brackets; the
    target is left as it was. *)
Theorem Do_blank_body :
  forall T (U : Unmarshaler T) (st : State) (req : http.Request)
         (resp : http.Response) (v : target T),
    answer st req = Responded resp ->
    success resp = true ->
    v <> nilInterface ->
    strings.all isSpace (io.content (http.Body resp)) = true ->
    io.failure (http.Body resp) = None ->
    fst (Do req v st)
    = (Some resp,
       Some (errorString
               ("JSON decoding: EOF (" ++ io.content (http.Body resp) ++ ")")),
       v).
Proof.
  intros T U st req resp v A S Hv B F. apply checkResponse_success in S.
  rewrite (Do_decode T U st req v resp A S Hv).
  unfold Decode. rewrite F.
  pose proof (readValue_content reset (io.chunks (http.Body resp)) None "")
    as Hc.
  pose proof (readValue_whole reset (io.chunks (http.Body resp)) None ""
                reset (scan_blank _ B)) as Hb.
  fold (io.content (http.Body resp)) in Hc, Hb.
  rewrite (scan_blank _ B) in Hc. simpl in Hc, Hb.
  unfold nonSpace in Hc. rewrite B in Hc. simpl in Hc.
  destruct (readValue _ _ _ _) as [r buf]. simpl in Hc, Hb. subst r buf.
  reflexivity.
Qed.

Lemma Do_blank_body_witness :
  fst (Do plainGet (pointer (new draws)) (mock 200 (io.mkReader [] None)))
  = (Some (http.mkResponse 200 (io.mkReader [] None) plainGet),
     Some (errorString "JSON decoding: EOF ()"),
     pointer (new draws)).
Proof.
  apply (Do_blank_body draws _ (mock 200 (io.mkReader [] None)) plainGet
           (http.mkResponse 200 (io.mkReader [] None) plainGet)
           (pointer (new draws))).
  - reflexivity.
  - reflexivity.
  - discriminate.
  - reflexivity.
  - reflexivity.
Defined.

Lemma Do_decoded T (U : Unmarshaler T) st req (v : target T) resp r e t :
  answer st req = Responded resp ->
  success resp = true ->
  v <> nilInterface ->
  fst (Do req v st) = (r, e, t) ->
  r = Some resp
  /\ t = fst (decodeStream (io.content (http.Body resp))
                (io.failure (http.Body resp)) v)
  /\ (e = None <->
      snd (decodeStream (io.content (http.Body resp))
             (io.failure (http.Body resp)) v) = None).
Proof.
  intros A S Hv H. apply checkResponse_success in S.
  rewrite (Do_decode T U st req v resp A S Hv) in H.
  rewrite <- Decode_stream.
  destruct (Decode _ _) as [[v' e'] buf]. simpl in H |- *.
  injection H as <- <- <-. repeat split.
  - destruct e'; [discriminate | reflexivity].
  - intros ->. reflexivity.
Qed.

(** X10.  What [Do] decodes depends on the bytes of the body only, not on
    the way they arrive in reads, and white space before the value is
    skipped: for two successful answers where the body of one is the body
    of the other after some white space, ending the same way, [Do] leaves
    the same value in the target, and returns an error for the one exactly
    when it does for the other. *)
Theorem Do_depends_on_content :
  forall T (U : Unmarshaler T) (st st' : State) (req req' : http.Request)
         (resp resp' : http.Response) (v : target T) (ws : string)
         r e t r' e' t',
    answer st req = Responded resp ->
    answer st' req' = Responded resp' ->
    success resp = true ->
    success resp' = true ->
    strings.all isSpace ws = true ->
    io.content (http.Body resp') = ws ++ io.content (http.Body resp) ->
    io.failure (http.Body resp') = io.failure (http.Body resp) ->
    fst (Do req v st) = (r, e, t) ->
    fst (Do req' v st') = (r', e', t') ->
    t' = t /\ (e' = None <-> e = None).
Proof.
  intros T U st st' req req' resp resp' v ws r e t r' e' t'
    A A' S S' W C F H H'.
  destruct v as [| |x].
  - apply checkResponse_success in S, S'.
    rewrite (Do_nil T U st req resp A S) in H.
    rewrite (Do_nil T U st' req' resp' A' S') in H'.
    simpl in H, H'. injection H as <- <- <-. injection H' as <- <- <-.
    split; [reflexivity | tauto].
  - assert (N : @nilPointer T <> nilInterface) by discriminate.
    destruct (Do_decoded T U st req _ resp r e t A S N H) as (_ & -> & E).
    destruct (Do_decoded T U st' req' _ resp' r' e' t' A' S' N H')
      as (_ & -> & E').
    rewrite E, E', C, F. unfold decodeStream.
    rewrite (scanStream_skips_blank ws _ _ W). split; [reflexivity | tauto].
  - assert (N : pointer x <> nilInterface) by discriminate.
    destruct (Do_decoded T U st req _ resp r e t A S N H) as (_ & -> & E).
    destruct (Do_decoded T U st' req' _ resp' r' e' t' A' S' N H')
      as (_ & -> & E').
    rewrite E, E', C, F. unfold decodeStream.
    rewrite (scanStream_skips_blank ws _ _ W). split; [reflexivity | tauto].
Qed.

Lemma Do_depends_on_content_witness :
  let whole := io.mkReader [text1873] None in
  let pieces :=
    io.mkReader [" "; nl; fst (strings.splitAt 10 text1873);
                 snd (strings.splitAt 10 text1873)] None in
  let a := fst (Do plainGet (pointer (new Draw)) (mock 200 whole)) in
  let b := fst (Do plainGet (pointer (new Draw)) (mock 200 pieces)) in
  snd b = snd a /\ (snd (fst b) = None <-> snd (fst a) = None).
Proof.
  intros whole pieces a b.
  exact (Do_depends_on_content Draw _ (mock 200 whole) (mock 200 pieces)
           plainGet plainGet
           (http.mkResponse 200 whole plainGet)
           (http.mkResponse 200 pieces plainGet)
           (pointer (new Draw)) (" " ++ nl)
           (fst (fst a)) (snd (fst a)) (snd a)
           (fst (fst b)) (snd (fst b)) (snd b)
           eq_refl eq_refl eq_refl eq_refl eq_refl eq_refl eq_refl
           eq_refl eq_refl).
Defined.

(** ** Rooted paths and absolute URLs *)

Lemma resolvePath_rooted (bp p : string) :
  strings.HasPrefix p "/" = false ->
  forallb (fun seg => negb (url.isDot seg)) (url.segments p) = true ->
  url.resolvePath bp (String "/" p) = String "/" p
  /\ url.resolvePath (String "/" p) "" = String "/" p.
Proof.
  intros R D. rewrite <- (resolvePath_plain p R D) at 2 4.
  unfold url.resolvePath. destruct p as [|c p]; [split; reflexivity|].
  simpl in R. cbn [strings.HasPrefix] in R.
  destruct (Ascii.eqb c "/") eqn:E.
  - destruct p; discriminate R.
  - split; reflexivity.
Qed.

Lemma parse_rooted (p : string) :
  strings.all safeByte p = true ->
  strings.HasPrefix p "/" = false ->
  url.Parse (String "/" p) = inr (relURL (String "/" p)).
Proof.
  intros H R.
  assert (H' : strings.all safeByte (String "/" p) = true) by exact H.
  unfold url.Parse.
  rewrite (Cut_absent (String "/" p) "#")
    by (apply plain_absent; [reflexivity | exact H']).
  unfold url.parse.
  rewrite (noCTL_plain _ H'), (not_star _ H').
  unfold url.getScheme. rewrite (getSchemeFrom_plain _ "" _ H').
  unfold url.bind. cbv beta iota.
  assert (Q : strings.ContainsByte (String "/" p) "?" = false)
    by (apply plain_absent; [reflexivity | exact H']).
  unfold strings.HasSuffixByte. rewrite (LastCut_absent _ "?" Q).
  rewrite (Cut_absent _ "?" Q). cbv beta iota zeta delta [andb negb].
  change (strings.ToLower "") with "".
  change (strings.HasPrefix (String "/" p) "/") with true.
  change (strings.HasPrefix (String "/" p) "//")
    with (strings.HasPrefix p "/").
  rewrite R. cbv beta iota.
  destruct (strings.HasPrefix (String "/" p) "///"); simpl;
    rewrite (setPath_plain _ _ H'); reflexivity.
Qed.

Lemma Resolve_rooted (u : url.URL) (p : string) :
  plainPath p = true ->
  url.ResolveReference u (relURL (String "/" p))
  = url.mkURL (url.Scheme u) "" (url.User u) (url.Host u) (String "/" p) ""
      false false "" "" "".
Proof.
  intros H. destruct (plainPath_parts p H) as [S [R D]].
  assert (S' : strings.all safeByte (String "/" p) = true) by exact S.
  unfold url.ResolveReference.
  rewrite (EscapedPath_plain (relURL (String "/" p)) eq_refl S').
  cbn [url.Scheme url.Opaque url.User url.Host url.Path url.RawPath
       url.OmitHost url.ForceQuery url.RawQuery url.Fragment url.RawFragment
       relURL].
  rewrite (proj1 (resolvePath_rooted (url.EscapedPath u) p R D)).
  simpl. rewrite (setPath_plain _ _ S'). reflexivity.
Qed.

Lemma Resolve_absolute (u : url.URL) (s h p : string) :
  s <> "" ->
  plainPath p = true ->
  url.ResolveReference u (baseURL s h (String "/" p))
  = baseURL s h (String "/" p).
Proof.
  intros N H. destruct (plainPath_parts p H) as [S [R D]].
  assert (S' : strings.all safeByte (String "/" p) = true) by exact S.
  unfold url.ResolveReference.
  rewrite (EscapedPath_plain (baseURL s h (String "/" p)) eq_refl S').
  cbn [url.Scheme url.Opaque url.User url.Host url.Path url.RawPath
       url.OmitHost url.ForceQuery url.RawQuery url.Fragment url.RawFragment
       baseURL].
  rewrite (proj2 (resolvePath_rooted "" p R D)).
  destruct s as [|c s]; [congruence|].
  simpl. rewrite (setPath_plain _ _ S'). reflexivity.
Qed.

Lemma buildRequest_to (c : Client) (method : string) (rel : url.URL)
  (urlStr s h q : string) body :
  url.Parse urlStr = inr rel ->
  url.ResolveReference (BaseURL c) rel = baseURL s h q ->
  s = "http" \/ s = "https" ->
  h <> "" ->
  strings.all hostByte h = true ->
  strings.HasPrefix q "/" = true ->
  strings.all safeByte q = true ->
  http.validMethod method = true ->
  buildRequest c method urlStr body
  = inr (http.mkRequest method (baseURL s h q) h body).
Proof.
  intros P R Hs Hh Ha Pq Sq V. unfold buildRequest. rewrite P, R.
  rewrite (String_general s h q Hs Hh Ha Pq Sq).
  unfold http.NewRequest.
  rewrite (validMethod_nonempty method V), V.
  rewrite (parse_general s h q Hs Hh Ha Pq Sq).
  cbn [url.Scheme url.Opaque url.User url.Host url.Path url.RawPath
       url.OmitHost url.ForceQuery url.RawQuery url.Fragment url.RawFragment
       baseURL].
  rewrite (removeEmptyPort_host h Ha). reflexivity.
Qed.

(** X11.  A path that starts with a slash replaces the path of the base
    URL instead of being appended to it: for a client with a plain base
    URL, a valid method and a plain path [p], [NewRequest] on [/p] builds
    the request for scheme, host and [/p], whatever the path of the base
    URL.  (With a base URL whose path is the root, as the default one, this
    is the same URL as for [p].) *)
Theorem NewRequest_rooted_path :
  forall (st : State) (method p : string) (body : option io.Reader),
    plainBase (BaseURL (self st)) = true ->
    http.validMethod method = true ->
    plainPath p = true ->
    let b := BaseURL (self st) in
    NewRequest method (String "/" p) body st
    = (inr (http.mkRequest method
              (baseURL (url.Scheme b) (url.Host b) (String "/" p))
              (url.Host b) body), st)
    /\ url.String_ (baseURL (url.Scheme b) (url.Host b) (String "/" p))
       = url.Scheme b ++ "://" ++ url.Host b ++ "/" ++ p.
Proof.
  intros st method p body B V H b.
  destruct (plainPath_parts p H) as [S [R D]].
  destruct (plainBase_shape _ B)
    as (s & h & bp & EB & Hs & Hh & Ha & P & E & Sb & Db).
  subst b. rewrite NewRequest_pure, EB.
  cbn [url.Scheme url.Host baseURL].
  assert (S' : strings.all safeByte (String "/" p) = true) by exact S.
  split.
  - rewrite (buildRequest_to (self st) method (relURL (String "/" p))
               (String "/" p) s h (String "/" p) body); try assumption.
    + reflexivity.
    + apply (parse_rooted p S R).
    + rewrite EB. apply (Resolve_rooted (baseURL s h bp) p H).
    + reflexivity.
  - apply (String_general s h (String "/" p) Hs Hh Ha eq_refl S').
Qed.

Lemma NewRequest_rooted_path_witness :
  fst (NewRequest "GET" "/joker/last.json" None
         (mkState (mkClientOpap http.DefaultClient
                     (baseURL "https" "example.org" "/api/v1/")
                     (mkDrawsService "DrawsRestServices"))
            (network refusing) [] 0))
  = inr (http.mkRequest "GET"
           (baseURL "https" "example.org" "/joker/last.json")
           "example.org" None)
  /\ url.String_ (baseURL "https" "example.org" "/joker/last.json")
     = "https://example.org/joker/last.json".
Proof.
  destruct (NewRequest_rooted_path
              (mkState (mkClientOpap http.DefaultClient
                          (baseURL "https" "example.org" "/api/v1/")
                          (mkDrawsService "DrawsRestServices"))
                 (network refusing) [] 0)
              "GET" "joker/last.json" None eq_refl eq_refl eq_refl)
    as [H1 H2].
  split; [rewrite H1; reflexivity | exact H2].
Defined.

(** X12.  An absolute URL handed to [NewRequest] is taken as it is: for
    a valid method and a URL made of the scheme [http] or [https], a plain
    host name and a rooted plain path, the request is for that very URL,
    whatever the base URL of the client. *)
Theorem NewRequest_absolute_url :
  forall (st : State) (method s h p : string) (body : option io.Reader),
    s = "http" \/ s = "https" ->
    h <> "" ->
    strings.all hostByte h = true ->
    plainPath p = true ->
    http.validMethod method = true ->
    NewRequest method (s ++ "://" ++ h ++ "/" ++ p) body st
    = (inr (http.mkRequest method (baseURL s h (String "/" p)) h body), st)
    /\ url.String_ (baseURL s h (String "/" p)) = s ++ "://" ++ h ++ "/" ++ p.
Proof.
  intros st method s h p body Hs Hh Ha H V.
  destruct (plainPath_parts p H) as [S [R D]].
  assert (S' : strings.all safeByte (String "/" p) = true) by exact S.
  assert (N : s <> "") by (destruct Hs as [-> | ->]; discriminate).
  split.
  - rewrite NewRequest_pure.
    rewrite (buildRequest_to (self st) method (baseURL s h (String "/" p))
               (s ++ "://" ++ h ++ "/" ++ p) s h (String "/" p) body);
      try assumption.
    + reflexivity.
    + apply (parse_general s h (String "/" p) Hs Hh Ha eq_refl S').
    + apply (Resolve_absolute _ s h p N H).
    + reflexivity.
  - apply (String_general s h (String "/" p) Hs Hh Ha eq_refl S').
Qed.

Lemma NewRequest_absolute_url_witness :
  fst (NewRequest "GET" "https://example.org/joker/last.json" None refusing)
  = inr (http.mkRequest "GET"
           (baseURL "https" "example.org" "/joker/last.json")
           "example.org" None).
Proof.
  refine (f_equal fst
            (proj1 (NewRequest_absolute_url refusing "GET" "https"
                      "example.org" "joker/last.json" None
                      (or_intror eq_refl) _ eq_refl eq_refl eq_refl))).
  discriminate.
Defined.

(** X13.  [NewRequest] with the empty method is [NewRequest] with GET.
    With a method that is not empty and is not a valid HTTP token (here of
    printable ASCII), on a URL that parses, it returns no request and the
    error of [http.NewRequest], [net/http: invalid method] followed by the
    quoted method; the state is untouched. *)
Theorem NewRequest_method :
  forall (st : State) (urlStr : string) (body : option io.Reader),
    NewRequest "" urlStr body st = NewRequest "GET" urlStr body st
    /\ forall (method : string) (rel : url.URL),
         url.Parse urlStr = inr rel ->
         method <> "" ->
         http.validMethod method = false ->
         strings.all printable method = true ->
         NewRequest method urlStr body st
         = (inl (errorString ("net/http: invalid method " ++ Quote method)),
            st).
Proof.
  intros st urlStr body. split.
  - rewrite !NewRequest_pure. reflexivity.
  - intros method rel P N V _. rewrite NewRequest_pure.
    unfold buildRequest. rewrite P. unfold http.NewRequest.
    apply String.eqb_neq in N. rewrite N, V. unfold Errorf.
    cbn -[Quote]. rewrite append_nil_r. reflexivity.
Qed.

Lemma NewRequest_method_witness :
  NewRequest "GET POST" "joker/last.json" None refusing
  = (inl (errorString
            ("net/http: invalid method " ++ Quote "GET POST")), refusing).
Proof.
  refine (proj2 (NewRequest_method refusing "joker/last.json" None)
            "GET POST" (relURL "joker/last.json") eq_refl _ eq_refl eq_refl).
  discriminate.
Defined.

(** ** The scanner reads back what [encode] writes *)

Lemma value_induction (P : value -> Prop) :
  P Null ->
  (forall b, P (Bool b)) ->
  (forall lit, P (Number lit)) ->
  (forall s, P (Str s)) ->
  (forall vs, Forall P vs -> P (Array vs)) ->
  (forall ms, Forall (fun kv => P (snd kv)) ms -> P (Object ms)) ->
  forall v, P v.
Proof.
  intros HN HB HNum HS HA HO. fix IH 1. intros [ |b|lit|s|vs|ms].
  - exact HN.
  - apply HB.
  - apply HNum.
  - apply HS.
  - apply HA. induction vs as [|v vs IHvs]; constructor; [apply IH | exact IHvs].
  - apply HO. induction ms as [|[k v] ms IHms]; constructor;
      [apply IH | exact IHms].
Qed.

Lemma step_pushValue (v : value) (stack : list frame) :
  step (pushValue v stack) = stEndValue.
Proof.
  destruct stack as [|[es|ms [k|]|ms k|ms] stack]; try reflexivity.
  destruct v; reflexivity.
Qed.

Lemma stepByte_pushed (v : value) (stack : list frame) (c : byte) :
  stepByte (pushValue v stack) c = stateEndValue (pushValue v stack) c.
Proof. unfold stepByte. rewrite step_pushValue. reflexivity. Qed.

Lemma scan_pushed (v : value) (stack : list frame) (c : byte) rest :
  scanBytes (pushValue v stack) (String c rest)
  = andThen (stateEndValue (pushValue v stack) c) rest.
Proof. simpl. rewrite stepByte_pushed. reflexivity. Qed.

Lemma plainChar_facts (c : byte) :
  plainChar c = true ->
  Ascii.eqb c dquote = false
  /\ Ascii.eqb c "092" = false
  /\ (code c <? 32)%Z = false
  /\ (code c <? 128)%Z = true.
Proof.
  destruct c as [[] [] [] [] [] [] [] []]; vm_compute; intros H;
    try discriminate H; repeat split.
Qed.

Lemma unquoteFrom_plain (s : string) :
  plainText s = true -> unquoteFrom false 0 s = s.
Proof.
  induction s as [|c s IH]; [reflexivity|]. intros H.
  apply andb_true_iff in H as [Hc Hs].
  destruct (plainChar_facts c Hc) as (_ & B & _ & A).
  cbn [unquoteFrom]. rewrite B, A, (IH Hs). reflexivity.
Qed.

Lemma scan_text (raw s : string) (stack : list frame) rest :
  plainText s = true ->
  scanBytes (mkScanner (stInString raw) stack None) (s ++ rest)
  = scanBytes (mkScanner (stInString (raw ++ s)) stack None) rest.
Proof.
  revert raw. induction s as [|c s IH]; intros raw H.
  - rewrite append_nil_r. reflexivity.
  - apply andb_true_iff in H as [Hc Hs].
    destruct (plainChar_facts c Hc) as (Q & B & L & _).
    cbn [append scanBytes]. unfold stepByte. cbn [step parseState].
    rewrite Q, B, L. rewrite (IH _ Hs), append_assoc. reflexivity.
Qed.

(** A string literal of plain text, read from the byte after its opening
    quote. *)
Lemma scan_literal (s : string) (stack : list frame) rest :
  plainText s = true ->
  scanBytes (mkScanner (stInString "") stack None)
    (s ++ String dquote rest)
  = scanBytes (pushValue (Str s) stack) rest.
Proof.
  intros H. rewrite (scan_text "" s stack _ H).
  cbn [append scanBytes]. unfold stepByte. cbn [step parseState].
  rewrite Ascii.eqb_refl. unfold unquote.
  rewrite (unquoteFrom_plain s H). reflexivity.
Qed.

Lemma q_app (s rest : string) :
  q s ++ rest = String dquote (s ++ String dquote rest).
Proof. unfold q. cbn [append]. rewrite append_assoc. reflexivity. Qed.

Lemma numEnd_facts (c : byte) :
  numEnd c = true ->
  is_digit c = false /\ Ascii.eqb c "." = false /\ byte_in c "eE" = false.
Proof.
  destruct c as [[] [] [] [] [] [] [] []]; vm_compute; intros H;
    try discriminate H; repeat split.
Qed.

Lemma scan_digits (lit ds : string) (stack : list frame) (c : byte) rest :
  strings.all is_digit ds = true ->
  numEnd c = true ->
  scanBytes (mkScanner (st1 lit) stack None) (ds ++ String c rest)
  = andThen (stateEndValue (pushValue (Number (lit ++ ds)) stack) c) rest.
Proof.
  intros D E. revert lit. induction ds as [|d ds IH]; intros lit.
  - destruct (numEnd_facts c E) as (Hd & Hp & He).
    rewrite append_nil_r. cbn [append scanBytes]. unfold stepByte.
    cbn [step parseState]. rewrite Hd. unfold state0. rewrite Hp, He.
    reflexivity.
  - apply andb_true_iff in D as [Hd Hs].
    cbn [append scanBytes]. unfold stepByte. cbn [step parseState].
    rewrite Hd. rewrite (IH Hs), append_assoc. reflexivity.
Qed.

Lemma begin_step (st : state) (stack : list frame) (b : byte) :
  begins st ->
  isSpace b = false ->
  Ascii.eqb b "]" = false ->
  stepByte (mkScanner st stack None) b = stateBeginValue stack b.
Proof.
  intros [-> | ->] S B; unfold stepByte; cbn [step parseState];
    [reflexivity|]. rewrite S, B. reflexivity.
Qed.

Lemma scan_lit (name expect : string) (v : value) (stack : list frame) rest :
  expect <> "" ->
  scanBytes (mkScanner (stLit name expect v) stack None) (expect ++ rest)
  = scanBytes (pushValue v stack) rest.
Proof.
  induction expect as [|e expect IH]; [congruence|]. intros _.
  cbn [append scanBytes]. unfold stepByte. cbn [step parseState].
  rewrite Ascii.eqb_refl. destruct expect as [|e' expect].
  - reflexivity.
  - apply IH. discriminate.
Qed.

Lemma begin_digit (stack : list frame) (d : byte) :
  between "1" "9" d = true ->
  stateBeginValue stack d
  = scanContinue (mkScanner (st1 (String d "")) stack None)
  /\ stepByte (mkScanner (stNeg "-") stack None) d
     = scanContinue (mkScanner (st1 (String "-" (String d ""))) stack None)
  /\ isSpace d = false /\ Ascii.eqb d "]" = false.
Proof.
  destruct d as [[] [] [] [] [] [] [] []]; vm_compute; intros H;
    try discriminate H; repeat split.
Qed.

Lemma reads_Number (lit : string) :
  integerLiteral lit = true -> reads (Number lit).
Proof.
  intros H st stack c rest B N D E. cbn [encode pushValue].
  unfold integerLiteral in H.
  apply orb_true_iff in H as [H | H]; [apply orb_true_iff in H as [H | H]|].
  - apply String.eqb_eq in H. subst lit.
    destruct (numEnd_facts c E) as (Hd & Hp & He).
    cbn [append scanBytes]. rewrite (begin_step st stack "0" B eq_refl eq_refl).
    change (stateBeginValue stack "0")
      with (scanContinue (mkScanner (st0 "0") stack None)).
    cbv iota beta. unfold stepByte. cbn [step parseState].
    unfold state0. rewrite Hp, He. reflexivity.
  - destruct lit as [|d ds]; [discriminate H|]. cbn [plainDigits] in H.
    apply andb_true_iff in H as [Hd Hs].
    destruct (begin_digit stack d Hd) as (B1 & _ & S1 & S2).
    cbn [append scanBytes]. rewrite (begin_step st stack d B S1 S2), B1.
    cbv iota beta. apply (scan_digits (String d "") ds stack c rest Hs E).
  - destruct lit as [|m t]; [discriminate H|].
    destruct (Ascii.eqb_spec m "-") as [->|Hm].
    + destruct t as [|d ds]; [discriminate H|]. cbn [plainDigits] in H.
      apply andb_true_iff in H as [Hd Hs].
      destruct (begin_digit stack d Hd) as (_ & B2 & _).
      cbn [append scanBytes].
      rewrite (begin_step st stack "-" B eq_refl eq_refl).
      change (stateBeginValue stack "-")
        with (scanContinue (mkScanner (stNeg "-") stack None)).
      cbv iota beta. rewrite B2. cbv iota beta.
      apply (scan_digits (String "-" (String d "")) ds stack c rest Hs E).
    + exfalso. revert H Hm. clear.
      destruct m as [[] [] [] [] [] [] [] []]; intros H Hm;
        try discriminate H; congruence.
Qed.

Lemma reads_Str (s : string) : plainText s = true -> reads (Str s).
Proof.
  intros H st stack c rest B N D E. cbn [encode]. rewrite q_app.
  cbn [scanBytes]. rewrite (begin_step st stack dquote B eq_refl eq_refl).
  change (stateBeginValue stack dquote)
    with (scanContinue (mkScanner (stInString "") stack None)).
  cbv iota beta. rewrite (scan_literal s stack _ H). apply scan_pushed.
Qed.

Lemma reads_literal (name : string) (v : value) (b : byte) (expect : string) :
  encode v = String b expect ->
  expect <> "" ->
  isSpace b = false -> Ascii.eqb b "]" = false ->
  (forall stack, stateBeginValue stack b
                 = scanContinue (mkScanner (stLit name expect v) stack None)) ->
  reads v.
Proof.
  intros En Ne S1 S2 Hb st stack c rest B N D E. rewrite En.
  cbn [append scanBytes]. rewrite (begin_step st stack b B S1 S2), Hb.
  cbv iota beta. rewrite (scan_lit name expect v stack _ Ne).
  apply scan_pushed.
Qed.

Lemma reads_Null : reads Null.
Proof.
  apply (reads_literal "null" Null "n" "ull"); try reflexivity. discriminate.
Qed.

Lemma reads_Bool (b : bool) : reads (Bool b).
Proof.
  destruct b.
  - apply (reads_literal "true" (Bool true) "t" "rue"); try reflexivity.
    discriminate.
  - apply (reads_literal "false" (Bool false) "f" "alse"); try reflexivity.
    discriminate.
Qed.

Lemma push_open (c : byte) (f : frame) (next : state) (stack : list frame) :
  (Z.of_nat (S (List.length stack)) <= maxNestingDepth)%Z ->
  pushParseState c f next stack
  = scanContinue (mkScanner next (f :: stack) None).
Proof.
  intros H. unfold pushParseState. cbn [List.length].
  apply Z.leb_le in H. rewrite H. reflexivity.
Qed.

Lemma close_pushed (v : value) (stack : list frame) (c : byte) rest :
  stack <> [] ->
  andThen (closeValue v stack) (String c rest)
  = andThen (stateEndValue (pushValue v stack) c) rest.
Proof.
  intros N. destruct stack as [|f stack]; [congruence|].
  cbn [closeValue andThen]. apply scan_pushed.
Qed.

(** The elements of an array after its opening bracket, up to its
    closing bracket. *)
Lemma scan_elems (stack : list frame) rest (vs : list value) :
  forall (v : value) (es : list value) (st : state),
    begins st ->
    readable (List.length stack) (v :: vs) ->
    scanBytes (mkScanner st (Arr es :: stack) None)
      (String.concat "," (map encode (v :: vs)) ++ String "]" rest)
    = andThen (closeValue (Array (es ++ v :: vs)) stack) rest.
Proof.
  induction vs as [|v2 vs IH]; intros v es st B R.
  - apply Forall_inv in R. destruct R as [Rv Dv].
    cbn [map String.concat].
    rewrite (Rv st (Arr es :: stack) "]"%char rest B ltac:(discriminate) Dv eq_refl).
    reflexivity.
  - pose proof (Forall_inv R) as [Rv Dv]. apply Forall_inv_tail in R.
    change (String.concat "," (map encode (v :: v2 :: vs)))
      with (encode v ++ "," ++ String.concat "," (map encode (v2 :: vs))).
    rewrite !append_assoc. cbn [append].
    rewrite (Rv st (Arr es :: stack) ","%char _ B ltac:(discriminate) Dv eq_refl).
    cbn [pushValue stateEndValue parseState andThen].
    change (isSpace ",") with false. cbv iota.
    change (Ascii.eqb "," ",") with true. cbv iota. cbn [andThen].
    rewrite (IH v2 (es ++ [v])%list stBeginValue (or_introl eq_refl) R).
    rewrite <- app_assoc. reflexivity.
Qed.

Lemma key_step (st : state) (stack : list frame) :
  beginsKey st ->
  stepByte (mkScanner st stack None) dquote
  = scanContinue (mkScanner (stInString "") stack None).
Proof.
  intros [-> | ->]; unfold stepByte; cbn [step parseState]; reflexivity.
Qed.

(** A member of an object from the opening quote of its key up to the
    byte before the comma or brace after its value. *)
Lemma scan_member (stack : list frame) (done : list (string * value))
  (k : string) (v : value) (st : state) (c : byte) rest :
  beginsKey st ->
  plainText k = true ->
  reads v ->
  (Z.of_nat (S (List.length stack) + depth v) <= maxNestingDepth)%Z ->
  numEnd c = true ->
  scanBytes (mkScanner st (ObjKey done None :: stack) None)
    (member (k, v) ++ String c rest)
  = andThen
      (stateEndValue
         (mkScanner stEndValue (ObjDone (done ++ [(k, v)]) :: stack) None) c)
      rest.
Proof.
  intros B K Rv Dv E. unfold member. cbn [fst snd].
  rewrite !append_assoc, q_app. cbn [scanBytes].
  rewrite (key_step st _ B). cbv iota beta.
  rewrite (scan_literal k _ _ K). cbn [pushValue append scanBytes].
  unfold stepByte at 1. cbn [step stateEndValue parseState].
  change (isSpace ":") with false. cbv iota.
  change (Ascii.eqb ":" ":") with true. cbv iota.
  rewrite (Rv stBeginValue (ObjVal done k :: stack) c rest
             (or_introl eq_refl) ltac:(discriminate) Dv E).
  reflexivity.
Qed.

Lemma scan_members (stack : list frame) rest (ms : list (string * value)) :
  forall (kv : string * value) (done : list (string * value)) (st : state),
    beginsKey st ->
    readableMembers (List.length stack) (kv :: ms) ->
    scanBytes (mkScanner st (ObjKey done None :: stack) None)
      (String.concat "," (map member (kv :: ms)) ++ String "}" rest)
    = andThen (closeValue (Object (done ++ kv :: ms)) stack) rest.
Proof.
  induction ms as [|kv2 ms IH]; intros [k v] done st B R.
  - apply Forall_inv in R. destruct R as (K & Rv & Dv). cbn [fst snd] in *.
    cbn [map String.concat].
    rewrite (scan_member stack done k v st "}" rest B K Rv Dv eq_refl).
    reflexivity.
  - pose proof (Forall_inv R) as (K & Rv & Dv). apply Forall_inv_tail in R.
    cbn [fst snd] in *.
    change (String.concat "," (map member ((k, v) :: kv2 :: ms)))
      with (member (k, v) ++ "," ++ String.concat "," (map member (kv2 :: ms))).
    rewrite !append_assoc. cbn [append].
    rewrite (scan_member stack done k v st "," _ B K Rv Dv eq_refl).
    cbn [stateEndValue parseState].
    change (isSpace ",") with false. cbv iota.
    change (Ascii.eqb "," ",") with true. cbv iota. cbn [andThen].
    rewrite (IH kv2 (done ++ [(k, v)])%list stBeginString
               (or_introl eq_refl) R).
    rewrite <- app_assoc. reflexivity.
Qed.

Lemma scan_array (st : state) (stack : list frame) (vs : list value) rest :
  begins st ->
  (Z.of_nat (S (List.length stack)) <= maxNestingDepth)%Z ->
  readable (List.length stack) vs ->
  scanBytes (mkScanner st stack None) (encode (Array vs) ++ rest)
  = andThen (closeValue (Array vs) stack) rest.
Proof.
  intros B D R. cbn [encode]. rewrite !append_assoc. cbn [append scanBytes].
  rewrite (begin_step st stack "[" B eq_refl eq_refl).
  change (stateBeginValue stack "[")
    with (pushParseState "[" (Arr []) stBeginValueOrEmpty stack).
  rewrite (push_open _ _ _ _ D). cbv iota beta.
  destruct vs as [|v vs].
  - reflexivity.
  - apply (scan_elems stack rest vs v [] stBeginValueOrEmpty
             (or_intror eq_refl) R).
Qed.

Lemma scan_object (st : state) (stack : list frame)
  (ms : list (string * value)) rest :
  begins st ->
  (Z.of_nat (S (List.length stack)) <= maxNestingDepth)%Z ->
  readableMembers (List.length stack) ms ->
  scanBytes (mkScanner st stack None) (encode (Object ms) ++ rest)
  = andThen (closeValue (Object ms) stack) rest.
Proof.
  intros B D R. cbn [encode]. rewrite !append_assoc. cbn [append scanBytes].
  rewrite (begin_step st stack "{" B eq_refl eq_refl).
  change (stateBeginValue stack "{")
    with (pushParseState "{" (ObjKey [] None) stBeginStringOrEmpty stack).
  rewrite (push_open _ _ _ _ D). cbv iota beta.
  destruct ms as [|kv ms].
  - reflexivity.
  - apply (scan_members stack rest ms kv [] stBeginStringOrEmpty
             (or_intror eq_refl) R).
Qed.

Lemma depth_bound (vs : list value) (v : value) :
  In v vs ->
  (depth v <= fold_right (fun v n => Nat.max (depth v) n) 0 vs)%nat.
Proof.
  induction vs as [|a vs IH]; [intros []|]. intros [-> | H]; cbn [fold_right].
  - apply Nat.le_max_l.
  - etransitivity; [apply (IH H) | apply Nat.le_max_r].
Qed.

Lemma depth_member (ms : list (string * value)) (kv : string * value) :
  In kv ms ->
  (depth (snd kv)
   <= fold_right (fun kv n => Nat.max (depth (snd kv)) n) 0 ms)%nat.
Proof.
  induction ms as [|a ms IH]; [intros []|]. intros [-> | H]; cbn [fold_right].
  - apply Nat.le_max_l.
  - etransitivity; [apply (IH H) | apply Nat.le_max_r].
Qed.

Lemma readable_of (n : nat) (vs : list value) :
  Forall reads vs ->
  (Z.of_nat (n + depth (Array vs)) <= maxNestingDepth)%Z ->
  readable n vs.
Proof.
  intros R D. apply Forall_forall. intros v Hv. split.
  - apply (proj1 (Forall_forall _ _) R v Hv).
  - pose proof (depth_bound vs v Hv). cbn [depth] in D. lia.
Qed.

Lemma readableMembers_of (n : nat) (ms : list (string * value)) :
  Forall (fun kv => plainText (fst kv) = true /\ reads (snd kv)) ms ->
  (Z.of_nat (n + depth (Object ms)) <= maxNestingDepth)%Z ->
  readableMembers n ms.
Proof.
  intros R D. apply Forall_forall. intros kv Hkv.
  destruct (proj1 (Forall_forall _ _) R kv Hkv) as [K Rv].
  repeat split; [exact K | exact Rv |].
  pose proof (depth_member ms kv Hkv). cbn [depth] in D. lia.
Qed.

(** The scanner reads every simple value. *)
Lemma reads_simple (v : value) : simple v = true -> reads v.
Proof.
  induction v as [ |b|lit|s|vs IH|ms IH] using value_induction; intros S.
  - apply reads_Null.
  - apply reads_Bool.
  - apply reads_Number, S.
  - apply reads_Str, S.
  - intros st stack c rest B N D E.
    assert (R : Forall reads vs).
    { cbn [simple] in S. rewrite forallb_forall in S.
      apply Forall_forall. intros v Hv.
      apply (proj1 (Forall_forall _ _) IH v Hv), S, Hv. }
    rewrite (scan_array st stack vs _ B); [apply close_pushed, N | |].
    + cbn [depth] in D. lia.
    + apply (readable_of _ vs R D).
  - intros st stack c rest B N D E.
    assert (R : Forall (fun kv => plainText (fst kv) = true /\ reads (snd kv))
                  ms).
    { cbn [simple] in S. rewrite forallb_forall in S.
      apply Forall_forall. intros kv Hkv.
      pose proof (S kv Hkv) as Skv. apply andb_true_iff in Skv as [K Sv].
      split; [exact K|].
      apply (proj1 (Forall_forall _ _) IH kv Hkv), Sv. }
    rewrite (scan_object st stack ms _ B); [apply close_pushed, N | |].
    + cbn [depth] in D. lia.
    + apply (readableMembers_of _ ms R D).
Qed.

(** A simple array or object at the start of a stream is read as it is,
    whatever follows it. *)
Lemma scan_document (v : value) rest :
  simple v = true ->
  (Z.of_nat (depth v) <= maxNestingDepth)%Z ->
  (0 < depth v)%nat ->
  scanBytes reset (encode v ++ rest) = scanEnd v.
Proof.
  intros S D P. unfold reset. destruct v as [ |b|lit|s|vs|ms];
    try (cbn [depth] in P; lia).
  - rewrite (scan_array stBeginValue [] vs rest (or_introl eq_refl));
      [reflexivity | cbn [depth List.length] in D |- *; lia |].
    apply readable_of; [|exact D].
    cbn [simple] in S. rewrite forallb_forall in S.
    apply Forall_forall. intros v Hv. apply reads_simple, S, Hv.
  - rewrite (scan_object stBeginValue [] ms rest (or_introl eq_refl));
      [reflexivity | cbn [depth List.length] in D |- *; lia |].
    apply readableMembers_of; [|exact D].
    cbn [simple] in S. rewrite forallb_forall in S.
    apply Forall_forall. intros kv Hkv.
    pose proof (S kv Hkv) as Skv. apply andb_true_iff in Skv as [K Sv].
    split; [exact K | apply reads_simple, Sv].
Qed.

(** ** [ParseInt] reads back what [Itoa] writes *)

Lemma digitsValue_uval (d : Decimal.uint) (acc : Z) :
  strconv.digitsValue (NilEmpty.string_of_uint d) acc = uval d acc.
Proof.
  revert acc. induction d; intros acc; cbn [NilEmpty.string_of_uint uval
    strconv.digitsValue]; [reflexivity | rewrite IHd; f_equal..].
  all: vm_compute code; lia.
Qed.

Lemma uval_acc (d : Decimal.uint) (a : positive) :
  uval d (Z.pos a) = Z.pos (Pos.of_uint_acc d a).
Proof.
  revert a. induction d; intros a; cbn [uval Pos.of_uint_acc];
    [reflexivity | rewrite <- IHd; f_equal; lia ..].
Qed.

Lemma uval_of_uint (d : Decimal.uint) : uval d 0 = Z.of_N (Pos.of_uint d).
Proof.
  induction d; cbn [uval Pos.of_uint];
    [reflexivity | exact IHd | apply (uval_acc d) ..].
Qed.

Lemma uval_to_uint (p : positive) : uval (Pos.to_uint p) 0 = Z.pos p.
Proof. rewrite uval_of_uint, DecimalPos.Unsigned.of_to. reflexivity. Qed.

Lemma ParseInt_digits (s : string) :
  plainDigits s = true ->
  strconv.ParseInt s
  = (if int64 (strconv.digitsValue s 0) then Some (strconv.digitsValue s 0)
     else None)
  /\ strconv.ParseInt (String "-" s)
     = (if int64 (- strconv.digitsValue s 0)
        then Some (- strconv.digitsValue s 0) else None).
Proof.
  destruct s as [|d ds]; [discriminate|]. cbn [plainDigits]. intros H.
  apply andb_true_iff in H as [Hd Hs].
  assert (D : is_digit d = true /\ Ascii.eqb d "-" = false
              /\ Ascii.eqb d "+" = false).
  { revert Hd. clear. destruct d as [[] [] [] [] [] [] [] []]; vm_compute;
      intros H; try discriminate H; repeat split. }
  destruct D as (D1 & D2 & D3).
  assert (A : strings.all is_digit (String d ds) = true)
    by (cbn [strings.all]; rewrite D1, Hs; reflexivity).
  split.
  - unfold strconv.ParseInt.
    assert (E : match String d ds with
                | String "-" r => (true, r)
                | String "+" r => (false, r)
                | _ => (false, String d ds)
                end = (false, String d ds)).
    { revert D2 D3. clear. destruct d as [[] [] [] [] [] [] [] []];
        intros D2 D3; try discriminate D2; try discriminate D3; reflexivity. }
    rewrite E, A. reflexivity.
  - unfold strconv.ParseInt. rewrite A. reflexivity.
Qed.

Lemma ParseInt_Itoa (n : Z) :
  int64 n = true -> strconv.ParseInt (strconv.Itoa n) = Some n.
Proof.
  intros R. destruct n as [|p|p].
  - reflexivity.
  - pose proof (to_uint_plain p) as P.
    pose proof (uval_to_uint p) as V.
    unfold strconv.Itoa. cbn [Z.to_int NilZero.string_of_int].
    rewrite (proj1 (ParseInt_digits _ P)).
    assert (E : strconv.digitsValue (NilZero.string_of_uint (Pos.to_uint p)) 0
                = Z.pos p).
    { destruct (Pos.to_uint p) eqn:U; try discriminate V;
        cbn [NilZero.string_of_uint]; rewrite digitsValue_uval; exact V. }
    rewrite E, R. reflexivity.
  - pose proof (to_uint_plain p) as P.
    pose proof (uval_to_uint p) as V.
    unfold strconv.Itoa. cbn [Z.to_int NilZero.string_of_int].
    assert (E : strconv.digitsValue (NilZero.string_of_uint (Pos.to_uint p)) 0
                = Z.pos p).
    { destruct (Pos.to_uint p) eqn:U; try discriminate V;
        cbn [NilZero.string_of_uint]; rewrite digitsValue_uval; exact V. }
    rewrite (proj2 (ParseInt_digits _ P)), E.
    change (- Z.pos p)%Z with (Z.neg p). rewrite R. reflexivity.
Qed.

(** ** Storing the JSON value of a draw gives the draw *)

Lemma integerLiteral_Itoa (n : Z) : integerLiteral (strconv.Itoa n) = true.
Proof.
  unfold integerLiteral. destruct (Itoa_plain n) as [H _]. destruct n.
  - rewrite H. reflexivity.
  - rewrite H, orb_true_r. reflexivity.
  - destruct H as [t [-> H]]. rewrite H, orb_true_r. reflexivity.
Qed.

Lemma store_int (ctx : context) (n x : Z) :
  int64 n = true -> store ctx (jsonInt n) x = (n, None).
Proof.
  intros R. unfold jsonInt. cbn [store int_Unmarshaler].
  rewrite (ParseInt_Itoa n R). reflexivity.
Qed.

Lemma store_ints (ctx : context) (rs : list Z) (old : list Z) :
  forallb int64 rs = true ->
  storeElems ctx (map jsonInt rs) old = (rs, None).
Proof.
  revert old. induction rs as [|r rs IH]; intros old H; [reflexivity|].
  cbn [forallb] in H. apply andb_true_iff in H as [Hr Hs].
  cbn [map storeElems]. rewrite (store_int ctx r _ Hr), (IH _ Hs).
  reflexivity.
Qed.

Lemma store_texts (ctx : context) (rs : list string) (old : list string) :
  storeElems ctx (map Str rs) old = (rs, None).
Proof.
  revert old. induction rs as [|r rs IH]; intros old; [reflexivity|].
  cbn [map storeElems]. rewrite IH. reflexivity.
Qed.

Lemma store_Draw (ctx : context) (d x : Draw) :
  plainDraw d = true -> store ctx (jsonDraw d) x = (d, None).
Proof.
  unfold plainDraw. intros H.
  apply andb_true_iff in H as [H Hr]. apply andb_true_iff in H as [_ Hn].
  destruct d as [time no results]. cbn [DrawTime DrawNo Results] in *.
  unfold jsonDraw, drawMembers. cbn [DrawTime DrawNo Results].
  cbn [store Draw_Unmarshaler storeStruct storeMembers].
  cbn [findField find fst snd String.eqb Ascii.eqb Bool.eqb andb tagged].
  cbn [store string_Unmarshaler].
  rewrite (store_int _ no _ Hn).
  destruct results as [rs|]; cbn [store slice_Unmarshaler];
    [rewrite (store_ints _ rs _ Hr)|]; reflexivity.
Qed.

Lemma store_PropoDraw (ctx : context) (d x : PropoDraw) :
  plainPropoDraw d = true -> store ctx (jsonPropoDraw d) x = (d, None).
Proof.
  unfold plainPropoDraw. intros H.
  apply andb_true_iff in H as [H Hr]. apply andb_true_iff in H as [_ Hn].
  destruct d as [time no results].
  cbn [PropoDrawTime PropoDrawNo PropoResults] in *.
  unfold jsonPropoDraw, propoDrawMembers.
  cbn [PropoDrawTime PropoDrawNo PropoResults].
  cbn [store PropoDraw_Unmarshaler storeStruct storeMembers].
  cbn [findField find fst snd String.eqb Ascii.eqb Bool.eqb andb tagged].
  cbn [store string_Unmarshaler].
  rewrite (store_int _ no _ Hn).
  destruct results as [rs|]; cbn [store slice_Unmarshaler];
    [rewrite (store_texts _ rs _)|]; reflexivity.
Qed.

Lemma store_Draws (ctx : context) (ds old : list Draw) :
  forallb plainDraw ds = true ->
  storeElems ctx (map jsonDraw ds) old = (ds, None).
Proof.
  revert old. induction ds as [|d ds IH]; intros old H; [reflexivity|].
  cbn [forallb] in H. apply andb_true_iff in H as [Hd Hs].
  cbn [map storeElems]. rewrite (store_Draw ctx d _ Hd), (IH _ Hs).
  reflexivity.
Qed.

Lemma store_PropoDraws (ctx : context) (ds old : list PropoDraw) :
  forallb plainPropoDraw ds = true ->
  storeElems ctx (map jsonPropoDraw ds) old = (ds, None).
Proof.
  revert old. induction ds as [|d ds IH]; intros old H; [reflexivity|].
  cbn [forallb] in H. apply andb_true_iff in H as [Hd Hs].
  cbn [map storeElems]. rewrite (store_PropoDraw ctx d _ Hd), (IH _ Hs).
  reflexivity.
Qed.

Lemma store_one (d : Draw) (x : draws) :
  plainDraw d = true ->
  store ("", []) (jsonOne (jsonDraw d)) x = (mkDraws d, None).
Proof.
  intros H. unfold jsonOne.
  cbn [store draws_Unmarshaler storeStruct storeMembers].
  cbn [findField find fst snd String.eqb Ascii.eqb Bool.eqb andb tagged].
  rewrite (store_Draw _ d _ H). reflexivity.
Qed.

Lemma store_propoOne (d : PropoDraw) (x : propoDraws) :
  plainPropoDraw d = true ->
  store ("", []) (jsonOne (jsonPropoDraw d)) x = (mkPropoDraws d, None).
Proof.
  intros H. unfold jsonOne.
  cbn [store propoDraws_Unmarshaler storeStruct storeMembers].
  cbn [findField find fst snd String.eqb Ascii.eqb Bool.eqb andb tagged].
  rewrite (store_PropoDraw _ d _ H). reflexivity.
Qed.

Lemma store_many (ds : list Draw) (x : drawsByDate) :
  forallb plainDraw ds = true ->
  store ("", []) (jsonMany (map jsonDraw ds)) x
  = (mkDrawsByDate (mkDrawsByDate_Draws (Some ds)), None).
Proof.
  intros H. unfold jsonMany.
  cbn [store drawsByDate_Unmarshaler storeStruct storeMembers].
  cbn [findField find fst snd String.eqb Ascii.eqb Bool.eqb andb tagged].
  cbn [store drawsByDate_Draws_Unmarshaler storeStruct storeMembers].
  cbn [findField find fst snd String.eqb Ascii.eqb Bool.eqb andb tagged].
  cbn [store slice_Unmarshaler].
  rewrite (store_Draws _ ds _ H). reflexivity.
Qed.

Lemma store_propoMany (ds : list PropoDraw) (x : propoDrawsByDate) :
  forallb plainPropoDraw ds = true ->
  store ("", []) (jsonMany (map jsonPropoDraw ds)) x
  = (mkPropoDrawsByDate (mkPropoDrawsByDate_Draws (Some ds)), None).
Proof.
  intros H. unfold jsonMany.
  cbn [store propoDrawsByDate_Unmarshaler storeStruct storeMembers].
  cbn [findField find fst snd String.eqb Ascii.eqb Bool.eqb andb tagged].
  cbn [store propoDrawsByDate_Draws_Unmarshaler storeStruct storeMembers].
  cbn [findField find fst snd String.eqb Ascii.eqb Bool.eqb andb tagged].
  cbn [store slice_Unmarshaler].
  rewrite (store_PropoDraws _ ds _ H). reflexivity.
Qed.

(** ** The JSON text of a draw is read back as the draw *)

Lemma scalars_flat (vs : list value) :
  Forall (fun v => depth v = 0%nat) vs ->
  fold_right (fun v n => Nat.max (depth v) n) 0%nat vs = 0%nat.
Proof.
  induction 1 as [|v vs Hv _ IH]; [reflexivity|].
  cbn [fold_right]. rewrite Hv, IH. reflexivity.
Qed.

Lemma depth_results (A : Type) (f : A -> value) (rs : option (list A)) :
  (forall a, depth (f a) = 0%nat) ->
  (depth match rs with
         | Some rs => Array (map f rs)
         | None => Null
         end <= 1)%nat.
Proof.
  intros H. destruct rs as [rs|]; cbn [depth]; [|lia].
  rewrite scalars_flat; [lia|].
  apply Forall_forall. intros v Hv. apply in_map_iff in Hv as [a [<- _]].
  apply H.
Qed.

Lemma depth_jsonDraw (d : Draw) : (depth (jsonDraw d) <= 2)%nat.
Proof.
  pose proof (depth_results Z jsonInt (Results d) (fun _ => eq_refl)) as H.
  unfold jsonDraw, drawMembers, jsonInt in *. cbn [depth fold_right snd]. lia.
Qed.

Lemma depth_jsonPropoDraw (d : PropoDraw) : (depth (jsonPropoDraw d) <= 2)%nat.
Proof.
  pose proof (depth_results string Str (PropoResults d) (fun _ => eq_refl))
    as H.
  unfold jsonPropoDraw, propoDrawMembers, jsonInt in *. cbn [depth fold_right snd]. lia.
Qed.

Lemma depth_list (A : Type) (f : A -> value) (n : nat) (l : list A) :
  (forall a, depth (f a) <= n)%nat ->
  (fold_right (fun v m => Nat.max (depth v) m) 0 (map f l) <= n)%nat.
Proof.
  intros H. induction l as [|a l IH]; cbn [map fold_right]; [lia|].
  specialize (H a). lia.
Qed.

Lemma simple_jsonDraw (d : Draw) :
  plainDraw d = true -> simple (jsonDraw d) = true.
Proof.
  unfold plainDraw. intros H.
  apply andb_true_iff in H as [H _]. apply andb_true_iff in H as [Ht _].
  unfold jsonDraw, drawMembers, jsonInt. cbn [simple forallb fst snd].
  rewrite Ht, integerLiteral_Itoa.
  change (plainText "drawTime") with true.
  change (plainText "drawNo") with true.
  change (plainText "results") with true.
  destruct (Results d) as [rs|]; [|reflexivity]. cbn [simple andb].
  rewrite andb_true_r. apply forallb_forall. intros v Hv.
  apply in_map_iff in Hv as [r [<- _]]. apply integerLiteral_Itoa.
Qed.

Lemma simple_jsonPropoDraw (d : PropoDraw) :
  plainPropoDraw d = true -> simple (jsonPropoDraw d) = true.
Proof.
  unfold plainPropoDraw. intros H.
  apply andb_true_iff in H as [H Hr]. apply andb_true_iff in H as [Ht _].
  unfold jsonPropoDraw, propoDrawMembers, jsonInt.
  cbn [simple forallb fst snd].
  rewrite Ht, integerLiteral_Itoa.
  change (plainText "drawTime") with true.
  change (plainText "drawNo") with true.
  change (plainText "results") with true.
  destruct (PropoResults d) as [rs|]; [|reflexivity]. cbn [simple andb].
  rewrite andb_true_r. apply forallb_forall. intros v Hv.
  apply in_map_iff in Hv as [r [<- Hr']].
  rewrite forallb_forall in Hr. apply (Hr r Hr').
Qed.

Lemma simple_list (A : Type) (f : A -> value) (p : A -> bool) (l : list A) :
  (forall a, p a = true -> simple (f a) = true) ->
  forallb p l = true -> forallb simple (map f l) = true.
Proof.
  intros H P. rewrite forallb_forall in P. apply forallb_forall.
  intros v Hv. apply in_map_iff in Hv as [a [<- Ha]]. apply H, P, Ha.
Qed.

(** What the decoder makes of a stream that starts with the text of an
    envelope. *)
Lemma decode_envelope T (U : Unmarshaler T) (v : value) (x x' : T)
  (t : string) failure :
  simple v = true ->
  (0 < depth v)%nat ->
  (Z.of_nat (depth v) <= maxNestingDepth)%Z ->
  store ("", []) v x = (x', None) ->
  decodeStream (encode v ++ t) failure (pointer x) = (pointer x', None).
Proof.
  intros S P D St. unfold decodeStream.
  rewrite (scanStream_end _ failure v).
  - rewrite St. reflexivity.
  - apply scan_document; assumption.
Qed.

Lemma lookup_envelope T R (U : Unmarshaler T) (unwrap : T -> option R)
  path st resp (v : value) (x : T) (t : string) :
  receives st path resp ->
  success resp = true ->
  io.content (http.Body resp) = encode v ++ t ->
  simple v = true ->
  (0 < depth v)%nat /\ (Z.of_nat (depth v) <= maxNestingDepth)%Z ->
  store ("", []) v (new T) = (x, None) ->
  fst (lookup unwrap path st) = (unwrap x, Some resp, None).
Proof.
  intros Rc S C Sv [P D] St.
  apply (lookup_success T R U unwrap path st resp x Rc S).
  rewrite C. apply (decode_envelope T U v (new T) x t _ Sv P D St).
Qed.

Lemma envelope_one (v : value) :
  simple v = true ->
  (Z.of_nat (depth v) < maxNestingDepth)%Z ->
  simple (jsonOne v) = true
  /\ (0 < depth (jsonOne v))%nat
  /\ (Z.of_nat (depth (jsonOne v)) <= maxNestingDepth)%Z.
Proof.
  intros S D. unfold jsonOne. cbn [simple forallb fst snd depth fold_right].
  rewrite S. repeat split; lia.
Qed.

Lemma envelope_many (vs : list value) :
  forallb simple vs = true ->
  (fold_right (fun v m => Nat.max (depth v) m) 0 vs <= 2)%nat ->
  simple (jsonMany vs) = true
  /\ (0 < depth (jsonMany vs))%nat
  /\ (Z.of_nat (depth (jsonMany vs)) <= maxNestingDepth)%Z.
Proof.
  intros S D. unfold jsonMany. cbn [simple forallb fst snd depth fold_right].
  rewrite S. unfold maxNestingDepth. repeat split; lia.
Qed.

(** X14.  A lookup of one draw gives back the draw that the body holds.
    For every draw with a time of plain text and numbers of 64 bits, when
    the answer has a successful status and its body starts with the JSON
    text of the envelope of that draw, [Latest] and [ByNumber] return that
    very draw, with the response and a nil error; so do [PropoLatest] and
    [PropoByNumber] for every Propo draw with results of plain text. *)
Theorem single_draw_read_back :
  forall (st : State) (resp : http.Response) (t : string),
    success resp = true ->
    let e := Endpoint (Draws (self st)) in
    (forall d : Draw,
       plainDraw d = true ->
       io.content (http.Body resp) = encode (jsonOne (jsonDraw d)) ++ t ->
       (forall g, receives st (latestPath e g) resp ->
          fst (Latest g st) = (Some d, Some resp, None))
       /\ (forall g n, receives st (numberPath e g n) resp ->
             fst (ByNumber g n st) = (Some d, Some resp, None)))
    /\ (forall d : PropoDraw,
          plainPropoDraw d = true ->
          io.content (http.Body resp)
          = encode (jsonOne (jsonPropoDraw d)) ++ t ->
          (forall g, receives st (latestPath e g) resp ->
             fst (PropoLatest g st) = (Some d, Some resp, None))
          /\ (forall g n, receives st (numberPath e g n) resp ->
                fst (PropoByNumber g n st) = (Some d, Some resp, None))).
Proof.
  intros st resp t S e. split.
  - intros d P C.
    assert (Dd : (Z.of_nat (depth (jsonDraw d)) < maxNestingDepth)%Z)
      by (pose proof (depth_jsonDraw d); unfold maxNestingDepth; lia).
    destruct (envelope_one _ (simple_jsonDraw d P) Dd) as [Sv D].
    split; intros; as_lookup;
      apply (lookup_envelope draws Draw _ (fun x => Some (draws_Draw x))
               _ st resp (jsonOne (jsonDraw d)) (mkDraws d) t);
      try assumption;
      apply (store_one d _ P).
  - intros d P C.
    assert (Dd : (Z.of_nat (depth (jsonPropoDraw d)) < maxNestingDepth)%Z)
      by (pose proof (depth_jsonPropoDraw d); unfold maxNestingDepth; lia).
    destruct (envelope_one _ (simple_jsonPropoDraw d P) Dd) as [Sv D].
    split; intros; as_lookup;
      apply (lookup_envelope propoDraws PropoDraw _
               (fun x => Some (propoDraws_Draw x))
               _ st resp (jsonOne (jsonPropoDraw d)) (mkPropoDraws d) t);
      try assumption;
      apply (store_propoOne d _ P).
Qed.

Lemma single_draw_read_back_witness :
  encode (jsonOne (jsonDraw draw1873)) = body1873
  /\ fst (ByNumber Joker 1873
            (mock 200 (io.mkReader [body1873; nl] None)))
     = (Some draw1873,
        Some (http.mkResponse 200 (io.mkReader [body1873; nl] None)
                (opapGet "/DrawsRestServices/joker/1873.json")),
        None).
Proof.
  split; [reflexivity|].
  refine (proj2 (proj1 (single_draw_read_back
                          (mock 200 (io.mkReader [body1873; nl] None))
                          (http.mkResponse 200
                             (io.mkReader [body1873; nl] None)
                             (opapGet "/DrawsRestServices/joker/1873.json"))
                          nl eq_refl)
                   draw1873 eq_refl eq_refl) Joker 1873 _).
  exists (opapGet "/DrawsRestServices/joker/1873.json"). split; reflexivity.
Defined.

(** X15.  A lookup by date gives back the draws that the body holds.  For
    every list of draws with times of plain text and numbers of 64 bits,
    when the answer has a successful status and its body starts with the
    JSON text of the envelope of those draws, [ByDate] returns that very
    list, in order and not nil even when it is empty, with the response
    and a nil error; so does [PropoByDate] for Propo draws. *)
Theorem draws_of_date_read_back :
  forall (st : State) (resp : http.Response) (t : string),
    success resp = true ->
    let e := Endpoint (Draws (self st)) in
    (forall ds : list Draw,
       forallb plainDraw ds = true ->
       io.content (http.Body resp)
       = encode (jsonMany (map jsonDraw ds)) ++ t ->
       forall g d m y, receives st (datePath e g d m y) resp ->
         fst (ByDate g d m y st) = (Some ds, Some resp, None))
    /\ (forall ds : list PropoDraw,
          forallb plainPropoDraw ds = true ->
          io.content (http.Body resp)
          = encode (jsonMany (map jsonPropoDraw ds)) ++ t ->
          forall g d m y, receives st (datePath e g d m y) resp ->
            fst (PropoByDate g d m y st) = (Some ds, Some resp, None)).
Proof.
  intros st resp t S e. split.
  - intros ds P C g d m y Rc.
    destruct (envelope_many (map jsonDraw ds)
                (simple_list Draw jsonDraw plainDraw ds simple_jsonDraw P)
                (depth_list Draw jsonDraw 2 ds depth_jsonDraw)) as [Sv D].
    as_lookup.
    apply (lookup_envelope drawsByDate (list Draw) _
             (fun x => drawsByDate_Draw (drawsByDate_Draws_ x))
             _ st resp (jsonMany (map jsonDraw ds))
             (mkDrawsByDate (mkDrawsByDate_Draws (Some ds))) t);
      try assumption.
    apply (store_many ds _ P).
  - intros ds P C g d m y Rc.
    destruct (envelope_many (map jsonPropoDraw ds)
                (simple_list PropoDraw jsonPropoDraw plainPropoDraw ds
                   simple_jsonPropoDraw P)
                (depth_list PropoDraw jsonPropoDraw 2 ds depth_jsonPropoDraw))
      as [Sv D].
    as_lookup.
    apply (lookup_envelope propoDrawsByDate (list PropoDraw) _
             (fun x => propoDrawsByDate_Draw (propoDrawsByDate_Draws_ x))
             _ st resp (jsonMany (map jsonPropoDraw ds))
             (mkPropoDrawsByDate (mkPropoDrawsByDate_Draws (Some ds))) t);
      try assumption.
    apply (store_propoMany ds _ P).
Qed.

Lemma draws_of_date_read_back_witness :
  encode (jsonMany (map jsonDraw [draw1873])) = bodyDate1873
  /\ fst (ByDate Joker 24 12 2017
            (mock 200 (io.mkReader [bodyDate1873] None)))
     = (Some [draw1873],
        Some (http.mkResponse 200 (io.mkReader [bodyDate1873] None)
                (opapGet
                   "/DrawsRestServices/joker/drawDate/24-12-2017.json")),
        None).
Proof.
  split; [reflexivity|].
  refine (proj1 (draws_of_date_read_back
                   (mock 200 (io.mkReader [bodyDate1873] None))
                   (http.mkResponse 200 (io.mkReader [bodyDate1873] None)
                      (opapGet
                         "/DrawsRestServices/joker/drawDate/24-12-2017.json"))
                   "" eq_refl)
            [draw1873] eq_refl eq_refl Joker 24 12 2017 _).
  exists (opapGet "/DrawsRestServices/joker/drawDate/24-12-2017.json").
  split; reflexivity.
Defined.

(** ** Keys: unknown ones are skipped, known ones match under folding *)

Lemma findField_none T (fields : list (field T)) (k : string) :
  existsb (fun f => String.eqb (foldName (fst f)) (foldName k)) fields
  = false ->
  findField fields k = None.
Proof.
  intros H. unfold findField.
  assert (E : find (fun f => String.eqb (fst f) k) fields = None).
  { induction fields as [|f fields IH]; [reflexivity|].
    cbn [existsb] in H. apply orb_false_iff in H as [Hf Hs].
    cbn [find]. destruct (String.eqb_spec (fst f) k) as [E|_].
    - rewrite E, String.eqb_refl in Hf. discriminate Hf.
    - apply IH, Hs. }
  rewrite E. clear E.
  induction fields as [|f fields IH]; [reflexivity|].
  cbn [existsb] in H. apply orb_false_iff in H as [Hf Hs].
  cbn [find]. rewrite Hf. apply IH, Hs.
Qed.

Lemma storeMembers_skip T (name : string) (fields : list (field T))
  (ctx : context) (pre post : list (string * value)) (k : string)
  (v : value) (x : T) :
  findField fields k = None ->
  storeMembers name fields ctx (pre ++ (k, v) :: post) x
  = storeMembers name fields ctx (pre ++ post) x.
Proof.
  intros H. revert x. induction pre as [|[k' v'] pre IH]; intros x.
  - cbn [app storeMembers]. rewrite H.
    destruct (storeMembers name fields ctx post x) as [x2 e2]. reflexivity.
  - cbn [app storeMembers].
    destruct (match findField fields k' with
              | Some (fname, set) => set (name, (snd ctx ++ [fname])%list) v' x
              | None => (x, None)
              end) as [x1 e1].
    rewrite IH. reflexivity.
Qed.

Lemma fold_injective T (fields : list (field T)) (f g : field T) :
  NoDup (map (fun f => foldName (fst f)) fields) ->
  In f fields -> In g fields ->
  foldName (fst f) = foldName (fst g) -> f = g.
Proof.
  induction fields as [|a fields IH]; [intros _ []|].
  cbn [map]. intros N Hf Hg E. apply NoDup_cons_iff in N as [Na N].
  destruct Hf as [<- | Hf], Hg as [<- | Hg].
  - reflexivity.
  - exfalso. apply Na. rewrite E.
    apply (in_map (fun f => foldName (fst f)) _ _ Hg).
  - exfalso. apply Na. rewrite <- E.
    apply (in_map (fun f => foldName (fst f)) _ _ Hf).
  - apply (IH N Hf Hg E).
Qed.

Lemma findField_fold T (fields : list (field T)) (k : string) (f : field T) :
  NoDup (map (fun f => foldName (fst f)) fields) ->
  In f fields ->
  foldName k = foldName (fst f) ->
  findField fields k = Some f.
Proof.
  intros N Hf E. unfold findField.
  destruct (find (fun f => String.eqb (fst f) k) fields) as [g|] eqn:X.
  - apply find_some in X as [Hg Eg]. apply String.eqb_eq in Eg.
    f_equal. apply (fold_injective T fields g f N Hg Hf). congruence.
  - destruct (find (fun f => String.eqb (foldName (fst f)) (foldName k))
                fields) as [g|] eqn:Y.
    + apply find_some in Y as [Hg Eg]. apply String.eqb_eq in Eg.
      f_equal. apply (fold_injective T fields g f N Hg Hf). congruence.
    + exfalso. pose proof (find_none _ _ Y f Hf) as C. cbn beta in C.
      rewrite E, String.eqb_refl in C. discriminate C.
Qed.

Lemma insert_member (pre post : list (string * value)) (k : string)
  (v : value) :
  simple (Object (pre ++ post)) = true ->
  plainText k = true ->
  simple v = true ->
  simple (Object (pre ++ (k, v) :: post)) = true
  /\ (depth (Object (pre ++ (k, v) :: post))
      <= Nat.max (depth (Object (pre ++ post))) (S (depth v)))%nat.
Proof.
  intros S K Sv. cbn [simple depth] in *. split.
  - rewrite forallb_app in *. cbn [forallb fst snd].
    apply andb_true_iff in S as [-> ->]. rewrite K, Sv. reflexivity.
  - induction pre as [|a pre IH]; cbn [app fold_right snd] in *.
    + lia.
    + apply andb_true_iff in S as [_ S]. specialize (IH S). lia.
Qed.

Lemma existsb_mapped A B (f : A -> B) (p : B -> bool) (l : list A) :
  existsb p (map f l) = existsb (fun a => p (f a)) l.
Proof.
  induction l as [|a l IH]; [reflexivity|]. cbn [map existsb].
  rewrite IH. reflexivity.
Qed.

Lemma unknown_field T (fields : list (field T)) (k : string) :
  map fst fields = drawTags -> knownKey k = false ->
  findField fields k = None.
Proof.
  intros M H. apply findField_none. unfold knownKey in H. rewrite <- M in H.
  rewrite existsb_mapped in H. exact H.
Qed.

Lemma store_Draw_extra (ctx : context) (d x : Draw)
  (pre post : list (string * value)) (k : string) (v : value) :
  plainDraw d = true ->
  drawMembers d = (pre ++ post)%list ->
  knownKey k = false ->
  store ctx (Object (pre ++ (k, v) :: post)) x = (d, None).
Proof.
  intros P M K. cbn [store Draw_Unmarshaler storeStruct].
  rewrite storeMembers_skip by (apply unknown_field; [reflexivity | exact K]).
  rewrite <- M. exact (store_Draw ctx d x P).
Qed.

Lemma store_PropoDraw_extra (ctx : context) (d x : PropoDraw)
  (pre post : list (string * value)) (k : string) (v : value) :
  plainPropoDraw d = true ->
  propoDrawMembers d = (pre ++ post)%list ->
  knownKey k = false ->
  store ctx (Object (pre ++ (k, v) :: post)) x = (d, None).
Proof.
  intros P M K. cbn [store PropoDraw_Unmarshaler storeStruct].
  rewrite storeMembers_skip by (apply unknown_field; [reflexivity | exact K]).
  rewrite <- M. exact (store_PropoDraw ctx d x P).
Qed.

Lemma store_envelope T D (U : Unmarshaler T) (UD : Unmarshaler D)
  (name tname : string) (get : T -> D) (set : D -> T -> T)
  (v : value) (d : D) (x : T) :
  (forall ctx y, store ctx v y = (d, None)) ->
  storeStruct name tname [tagged "draw" get set] ("", []) (jsonOne v) x
  = (set d x, None).
Proof.
  intros H. unfold jsonOne. cbn [storeStruct storeMembers].
  cbn [findField find fst snd String.eqb Ascii.eqb Bool.eqb andb tagged].
  rewrite H. reflexivity.
Qed.

(** X16.  A member of the draw object whose key is not a field of the
    draw, even under case folding, is skipped, whatever its value and its
    place among the members: with such a member added to the JSON text of
    a draw, [Latest] and [ByNumber] (and the Propo lookups for a Propo
    draw) still return that very draw and a nil error. *)
Theorem unknown_member_skipped :
  forall (st : State) (resp : http.Response) (t k : string) (v : value)
         (pre post : list (string * value)),
    success resp = true ->
    plainText k = true ->
    knownKey k = false ->
    simple v = true ->
    (Z.of_nat (depth v) + 2 <= maxNestingDepth)%Z ->
    io.content (http.Body resp)
    = encode (jsonOne (Object (pre ++ (k, v) :: post))) ++ t ->
    let e := Endpoint (Draws (self st)) in
    (forall d : Draw,
       plainDraw d = true ->
       drawMembers d = (pre ++ post)%list ->
       (forall g, receives st (latestPath e g) resp ->
          fst (Latest g st) = (Some d, Some resp, None))
       /\ (forall g n, receives st (numberPath e g n) resp ->
             fst (ByNumber g n st) = (Some d, Some resp, None)))
    /\ (forall d : PropoDraw,
          plainPropoDraw d = true ->
          propoDrawMembers d = (pre ++ post)%list ->
          (forall g, receives st (latestPath e g) resp ->
             fst (PropoLatest g st) = (Some d, Some resp, None))
          /\ (forall g n, receives st (numberPath e g n) resp ->
                fst (PropoByNumber g n st) = (Some d, Some resp, None))).
Proof.
  intros st resp t k v pre post S K U Sv Dv C e. split.
  - intros d P M.
    pose proof (simple_jsonDraw d P) as Sd. pose proof (depth_jsonDraw d) as Dd.
    unfold jsonDraw in Sd, Dd. rewrite M in Sd, Dd.
    destruct (insert_member pre post k v Sd K Sv) as [So Do].
    assert (Dx : (Z.of_nat (depth (Object (pre ++ (k, v) :: post)))
                  < maxNestingDepth)%Z) by (unfold maxNestingDepth in *; lia).
    destruct (envelope_one _ So Dx) as (Se & Pe & De).
    split; intros; as_lookup;
      apply (lookup_envelope draws Draw _ (fun x => Some (draws_Draw x))
               _ st resp (jsonOne (Object (pre ++ (k, v) :: post)))
               (mkDraws d) t);
      try assumption; try (split; assumption);
      apply (store_envelope draws Draw _ _ "draws" "opap.draws" draws_Draw
               (fun y _ => mkDraws y) _ d);
      intros; apply store_Draw_extra; assumption.
  - intros d P M.
    pose proof (simple_jsonPropoDraw d P) as Sd.
    pose proof (depth_jsonPropoDraw d) as Dd.
    unfold jsonPropoDraw in Sd, Dd. rewrite M in Sd, Dd.
    destruct (insert_member pre post k v Sd K Sv) as [So Do].
    assert (Dx : (Z.of_nat (depth (Object (pre ++ (k, v) :: post)))
                  < maxNestingDepth)%Z) by (unfold maxNestingDepth in *; lia).
    destruct (envelope_one _ So Dx) as (Se & Pe & De).
    split; intros; as_lookup;
      apply (lookup_envelope propoDraws PropoDraw _
               (fun x => Some (propoDraws_Draw x))
               _ st resp (jsonOne (Object (pre ++ (k, v) :: post)))
               (mkPropoDraws d) t);
      try assumption; try (split; assumption);
      apply (store_envelope propoDraws PropoDraw _ _ "propoDraws"
               "opap.propoDraws" propoDraws_Draw
               (fun y _ => mkPropoDraws y) _ d);
      intros; apply store_PropoDraw_extra; assumption.
Qed.

Lemma unknown_member_skipped_witness :
  let prizes := Object [("first", Array [Number "1"; Number "2"])] in
  let body :=
    encode (jsonOne (Object ([("drawTime", Str "24-12-2017T22:00:00")]
                             ++ ("prizes", prizes)
                                :: [("drawNo", Number "1873");
                                    ("results",
                                     Array [Number "40"; Number "13";
                                            Number "1"; Number "24";
                                            Number "15"; Number "8"])])%list))
  in
  fst (Latest Joker (mock 200 (io.mkReader [body] None)))
  = (Some draw1873,
     Some (http.mkResponse 200 (io.mkReader [body] None)
             (opapGet "/DrawsRestServices/joker/last.json")),
     None).
Proof.
  intros prizes body.
  refine (proj1 (proj1 (unknown_member_skipped
                          (mock 200 (io.mkReader [body] None))
                          (http.mkResponse 200 (io.mkReader [body] None)
                             (opapGet "/DrawsRestServices/joker/last.json"))
                          "" "prizes" prizes
                          [("drawTime", Str "24-12-2017T22:00:00")]
                          [("drawNo", Number "1873");
                           ("results",
                            Array [Number "40"; Number "13"; Number "1";
                                   Number "24"; Number "15"; Number "8"])]
                          eq_refl eq_refl eq_refl eq_refl _ eq_refl)
                   draw1873 eq_refl eq_refl) Joker _).
  - vm_compute. discriminate.
  - exists (opapGet "/DrawsRestServices/joker/last.json"). split; reflexivity.
Defined.

Lemma draw_fields_distinct T (fields : list (field T)) :
  map fst fields = drawTags ->
  NoDup (map (fun f => foldName (fst f)) fields).
Proof.
  intros M.
  assert (E : map (fun f => foldName (fst f)) fields
              = map foldName (map fst fields)) by (rewrite map_map; reflexivity).
  rewrite E, M. repeat constructor; cbn; intuition discriminate.
Qed.

Lemma store_Draw_keys (ctx : context) (d x : Draw) (k1 k2 k3 : string) :
  plainDraw d = true ->
  foldName k1 = foldName "drawTime" ->
  foldName k2 = foldName "drawNo" ->
  foldName k3 = foldName "results" ->
  store ctx (Object (combine [k1; k2; k3] (map snd (drawMembers d)))) x
  = (d, None).
Proof.
  unfold plainDraw. intros H F1 F2 F3.
  apply andb_true_iff in H as [H Hr]. apply andb_true_iff in H as [_ Hn].
  destruct d as [time no results]. cbn [DrawTime DrawNo Results] in *.
  unfold drawMembers. cbn [DrawTime DrawNo Results map snd combine].
  cbn [store Draw_Unmarshaler storeStruct storeMembers].
  repeat match goal with
  | |- context [findField (?a :: ?b :: ?c :: nil) k1] =>
      rewrite (findField_fold _ (a :: b :: c :: nil) k1 a
                 (draw_fields_distinct _ (a :: b :: c :: nil) eq_refl) (or_introl eq_refl) F1)
  | |- context [findField (?a :: ?b :: ?c :: nil) k2] =>
      rewrite (findField_fold _ (a :: b :: c :: nil) k2 b
                 (draw_fields_distinct _ (a :: b :: c :: nil) eq_refl)
                 (or_intror (or_introl eq_refl)) F2)
  | |- context [findField (?a :: ?b :: ?c :: nil) k3] =>
      rewrite (findField_fold _ (a :: b :: c :: nil) k3 c
                 (draw_fields_distinct _ (a :: b :: c :: nil) eq_refl)
                 (or_intror (or_intror (or_introl eq_refl))) F3)
  end.
  cbn [fst snd tagged]. cbn [store string_Unmarshaler].
  rewrite (store_int _ no _ Hn).
  destruct results as [rs|]; cbn [store slice_Unmarshaler];
    [rewrite (store_ints _ rs _ Hr)|]; reflexivity.
Qed.

Lemma store_PropoDraw_keys (ctx : context) (d x : PropoDraw)
  (k1 k2 k3 : string) :
  plainPropoDraw d = true ->
  foldName k1 = foldName "drawTime" ->
  foldName k2 = foldName "drawNo" ->
  foldName k3 = foldName "results" ->
  store ctx (Object (combine [k1; k2; k3] (map snd (propoDrawMembers d)))) x
  = (d, None).
Proof.
  unfold plainPropoDraw. intros H F1 F2 F3.
  apply andb_true_iff in H as [H Hr]. apply andb_true_iff in H as [_ Hn].
  destruct d as [time no results].
  cbn [PropoDrawTime PropoDrawNo PropoResults] in *.
  unfold propoDrawMembers.
  cbn [PropoDrawTime PropoDrawNo PropoResults map snd combine].
  cbn [store PropoDraw_Unmarshaler storeStruct storeMembers].
  repeat match goal with
  | |- context [findField (?a :: ?b :: ?c :: nil) k1] =>
      rewrite (findField_fold _ (a :: b :: c :: nil) k1 a
                 (draw_fields_distinct _ (a :: b :: c :: nil) eq_refl)
                 (or_introl eq_refl) F1)
  | |- context [findField (?a :: ?b :: ?c :: nil) k2] =>
      rewrite (findField_fold _ (a :: b :: c :: nil) k2 b
                 (draw_fields_distinct _ (a :: b :: c :: nil) eq_refl)
                 (or_intror (or_introl eq_refl)) F2)
  | |- context [findField (?a :: ?b :: ?c :: nil) k3] =>
      rewrite (findField_fold _ (a :: b :: c :: nil) k3 c
                 (draw_fields_distinct _ (a :: b :: c :: nil) eq_refl)
                 (or_intror (or_intror (or_introl eq_refl))) F3)
  end.
  cbn [fst snd tagged]. cbn [store string_Unmarshaler].
  rewrite (store_int _ no _ Hn).
  destruct results as [rs|]; cbn [store slice_Unmarshaler];
    [rewrite (store_texts _ rs _)|]; reflexivity.
Qed.

Lemma rekeyed (ms : list (string * value)) :
  forall ks : list string,
    simple (Object ms) = true ->
    forallb plainText ks = true ->
    simple (Object (combine ks (map snd ms))) = true
    /\ (depth (Object (combine ks (map snd ms))) <= depth (Object ms))%nat.
Proof.
  cbn [simple depth].
  induction ms as [|[k v] ms IH]; intros ks S K.
  - destruct ks; cbn [map combine forallb fold_right]; split; auto.
  - destruct ks as [|k' ks].
    + cbn [combine forallb fold_right]. split; [reflexivity | lia].
    + cbn [forallb fst snd] in S, K.
      apply andb_true_iff in S as [Skv S]. apply andb_true_iff in Skv as [_ Sv].
      apply andb_true_iff in K as [Kk K].
      destruct (IH ks S K) as [S' D'].
      cbn [map combine forallb fold_right fst snd]. rewrite Kk, Sv, S'.
      split; [reflexivity | lia].
Qed.

(** X17.  The keys of the draw object are matched with the fields of the
    draw without regard to case: with keys of plain text equal to
    [drawTime], [drawNo] and [results] under case folding in place of
    these, [Latest] and [ByNumber] (and the Propo lookups for a Propo
    draw) return the very draw that the body holds, and a nil error. *)
Theorem keys_match_under_folding :
  forall (st : State) (resp : http.Response) (t k1 k2 k3 : string),
    success resp = true ->
    forallb plainText [k1; k2; k3] = true ->
    foldName k1 = foldName "drawTime" ->
    foldName k2 = foldName "drawNo" ->
    foldName k3 = foldName "results" ->
    let e := Endpoint (Draws (self st)) in
    (forall d : Draw,
       plainDraw d = true ->
       io.content (http.Body resp)
       = encode (jsonOne (Object (combine [k1; k2; k3]
                                    (map snd (drawMembers d))))) ++ t ->
       (forall g, receives st (latestPath e g) resp ->
          fst (Latest g st) = (Some d, Some resp, None))
       /\ (forall g n, receives st (numberPath e g n) resp ->
             fst (ByNumber g n st) = (Some d, Some resp, None)))
    /\ (forall d : PropoDraw,
          plainPropoDraw d = true ->
          io.content (http.Body resp)
          = encode (jsonOne (Object (combine [k1; k2; k3]
                                       (map snd (propoDrawMembers d)))))
            ++ t ->
          (forall g, receives st (latestPath e g) resp ->
             fst (PropoLatest g st) = (Some d, Some resp, None))
          /\ (forall g n, receives st (numberPath e g n) resp ->
                fst (PropoByNumber g n st) = (Some d, Some resp, None))).
Proof.
  intros st resp t k1 k2 k3 S K F1 F2 F3 e. split.
  - intros d P C.
    destruct (rekeyed (drawMembers d) [k1; k2; k3] (simple_jsonDraw d P) K)
      as [So Do].
    pose proof (depth_jsonDraw d) as Dd. unfold jsonDraw in Dd.
    assert (Dx : (Z.of_nat (depth (Object (combine [k1; k2; k3]
                                             (map snd (drawMembers d)))))
                  < maxNestingDepth)%Z) by (unfold maxNestingDepth; lia).
    destruct (envelope_one _ So Dx) as (Se & Pe & De).
    split; intros; as_lookup;
      apply (lookup_envelope draws Draw _ (fun x => Some (draws_Draw x))
               _ st resp
               (jsonOne (Object (combine [k1; k2; k3]
                                   (map snd (drawMembers d)))))
               (mkDraws d) t);
      try assumption; try (split; assumption);
      apply (store_envelope draws Draw _ _ "draws" "opap.draws" draws_Draw
               (fun y _ => mkDraws y) _ d);
      intros; apply store_Draw_keys; assumption.
  - intros d P C.
    destruct (rekeyed (propoDrawMembers d) [k1; k2; k3]
                (simple_jsonPropoDraw d P) K) as [So Do].
    pose proof (depth_jsonPropoDraw d) as Dd. unfold jsonPropoDraw in Dd.
    assert (Dx : (Z.of_nat (depth (Object (combine [k1; k2; k3]
                                             (map snd (propoDrawMembers d)))))
                  < maxNestingDepth)%Z) by (unfold maxNestingDepth; lia).
    destruct (envelope_one _ So Dx) as (Se & Pe & De).
    split; intros; as_lookup;
      apply (lookup_envelope propoDraws PropoDraw _
               (fun x => Some (propoDraws_Draw x))
               _ st resp
               (jsonOne (Object (combine [k1; k2; k3]
                                   (map snd (propoDrawMembers d)))))
               (mkPropoDraws d) t);
      try assumption; try (split; assumption);
      apply (store_envelope propoDraws PropoDraw _ _ "propoDraws"
               "opap.propoDraws" propoDraws_Draw
               (fun y _ => mkPropoDraws y) _ d);
      intros; apply store_PropoDraw_keys; assumption.
Qed.

Lemma keys_match_under_folding_witness :
  let body :=
    encode (jsonOne (Object (combine ["DRAWTIME"; "DrawNo"; "Results"]
                               (map snd (drawMembers draw1873))))) in
  fst (Latest Joker (mock 200 (io.mkReader [body] None)))
  = (Some draw1873,
     Some (http.mkResponse 200 (io.mkReader [body] None)
             (opapGet "/DrawsRestServices/joker/last.json")),
     None).
Proof.
  intros body.
  refine (proj1 (proj1 (keys_match_under_folding
                          (mock 200 (io.mkReader [body] None))
                          (http.mkResponse 200 (io.mkReader [body] None)
                             (opapGet "/DrawsRestServices/joker/last.json"))
                          "" "DRAWTIME" "DrawNo" "Results"
                          eq_refl eq_refl eq_refl eq_refl eq_refl)
                   draw1873 eq_refl eq_refl) Joker _).
  exists (opapGet "/DrawsRestServices/joker/last.json"). split; reflexivity.
Defined.

(** ** A new client, and lookups in sequence *)

(** X18.  A client made by [NewClient] asks the service at the default
    base URL, under the endpoint [DrawsRestServices], through the
    [http.Client] it was given (the default one for nil): for a game tag
    of ASCII letters and digits, [Latest] on such a client sends the one
    request GET [http://applications.opap.gr/DrawsRestServices/g/last.json]
    through that [http.Client], and returns the failure of that transport,
    or else the response it gave. *)
Theorem NewClient_lookup :
  forall (h : option http.Client)
         (net : list http.Request -> http.Client -> http.Request -> RoundTrip)
         (g : string),
    plainTag g = true ->
    let req := opapGet ("/DrawsRestServices/" ++ g ++ "/last.json") in
    client (NewClient h) = transport h
    /\ url.String_ (http.URL req)
       = "http://applications.opap.gr/DrawsRestServices/" ++ g ++ "/last.json"
    /\ sent (snd (Latest g (fresh h net))) = [req]
    /\ (forall err, net [] (transport h) req = Failed err ->
          fst (Latest g (fresh h net)) = (None, None, Some err))
    /\ (forall resp, net [] (transport h) req = Responded resp ->
          exists d e, fst (Latest g (fresh h net)) = (d, Some resp, e)).
Proof.
  intros h net g T req.
  assert (P : plainPath (latestPath "DrawsRestServices" g) = true)
    by (apply plainPath_latest; [reflexivity | discriminate | exact T]).
  assert (B : buildRequest (self (fresh h net)) "GET"
                (latestPath "DrawsRestServices" g) None = inr req)
    by (apply (buildRequest_plain (self (fresh h net)) "GET" _ None eq_refl
                 eq_refl P)).
  assert (A : answer (fresh h net) req = net [] (transport h) req)
    by (destruct h; reflexivity).
  repeat match goal with |- _ /\ _ => split end.
  - destruct h; reflexivity.
  - apply (String_plain (latestPath "DrawsRestServices" g)).
    apply (plainPath_parts _ P).
  - rewrite Latest_lookup.
    apply (lookup_sent_one draws Draw _ _ _ (fresh h net) req B).
  - intros err F. rewrite Latest_lookup. apply lookup_failed.
    exists req. split; [exact B | rewrite A; exact F].
  - intros resp R. rewrite Latest_lookup.
    change (Endpoint (Draws (self (fresh h net)))) with "DrawsRestServices".
    unfold lookup. rewrite get_spec, B.
    pose proof (Do_outcome draws _ req (pointer (new draws)) (fresh h net))
      as O.
    rewrite A, R in O. destruct O as (e & v' & ->).
    destruct e; eexists; eexists; reflexivity.
Qed.

Lemma NewClient_lookup_witness :
  sent (snd (Latest Joker
               (fresh (Some (http.mkClient 1 1000))
                  (fun _ c req =>
                     if Z.eqb (http.Timeout c) 1000
                     then Responded (http.mkResponse 200
                                       (io.mkReader ["{}"] None) req)
                     else Failed (errorString "wrong client")))))
  = [opapGet "/DrawsRestServices/joker/last.json"]
  /\ exists d e,
       fst (Latest Joker
              (fresh (Some (http.mkClient 1 1000))
                 (fun _ c req =>
                    if Z.eqb (http.Timeout c) 1000
                    then Responded (http.mkResponse 200
                                      (io.mkReader ["{}"] None) req)
                    else Failed (errorString "wrong client"))))
       = (d,
          Some (http.mkResponse 200 (io.mkReader ["{}"] None)
                  (opapGet "/DrawsRestServices/joker/last.json")),
          e).
Proof.
  destruct (NewClient_lookup (Some (http.mkClient 1 1000))
              (fun _ c req =>
                 if Z.eqb (http.Timeout c) 1000
                 then Responded (http.mkResponse 200
                                   (io.mkReader ["{}"] None) req)
                 else Failed (errorString "wrong client"))
              Joker eq_refl) as (_ & _ & S & _ & R).
  split; [exact S | apply R; reflexivity].
Defined.

(** X19.  Lookups do not interfere: the request a lookup builds is the
    same whatever lookup ran before it, and the log of the transport grows
    by one request a call, in the order of the calls.  After [Latest] and
    then [ByNumber], the requests sent are the two that the first state
    builds for them, and the bodies closed are those of the responses
    returned. *)
Theorem lookups_in_sequence :
  forall (st : State) (g1 g2 : string) (n : Z) (req1 req2 : http.Request),
    let e := Endpoint (Draws (self st)) in
    buildRequest (self st) "GET" (latestPath e g1) None = inr req1 ->
    buildRequest (self st) "GET" (numberPath e g2 n) None = inr req2 ->
    let st1 := snd (Latest g1 st) in
    let st2 := snd (ByNumber g2 n st1) in
    self st2 = self st
    /\ sent st2 = (sent st ++ [req1; req2])%list
    /\ closed st2
       = (closed st + responded (response (fst (Latest g1 st)))
          + responded (response (fst (ByNumber g2 n st1))))%nat.
Proof.
  intros st g1 g2 n req1 req2 e B1 B2 st1 st2.
  assert (S1 : self st1 = self st)
    by (subst st1; rewrite Latest_lookup; apply lookup_self).
  assert (S2 : self st2 = self st1)
    by (subst st2; rewrite ByNumber_lookup; apply lookup_self).
  repeat match goal with |- _ /\ _ => split end.
  - congruence.
  - subst st2. rewrite ByNumber_lookup.
    rewrite (lookup_sent_one draws Draw _ _ _ st1 req2)
      by (rewrite S1; exact B2).
    subst st1. rewrite Latest_lookup.
    rewrite (lookup_sent_one draws Draw _ _ _ st req1 B1).
    rewrite <- app_assoc. reflexivity.
  - subst st2. rewrite ByNumber_lookup, lookup_closed.
    subst st1. rewrite Latest_lookup, lookup_closed. reflexivity.
Qed.

Lemma lookups_in_sequence_witness :
  sent (snd (ByNumber Joker 1873
               (snd (Latest Kino (mock 200 (io.mkReader [body1873] None))))))
  = [opapGet "/DrawsRestServices/kino/last.json";
     opapGet "/DrawsRestServices/joker/1873.json"].
Proof.
  exact (proj1 (proj2 (lookups_in_sequence
                         (mock 200 (io.mkReader [body1873] None))
                         Kino Joker 1873
                         (opapGet "/DrawsRestServices/kino/last.json")
                         (opapGet "/DrawsRestServices/joker/1873.json")
                         eq_refl eq_refl))).
Defined.

(** ** Paths that do not parse *)

Lemma lookup_malformed T R (U : Unmarshaler T) (unwrap : T -> option R)
  path st err :
  url.Parse path = inl err ->
  lookup unwrap path st = ((None, None, Some (UrlError err)), st).
Proof.
  intros P. unfold lookup. rewrite get_spec. unfold buildRequest.
  rewrite P. reflexivity.
Qed.

(** X20.  When the path of a lookup is not a URL that [url.Parse] accepts
    (a game tag with a broken percent escape, say), each of the six
    lookups returns a nil result, a nil response and the parse error, and
    leaves the state as it was: nothing is sent and nothing is closed. *)
Theorem lookups_malformed_path :
  forall (st : State) (err : url.Error),
    let e := Endpoint (Draws (self st)) in
    (forall g, url.Parse (latestPath e g) = inl err ->
       Latest g st = ((None, None, Some (UrlError err)), st)
       /\ PropoLatest g st = ((None, None, Some (UrlError err)), st))
    /\ (forall g n, url.Parse (numberPath e g n) = inl err ->
          ByNumber g n st = ((None, None, Some (UrlError err)), st)
          /\ PropoByNumber g n st = ((None, None, Some (UrlError err)), st))
    /\ (forall g d m y, url.Parse (datePath e g d m y) = inl err ->
          ByDate g d m y st = ((None, None, Some (UrlError err)), st)
          /\ PropoByDate g d m y st
             = ((None, None, Some (UrlError err)), st)).
Proof.
  intros st err e.
  repeat match goal with |- _ /\ _ => split end; intros;
    split; as_lookup; apply lookup_malformed; assumption.
Qed.

Lemma lookups_malformed_path_witness :
  Latest "%zz" refusing
  = ((None, None,
      Some (UrlError
              (url.mkError "parse" "DrawsRestServices/%zz/last.json"
                 (url.EscapeError "%zz")))), refusing)
  /\ Error (UrlError
              (url.mkError "parse" "DrawsRestServices/%zz/last.json"
                 (url.EscapeError "%zz")))
     = "parse " ++ Quote "DrawsRestServices/%zz/last.json"
       ++ ": invalid URL escape " ++ Quote "%zz".
Proof.
  split; [|reflexivity].
  exact (proj1 (proj1 (lookups_malformed_path refusing
                         (url.mkError "parse"
                            "DrawsRestServices/%zz/last.json"
                            (url.EscapeError "%zz")))
                  "%zz" eq_refl)).
Defined.

(** * The tests of the package, replayed *)

Example TestNewClient :
  url.String_ (BaseURL (NewClient None)) = defaultBaseURL
  /\ Endpoint (Draws (NewClient None)) = defaultDrawsEndpoint.
Proof. split; reflexivity. Qed.

Example TestClient_NewRequest :
  exists req,
    fst (NewRequest "GET" "/foo" None refusing) = inr req
    /\ url.String_ (http.URL req) = defaultBaseURL ++ "foo".
Proof. eexists. split; reflexivity. Qed.

Example TestClient_Do :
  requestAndDo "GET" "/" (pointer (new foo)) (setup [("/", (200, bodyFoo))])
  = (Some (serve [("/", (200, bodyFoo))]
             (http.mkRequest "GET"
                (url.mkURL "http" "" None "127.0.0.1:8080" "/" "" false false
                   "" "" "")
                "127.0.0.1:8080" None)),
     None, pointer (mkFoo "baz")).
Proof. reflexivity. Qed.

Example TestClient_Do_notFound :
  exists resp err,
    requestAndDo "GET" "/" (@nilInterface foo)
      (setup [("/", (404, "not found" ++ nl))])
    = (Some resp, Some err, nilInterface)
    /\ http.StatusCode resp = 404
    /\ Error err = "GET http://127.0.0.1:8080/: 404 not found" ++ nl.
Proof. do 2 eexists. repeat split. Qed.

Example TestClient_Do_connectionRefused :
  requestAndDo "GET" "/" (@nilInterface foo) (teardown (setup []))
  = (None, Some (errorString "dial tcp: connection refused"), nilInterface).
Proof. reflexivity. Qed.

Example TestClient_NewRequest_badEndpoint :
  fst (NewRequest "GET" "%foo" None refusing)
  = inl (UrlError (url.mkError "parse" "%foo" (url.EscapeError "%fo"))).
Proof. reflexivity. Qed.

Example TestClient_Do_unexpectedHTML :
  exists resp err,
    requestAndDo "GET" "/" (pointer (new foo))
      (setup [("/DrawsRestServices/", (200, "<html>something broke</html>"))])
    = (Some resp, Some err, pointer (new foo))
    /\ http.StatusCode resp = 404.
Proof. do 2 eexists. split; reflexivity. Qed.

Example TestDrawService_Latest :
  exists resp,
    fst (Latest Joker
           (setup [("/DrawsRestServices/joker/last.json", (200, body1873))]))
    = (Some draw1873, Some resp, None)
    /\ http.Method (http.Request_ resp) = "GET".
Proof. eexists. split; reflexivity. Qed.

Example TestDrawService_Latest_error :
  exists resp,
    fst (Latest Joker
           (setup [("/DrawsRestServices/joker/last.json",
                    (500, "something broke" ++ nl))]))
    = (None, Some resp,
       Some (errorString (brokeText "/DrawsRestServices/joker/last.json")))
    /\ http.StatusCode resp = 500.
Proof. eexists. split; reflexivity. Qed.

Example TestDrawService_Latest_emptyObject :
  exists resp,
    fst (Latest Joker
           (setup [("/DrawsRestServices/joker/last.json", (200, "{}"))]))
    = (Some zeroDraw, Some resp, None).
Proof. eexists. reflexivity. Qed.

Example TestDrawService_ByNumber :
  exists resp,
    fst (ByNumber Joker 1873
           (setup [("/DrawsRestServices/joker/1873.json", (200, body1873))]))
    = (Some draw1873, Some resp, None).
Proof. eexists. reflexivity. Qed.

Example TestDrawService_ByNumber_error :
  exists resp,
    fst (ByNumber Joker 1873
           (setup [("/DrawsRestServices/joker/1873.json",
                    (500, "something broke" ++ nl))]))
    = (None, Some resp,
       Some (errorString (brokeText "/DrawsRestServices/joker/1873.json")))
    /\ http.StatusCode resp = 500.
Proof. eexists. split; reflexivity. Qed.

Example TestDrawService_ByDate :
  exists resp,
    fst (ByDate Joker 24 12 2017
           (setup [("/DrawsRestServices/joker/drawDate/24-12-2017.json",
                    (200, bodyDate1873))]))
    = (Some [draw1873], Some resp, None).
Proof. eexists. reflexivity. Qed.

Example TestDrawService_ByDate_error :
  exists resp err,
    fst (ByDate Joker 24 12 2017
           (setup [("/DrawsRestServices/joker/drawDate/24-12-2017.json",
                    (500, "something broke" ++ nl))]))
    = (None, Some resp, Some err)
    /\ http.StatusCode resp = 500.
Proof. do 2 eexists. split; reflexivity. Qed.

Example TestDrawService_PropoLatest :
  exists resp,
    fst (PropoLatest PropoSat
           (setup [("/DrawsRestServices/proposat/last.json",
                    (200, bodyPropo))]))
    = (Some propoDraw201751, Some resp, None).
Proof. eexists. reflexivity. Qed.

Example TestDrawService_PropoLatest_error :
  exists resp err,
    fst (PropoLatest PropoSat
           (setup [("/DrawsRestServices/proposat/last.json",
                    (500, "something broke" ++ nl))]))
    = (None, Some resp, Some err)
    /\ http.StatusCode resp = 500.
Proof. do 2 eexists. split; reflexivity. Qed.

Example TestDrawService_PropoByNumber :
  exists resp,
    fst (PropoByNumber PropoSat 201751
           (setup [("/DrawsRestServices/proposat/201751.json",
                    (200, bodyPropo))]))
    = (Some propoDraw201751, Some resp, None).
Proof. eexists. reflexivity. Qed.

Example TestDrawService_PropoByNumber_error :
  exists resp err,
    fst (PropoByNumber PropoSat 201751
           (setup [("/DrawsRestServices/proposat/201751.json",
                    (500, "something broke" ++ nl))]))
    = (None, Some resp, Some err)
    /\ http.StatusCode resp = 500.
Proof. do 2 eexists. split; reflexivity. Qed.

Example TestDrawService_PropoByDate :
  exists resp,
    fst (PropoByDate PropoSat 23 12 2017
           (setup [("/DrawsRestServices/proposat/drawDate/23-12-2017.json",
                    (200, bodyDatePropo))]))
    = (Some [propoDraw201751], Some resp, None).
Proof. eexists. reflexivity. Qed.

Example TestDrawService_PropoByDate_error :
  exists resp err,
    fst (PropoByDate PropoSat 23 12 2017
           (setup [("/DrawsRestServices/proposat/drawDate/23-12-2017.json",
                    (500, "something broke" ++ nl))]))
    = (None, Some resp, Some err)
    /\ http.StatusCode resp = 500.
Proof. do 2 eexists. split; reflexivity. Qed.
